(** * moneywiz-api: decoding and validation of transactions and holdings

    A shallow embedding of [moneywiz_api/model/transaction.py],
    [moneywiz_api/model/investment_holding.py], [moneywiz_api/model/group.py]
    and [moneywiz_api/managers/group_manager.py].

    Conventions of the embedding.
    - A [Decimal] is the rational number it denotes ([Q]); only finite
      decimals are modelled.  [==] and the order on decimals are numeric, as
      in Python.  Every arithmetic operation on decimals, [abs] and unary
      minus included, rounds its result to the 28 significant digits of
      Python's default context, ties to even ([decimal_round]); the
      exponent limits of the context are not modelled.
    - The tolerances [ABS_TOLERANCE] and [ABS_TOLERANCE2] are the binary
      floating-point numbers that the literals [0.001] and [0.01] denote;
      a decimal is compared with them exactly.
    - A raw row value is [None], an integer, a binary64 float or a text
      ([Value]); floats are those of [SpecFloat] with 53 bits of precision.
    - An exception ends a constructor: a constructor returns [Ok self] or
      [Raise e].  A failed [assert] carries the line of the statement in
      its source file. *)

From Stdlib Require Import QArith Qabs Qround Qpower Qreduction Lqa Lia ZArith.
From Stdlib Require Import Bool Ascii String SpecFloat.
From stdpp Require Import gmap strings.

Open Scope Q_scope.
Open Scope string_scope.

(** ** Binary floats *)

(** Python's [float] is binary64. *)
Definition float_add : spec_float -> spec_float -> spec_float := SFadd 53 1024.
Definition float_div : spec_float -> spec_float -> spec_float := SFdiv 53 1024.
Definition float_zero : spec_float := S754_zero false.

(** The float nearest to an integer; infinite when the integer is out of
    range. *)
Definition float_of_Z (z : Z) : spec_float := binary_normalize 53 1024 z 0 false.

(** The float that a decimal literal [n / d] denotes: the float nearest to
    the quotient of two integers that are floats themselves. *)
Definition float_literal (n d : Z) : spec_float :=
  float_div (float_of_Z n) (float_of_Z d).

(** The number a finite float denotes. *)
Definition float_value (f : spec_float) : option Q :=
  match f with
  | S754_zero _ => Some 0
  | S754_finite s m e => Some (inject_Z (cond_Zopp s (Z.pos m)) * 2 ^ e)
  | S754_infinity _ | S754_nan => None
  end.

(** ** Raw values and rows *)

(** What indexing a row gives: [None], an integer, a float, or a text. *)
Inductive Value : Type :=
| VNone
| VInt (z : Z)
| VFloat (f : spec_float)
| VStr (s : string).

(** A row maps column names to raw values. *)
Abbreviation Row := (gmap string Value).

(** [row[key]]; a column the row does not carry reads as [None]. *)
Definition getitem (row : Row) (key : string) : Value :=
  match row !! key with
  | Some v => v
  | None => VNone
  end.

(** ** Exceptions *)

Inductive exn : Type :=
| AssertionError (line : nat)
| AttributeError
| RuntimeError (msg : string) (arg : Value)
| TypeError
| OverflowError
| DivisionByZero
| InvalidOperation
| MissingField (column : string)
| RecordError.

Inductive Result (A : Type) : Type :=
| Ok (a : A)
| Raise (e : exn).

Arguments Ok {A} a.
Arguments Raise {A} e.

Definition bind {A B : Type} (c : Result A) (k : A -> Result B) : Result B :=
  match c with
  | Ok a => k a
  | Raise e => Raise e
  end.

Notation "x <- c ;; k" := (bind c (fun x => k))
  (at level 100, c at next level, right associativity).
Notation "c ;; k" := (bind c (fun _ => k))
  (at level 100, right associativity).

Definition is_ok {A : Type} (c : Result A) : bool :=
  match c with
  | Ok _ => true
  | Raise _ => false
  end.

(** [assert cond], the statement standing at [line].  It is also the
    statement [assert cond, self.as_dict()] of a [validate] method and of
    [Group.__init__]: there every field of the instance is assigned and
    the message is built without an exception. *)
Definition assert_ (line : nat) (cond : bool) : Result unit :=
  if cond then Ok tt else Raise (AssertionError line).

(** [assert cond, message]: the message is evaluated once the condition
    has failed, and what it raises replaces the [AssertionError]. *)
Definition assert_msg (line : nat) (cond : bool) (message : Result unit)
  : Result unit :=
  if cond then Ok tt else (message ;; Raise (AssertionError line)).

(** ** Decimal arithmetic *)

Definition Qlt_bool (x y : Q) : bool := negb (Qle_bool y x).

(** The precision of the default context. *)
Definition context_prec : Z := 28.

(** [ilog10 n] is the number of decimal digits of [n > 0], less one. *)
Fixpoint log10_fuel (fuel : nat) (n : Z) : Z :=
  match fuel with
  | O => 0
  | S fuel' => if (n <? 10)%Z then 0 else 1 + log10_fuel fuel' (n / 10)
  end%Z.

Definition ilog10 (n : Z) : Z := log10_fuel (Z.to_nat (Z.log2 n)) n.

(** The exponent of the leading digit of [x > 0]:
    [10 ^ adjusted x <= x < 10 ^ (adjusted x + 1)]. *)
Definition adjusted (x : Q) : Z :=
  if Qle_bool 1 x then ilog10 (Qfloor x)
  else (- (ilog10 (Qceiling (/ x) - 1) + 1))%Z.

(** The integer nearest to [x], the even one of two that are equally near. *)
Definition round_half_even (x : Q) : Z :=
  let f := Qfloor x in
  match Qcompare (x - inject_Z f) (1 # 2) with
  | Lt => f
  | Gt => (f + 1)%Z
  | Eq => if Z.even f then f else (f + 1)%Z
  end.

(** [x] rounded to a multiple of [10 ^ k]. *)
Definition quantize (x : Q) (k : Z) : Q :=
  inject_Z (round_half_even (x / 10 ^ k)) * 10 ^ k.

(** [x > 0] rounded to [context_prec] significant digits. *)
Definition round_pos (x : Q) : Q :=
  quantize x (adjusted x - (context_prec - 1)).

Definition round_signed (q : Q) : Q :=
  match Qcompare q 0 with
  | Eq => 0
  | Gt => round_pos (Qabs q)
  | Lt => - round_pos (Qabs q)
  end.

(** What the context makes of the exact result [q] of an operation: [q]
    itself when it has at most [context_prec] significant digits, else the
    nearest number that has, ties to even. *)
Definition decimal_round (q : Q) : Q :=
  let r := round_signed q in
  if Qeq_bool r q then q else r.

(** [q] has at most [context_prec] significant digits: the context leaves
    it as it is. *)
Definition context_exact (q : Q) : Prop := decimal_round q == q.

(** [a + b], [a - b], [a * b] and [- a] on decimals. *)
Definition decimal_add (a b : Q) : Q := decimal_round (a + b).
Definition decimal_sub (a b : Q) : Q := decimal_round (a - b).
Definition decimal_mul (a b : Q) : Q := decimal_round (a * b).
Definition decimal_neg (a : Q) : Q := decimal_round (- a).

(** [abs(x)] on a decimal. *)
Definition py_abs (x : Q) : Q := decimal_round (Qabs x).

(** [a / b] on decimals. *)
Definition decimal_div (a b : Q) : Result Q :=
  if Qeq_bool b 0
  then Raise (if Qeq_bool a 0 then InvalidOperation else DivisionByZero)
  else Ok (decimal_round (a / b)).

(** [max(a, b)]: the first argument unless the second is greater. *)
Definition py_max (a b : Q) : Q := if Qlt_bool a b then b else a.

(** [abs(expected - actual)], the distance that [pytest.approx] compares
    with the tolerance. *)
Definition approx_distance (actual expected : Q) : Q :=
  py_abs (decimal_sub expected actual).

(** [actual == pytest.approx(expected, abs=tol)]. *)
Definition approx (actual expected tol : Q) : bool :=
  Qeq_bool actual expected || Qle_bool (approx_distance actual expected) tol.

(** [-(shares * price + fee)] and [shares * price - fee], which the
    assertions of lines 212 and 269 compare with the amount. *)
Definition buy_value (shares price fee : Q) : Q :=
  decimal_neg (decimal_add (decimal_mul shares price) fee).

Definition sell_value (shares price fee : Q) : Q :=
  decimal_sub (decimal_mul shares price) fee.

(** [ABS_TOLERANCE = 0.001] and [ABS_TOLERANCE2 = 0.01]: the floats
    [float_literal 1 1000], which is 1152921504606847 / 2^60, and
    [float_literal 1 100], which is 5764607523034235 / 2^59. *)
Definition ABS_TOLERANCE : Q := 1152921504606847 # 1152921504606846976.
Definition ABS_TOLERANCE2 : Q := 5764607523034235 # 576460752303423488.

(** The fix shared by Deposit, Refund and Withdraw (lines 75, 333, 572):
    [if rate == Decimal(0): rate = None]. *)
Definition zero_rate_to_None (rate : option Q) : option Q :=
  match rate with
  | Some r => if Qeq_bool r 0 then None else Some r
  | None => None
  end.

(** ** Python operators on raw values *)

(** [x is None], for each type an attribute can have. *)
Class NoneTest (A : Type) : Type := is_None : A -> bool.

#[global] Instance NoneTest_Value : NoneTest Value :=
  fun v => match v with VNone => true | _ => false end.
#[global] Instance NoneTest_option {A : Type} : NoneTest (option A) :=
  fun o => match o with None => true | Some _ => false end.
#[global] Instance NoneTest_Decimal : NoneTest Q := fun _ => false.
#[global] Instance NoneTest_bool : NoneTest bool := fun _ => false.

Definition is_not_None {A : Type} `{NoneTest A} (x : A) : bool :=
  negb (is_None x).

(** [f == z] for a float and an integer: the two numbers are compared
    exactly. *)
Definition float_eq_Z (f : spec_float) (z : Z) : bool :=
  match float_value f with
  | Some q => Qeq_bool q (inject_Z z)
  | None => false
  end.

(** [x == y] on raw values. *)
Definition py_eq (x y : Value) : bool :=
  match x, y with
  | VNone, VNone => true
  | VInt a, VInt b => (a =? b)%Z
  | VFloat f, VFloat g => SFeqb f g
  | VInt a, VFloat g => float_eq_Z g a
  | VFloat f, VInt b => float_eq_Z f b
  | VStr s, VStr t => String.eqb s t
  | _, _ => false
  end.

(** [x in l] on raw values. *)
Definition py_in (x : Value) (l : list Value) : bool := existsb (py_eq x) l.

(** Truth value of a raw value, as [assert x] tests it. *)
Definition truthy (x : Value) : bool :=
  match x with
  | VNone => false
  | VInt a => negb (a =? 0)%Z
  | VFloat f => negb (SFeqb f float_zero)
  | VStr s => negb (String.eqb s "")
  end.

(** [float(z)], as the addition of an integer and a float converts the
    integer. *)
Definition int_to_float (z : Z) : Result spec_float :=
  match float_of_Z z with
  | S754_infinity _ => Raise OverflowError
  | f => Ok f
  end.

(** [x + y] on raw values. *)
Definition py_add (x y : Value) : Result Value :=
  match x, y with
  | VInt a, VInt b => Ok (VInt (a + b))
  | VFloat f, VFloat g => Ok (VFloat (float_add f g))
  | VInt a, VFloat g => f <- int_to_float a ;; Ok (VFloat (float_add f g))
  | VFloat f, VInt b => g <- int_to_float b ;; Ok (VFloat (float_add f g))
  | VStr s, VStr t => Ok (VStr (s ++ t))
  | _, _ => Raise TypeError
  end.

(** [x <= 0] and [x >= 0] on a raw value. *)
Definition py_le0 (x : Value) : Result bool :=
  match x with
  | VInt a => Ok (a <=? 0)%Z
  | VFloat f => Ok (SFleb f float_zero)
  | _ => Raise TypeError
  end.

Definition py_ge0 (x : Value) : Result bool :=
  match x with
  | VInt a => Ok (0 <=? a)%Z
  | VFloat f => Ok (SFleb float_zero f)
  | _ => Raise TypeError
  end.


(** [x != 0] on a raw value. *)
Definition py_ne0 (x : Value) : bool :=
  match x with
  | VInt a => negb (a =? 0)%Z
  | VFloat f => negb (SFeqb f float_zero)
  | _ => true
  end.

(** ** Collaborators that are not part of the two modules *)

(** [RawDataHandler]: the typed accessors.  [None] is the accessor
    raising; [get_nullable_decimal] gives [Some None] for a stored null. *)
Class RawDataHandler : Type := {
  Datetime : Type;
  get_decimal : Row -> string -> option Q;
  get_nullable_decimal : Row -> string -> option (option Q);
  get_datetime : Row -> string -> option Datetime
}.

(** [Record]: the base class.  [Record_init] is its [__init__];
    [as_dict_partial_fails] tells whether [Record.as_dict] raises
    [AttributeError] on an instance some of whose declared fields are not
    assigned yet, rather than building a dictionary of those that are. *)
Class RecordBase : Type := {
  record_fields : Type;
  Record_init : Row -> option record_fields;
  as_dict_partial_fails : bool
}.

(** [self.as_dict()] as the message of an assertion.  On an instance all
    of whose declared fields are assigned the dictionary is built. *)
Definition as_dict_message {REC : RecordBase} (complete : bool) : Result unit :=
  if complete then Ok tt
  else if as_dict_partial_fails then Raise AttributeError else Ok tt.

Definition accessor {A : Type} (column : string) (o : option A) : Result A :=
  match o with
  | Some a => Ok a
  | None => Raise (MissingField column)
  end.

Definition super_record {A : Type} (o : option A) : Result A :=
  match o with
  | Some a => Ok a
  | None => Raise RecordError
  end.

(** ** transaction.py *)

Module Transaction.
Section Def.
Context {RDH : RawDataHandler} {REC : RecordBase}.

#[local] Instance NoneTest_Datetime : NoneTest Datetime := fun _ => false.

Record t : Type := {
  record : record_fields;
  reconciled : bool;
  amount : Q;
  description : Value;
  datetime : Datetime;
  notes : Value
}.

Definition set_amount (self : t) (a : Q) : t :=
  {| record := record self; reconciled := reconciled self; amount := a;
     description := description self; datetime := datetime self;
     notes := notes self |}.

(** [complete] tells whether the instance under construction has all its
    declared fields once those of [Transaction] are assigned: it has when
    the class instantiated is [Transaction] itself or adds no field, and
    has not when [__init__] runs as [super().__init__(row)] of a class
    that adds fields. *)
Definition __init__ (complete : bool) (row : Row) : Result t :=
  rec <- super_record (Record_init row) ;;
  let reconciled := py_eq (getitem row "ZRECONCILED") (VInt 1) in
  amount <- accessor "ZAMOUNT1" (get_decimal row "ZAMOUNT1") ;;
  let description := getitem row "ZDESC2" in
  datetime <- accessor "ZDATE1" (get_datetime row "ZDATE1") ;;
  let notes := getitem row "ZNOTES1" in
  (* Validate *)
  assert_msg 41 (is_not_None reconciled) (as_dict_message complete) ;;
  assert_msg 42 (is_not_None amount) (as_dict_message complete) ;;
  assert_msg 43 (is_not_None description) (as_dict_message complete) ;;
  assert_msg 44 (is_not_None datetime) (as_dict_message complete) ;;
  Ok {| record := rec; reconciled := reconciled; amount := amount;
        description := description; datetime := datetime; notes := notes |}.

End Def.
End Transaction.

Module InvestmentBuyTransaction.
Section Def.
Context {RDH : RawDataHandler} {REC : RecordBase}.

Record t : Type := {
  super : Transaction.t;
  account : Value;
  fee : Q;
  investment_holding : Value;
  number_of_shares : Q;
  price_per_share : Q;
  symbol : Value
}.

(** [self.amount] is the attribute the base class introduced. *)
Definition amount (self : t) : Q := Transaction.amount (super self).

(** Line 203: the fee is either tiny (close to 0) or positive. *)
Definition fee_tiny_or_positive (fee : Q) : bool :=
  approx (py_abs fee) 0 ABS_TOLERANCE || Qlt_bool ABS_TOLERANCE fee.

Definition validate (self : t) : Result unit :=
  assert_ 197 (is_not_None (account self)) ;;
  assert_ 198 (is_not_None (amount self)) ;;
  assert_ 199 (Qle_bool (amount self) 0) ;;
  assert_ 200 (is_not_None (fee self)) ;;
  assert_ 201 (Qle_bool 0 (fee self)) ;;
  assert_ 203 (fee_tiny_or_positive (fee self)) ;;
  assert_ 207 (is_not_None (investment_holding self)) ;;
  assert_ 208 (is_not_None (number_of_shares self)) ;;
  assert_ 209 (Qlt_bool 0 (number_of_shares self)) ;;
  assert_ 210 (is_not_None (price_per_share self)) ;;
  assert_ 211 (Qle_bool 0 (price_per_share self)) ;;
  assert_ 212 (approx (buy_value (number_of_shares self) (price_per_share self)
                                 (fee self))
                      (amount self) ABS_TOLERANCE) ;;
  assert_ 215 (is_not_None (symbol self)).

Definition __init__ (row : Row) : Result t :=
  super <- Transaction.__init__ false row ;;
  let account := getitem row "ZACCOUNT2" in
  amount <- accessor "ZAMOUNT1" (get_decimal row "ZAMOUNT1") ;;
  let super := Transaction.set_amount super amount in
  fee <- accessor "ZFEE2" (get_decimal row "ZFEE2") ;;
  let investment_holding := getitem row "ZINVESTMENTHOLDING" in
  number_of_shares <- accessor "ZNUMBEROFSHARES1" (get_decimal row "ZNUMBEROFSHARES1") ;;
  price_per_share <- accessor "ZPRICEPERSHARE1" (get_decimal row "ZPRICEPERSHARE1") ;;
  let symbol := getitem row "ZSYMBOL1" in
  (* Fixes *)
  let fee := py_max fee 0 in
  let self :=
    {| super := super; account := account; fee := fee;
       investment_holding := investment_holding;
       number_of_shares := number_of_shares;
       price_per_share := price_per_share; symbol := symbol |} in
  (* Validate *)
  validate self ;;
  Ok self.

End Def.
End InvestmentBuyTransaction.

Module InvestmentSellTransaction.
Section Def.
Context {RDH : RawDataHandler} {REC : RecordBase}.

Record t : Type := {
  super : Transaction.t;
  account : Value;
  fee : Q;
  investment_holding : Value;
  number_of_shares : Q;
  price_per_share : Q;
  symbol : Value
}.

Definition amount (self : t) : Q := Transaction.amount (super self).

(** Line 259: the fee is either tiny (close to 0) or positive. *)
Definition fee_tiny_or_positive (fee : Q) : bool :=
  approx (py_abs fee) 0 ABS_TOLERANCE || Qlt_bool ABS_TOLERANCE fee.

Definition validate (self : t) : Result unit :=
  assert_ 253 (is_not_None (account self)) ;;
  assert_ 254 (is_not_None (amount self)) ;;
  assert_ 256 (is_not_None (fee self)) ;;
  assert_ 257 (Qle_bool 0 (fee self)) ;;
  assert_ 259 (fee_tiny_or_positive (fee self)) ;;
  assert_ 264 (is_not_None (investment_holding self)) ;;
  assert_ 265 (is_not_None (number_of_shares self)) ;;
  assert_ 266 (Qlt_bool 0 (number_of_shares self)) ;;
  assert_ 267 (is_not_None (price_per_share self)) ;;
  assert_ 268 (Qle_bool 0 (price_per_share self)) ;;
  assert_ 269 (approx (sell_value (number_of_shares self) (price_per_share self)
                                  (fee self))
                      (amount self) ABS_TOLERANCE) ;;
  assert_ 272 (is_not_None (symbol self)).

Definition __init__ (row : Row) : Result t :=
  super <- Transaction.__init__ false row ;;
  let account := getitem row "ZACCOUNT2" in
  amount <- accessor "ZAMOUNT1" (get_decimal row "ZAMOUNT1") ;;
  let super := Transaction.set_amount super amount in
  fee <- accessor "ZFEE2" (get_decimal row "ZFEE2") ;;
  let investment_holding := getitem row "ZINVESTMENTHOLDING" in
  number_of_shares <- accessor "ZNUMBEROFSHARES1" (get_decimal row "ZNUMBEROFSHARES1") ;;
  price_per_share <- accessor "ZPRICEPERSHARE1" (get_decimal row "ZPRICEPERSHARE1") ;;
  let symbol := getitem row "ZSYMBOL1" in
  (* Fixes *)
  let fee := py_max fee 0 in
  let self :=
    {| super := super; account := account; fee := fee;
       investment_holding := investment_holding;
       number_of_shares := number_of_shares;
       price_per_share := price_per_share; symbol := symbol |} in
  (* Validate *)
  validate self ;;
  Ok self.

End Def.
End InvestmentSellTransaction.

Module DepositTransaction.
Section Def.
Context {RDH : RawDataHandler} {REC : RecordBase}.

Record t : Type := {
  super : Transaction.t;
  account : Value;
  payee : Value;
  original_currency : Value;
  original_amount : Q;
  original_exchange_rate : option Q
}.

Definition amount (self : t) : Q := Transaction.amount (super self).

Definition validate (self : t) : Result unit :=
  assert_ 82 (is_not_None (account self)) ;;
  assert_ 83 (is_not_None (amount self)) ;;
  assert_ 85 (is_not_None (original_currency self)) ;;
  assert_ 86 (is_not_None (original_amount self)) ;;
  assert_ 88 (Qlt_bool 0 (decimal_mul (amount self) (original_amount self))) ;;
  match original_exchange_rate self with
  | Some rate =>
      assert_ 90 (approx (amount self) (decimal_mul (original_amount self) rate)
                         ABS_TOLERANCE)
  | None => Ok tt
  end.

Definition __init__ (row : Row) : Result t :=
  super <- Transaction.__init__ false row ;;
  let account := getitem row "ZACCOUNT2" in
  amount <- accessor "ZAMOUNT1" (get_decimal row "ZAMOUNT1") ;;
  let super := Transaction.set_amount super amount in
  let payee := getitem row "ZPAYEE2" in
  let original_currency := getitem row "ZORIGINALCURRENCY" in
  original_amount <- accessor "ZORIGINALAMOUNT" (get_decimal row "ZORIGINALAMOUNT") ;;
  original_exchange_rate <-
    accessor "ZORIGINALEXCHANGERATE" (get_nullable_decimal row "ZORIGINALEXCHANGERATE") ;;
  (* Fixes *)
  let original_exchange_rate := zero_rate_to_None original_exchange_rate in
  let self :=
    {| super := super; account := account; payee := payee;
       original_currency := original_currency;
       original_amount := original_amount;
       original_exchange_rate := original_exchange_rate |} in
  (* Validate *)
  validate self ;;
  Ok self.

End Def.
End DepositTransaction.

Module WithdrawTransaction.
Section Def.
Context {RDH : RawDataHandler} {REC : RecordBase}.

Record t : Type := {
  super : Transaction.t;
  account : Value;
  payee : Value;
  original_currency : Value;
  original_amount : Q;
  original_exchange_rate : option Q
}.

Definition amount (self : t) : Q := Transaction.amount (super self).

(** Lines 569-570: [if amount * original_amount < 0: original_amount = -original_amount]. *)
Definition fix_sign (amount original_amount : Q) : Q :=
  if Qlt_bool (decimal_mul amount original_amount) 0
  then decimal_neg original_amount
  else original_amount.

Definition validate (self : t) : Result unit :=
  assert_ 579 (is_not_None (account self)) ;;
  assert_ 580 (is_not_None (amount self)) ;;
  assert_ 582 (is_not_None (original_currency self)) ;;
  assert_ 583 (is_not_None (original_amount self)) ;;
  assert_ 585 (Qlt_bool 0 (decimal_mul (amount self) (original_amount self))) ;;
  match original_exchange_rate self with
  | Some rate =>
      assert_ 588 (approx (amount self) (decimal_mul (original_amount self) rate)
                          ABS_TOLERANCE2)
  | None => Ok tt
  end.

Definition __init__ (row : Row) : Result t :=
  super <- Transaction.__init__ false row ;;
  let account := getitem row "ZACCOUNT2" in
  amount <- accessor "ZAMOUNT1" (get_decimal row "ZAMOUNT1") ;;
  let super := Transaction.set_amount super amount in
  let payee := getitem row "ZPAYEE2" in
  let original_currency := getitem row "ZORIGINALCURRENCY" in
  original_amount <- accessor "ZORIGINALAMOUNT" (get_decimal row "ZORIGINALAMOUNT") ;;
  original_exchange_rate <-
    accessor "ZORIGINALEXCHANGERATE" (get_nullable_decimal row "ZORIGINALEXCHANGERATE") ;;
  (* Fixes *)
  let original_amount := fix_sign amount original_amount in
  let original_exchange_rate := zero_rate_to_None original_exchange_rate in
  let self :=
    {| super := super; account := account; payee := payee;
       original_currency := original_currency;
       original_amount := original_amount;
       original_exchange_rate := original_exchange_rate |} in
  (* Validate *)
  validate self ;;
  Ok self.

End Def.
End WithdrawTransaction.

Module InvestmentExchangeTransaction.
Section Def.
Context {RDH : RawDataHandler} {REC : RecordBase}.

Record t : Type := {
  super : Transaction.t;
  account : Value;
  from_investment_holding : Value;
  from_symbol : Value;
  to_investment_holding : Value;
  to_symbol : Value;
  from_number_of_shares : Value;
  to_number_of_shares : Value;
  fee : Q;
  original_fee : Value;
  original_fee_currency : Value
}.

Definition validate (self : t) : Result unit :=
  assert_ 139 (is_not_None (account self)) ;;
  assert_ 140 (is_not_None (from_investment_holding self)) ;;
  assert_ 141 (truthy (from_symbol self)) ;;
  assert_ 142 (is_not_None (to_investment_holding self)) ;;
  assert_ 143 (truthy (to_symbol self)) ;;
  c <- py_le0 (from_number_of_shares self) ;;
  assert_ 144 c ;;
  c <- py_ge0 (to_number_of_shares self) ;;
  assert_ 145 c ;;
  assert_ 146 (is_not_None (original_fee self)) ;;
  assert_ 147 (py_in (original_fee_currency self) [from_symbol self; to_symbol self]) ;;
  if negb (Qeq_bool (fee self) 0)
  then assert_ 150 (py_ne0 (original_fee self))
  else Ok tt.

(** Lines 130-133: the fee is added to the shares of the side whose symbol
    is the fee's currency; the result is the pair (from, to). *)
Definition fold_fee (original_fee_currency from_symbol to_symbol
                     from_number_of_shares to_number_of_shares original_fee : Value)
  : Result (Value * Value) :=
  if py_eq original_fee_currency from_symbol then
    from_number_of_shares <- py_add from_number_of_shares original_fee ;;
    Ok (from_number_of_shares, to_number_of_shares)
  else if py_eq original_fee_currency to_symbol then
    to_number_of_shares <- py_add to_number_of_shares original_fee ;;
    Ok (from_number_of_shares, to_number_of_shares)
  else Ok (from_number_of_shares, to_number_of_shares).

Definition __init__ (row : Row) : Result t :=
  super <- Transaction.__init__ false row ;;
  let account := getitem row "ZACCOUNT2" in
  let from_investment_holding := getitem row "ZFROMINVESTMENTHOLDING" in
  let from_symbol := getitem row "ZFROMSYMBOL" in
  let to_investment_holding := getitem row "ZTOINVESTMENTHOLDING" in
  let to_symbol := getitem row "ZTOSYMBOL" in
  let from_number_of_shares := getitem row "ZFROMNUMBEROFSHARES" in
  let to_number_of_shares := getitem row "ZTONUMBEROFSHARES" in
  fee <- accessor "ZFEE2" (get_decimal row "ZFEE2") ;;
  let original_fee := getitem row "ZORIGINALFEE" in
  let original_fee_currency := getitem row "ZORIGINALFEECURRENCY" in
  (* Fixes *)
  shares <- fold_fee original_fee_currency from_symbol to_symbol
                     from_number_of_shares to_number_of_shares original_fee ;;
  let self :=
    {| super := super; account := account;
       from_investment_holding := from_investment_holding;
       from_symbol := from_symbol;
       to_investment_holding := to_investment_holding;
       to_symbol := to_symbol;
       from_number_of_shares := fst shares;
       to_number_of_shares := snd shares;
       fee := fee; original_fee := original_fee;
       original_fee_currency := original_fee_currency |} in
  (* Validate *)
  validate self ;;
  Ok self.

End Def.
End InvestmentExchangeTransaction.

Module TransferDepositTransaction.
Section Def.
Context {RDH : RawDataHandler} {REC : RecordBase}.

Record t : Type := {
  super : Transaction.t;
  account : Value;
  investment_holding : Value;
  number_of_shares : option Q;
  price_per_share : option Q;
  symbol : Value;
  sender_account : Value;
  sender_transaction : Value;
  original_amount : Q;
  original_currency : Value;
  sender_amount : Q;
  sender_currency : Value;
  original_exchange_rate : Q
}.

Definition amount (self : t) : Q := Transaction.amount (super self).

Definition validate (self : t) : Result unit :=
  assert_ 425 (is_not_None (account self)) ;;
  assert_ 426 (is_not_None (amount self)) ;;
  assert_ 427 (Qlt_bool 0 (amount self)) ;;
  assert_ 428 (is_not_None (sender_account self)) ;;
  assert_ 429 (is_not_None (sender_transaction self)) ;;
  assert_ 430 (is_not_None (original_amount self)) ;;
  assert_ 431 (Qlt_bool 0 (original_amount self)) ;;
  assert_ 432 (is_not_None (original_currency self)) ;;
  assert_ 433 (is_not_None (sender_amount self)) ;;
  assert_ 434 (Qle_bool (sender_amount self) 0) ;;
  assert_ 435 (is_not_None (sender_currency self)) ;;
  (if is_None (investment_holding self) then
     assert_ 438 (approx (amount self) (original_amount self) ABS_TOLERANCE)
   else
     assert_ 440 (is_not_None (number_of_shares self)) ;;
     assert_ 441 (is_not_None (price_per_share self)) ;;
     assert_ 443 (is_not_None (symbol self))) ;;
  assert_ 445 (approx (original_amount self)
                      (decimal_mul (decimal_neg (sender_amount self))
                                   (original_exchange_rate self))
                      ABS_TOLERANCE).

Definition __init__ (row : Row) : Result t :=
  super <- Transaction.__init__ false row ;;
  let account := getitem row "ZACCOUNT2" in
  amount <- accessor "ZAMOUNT1" (get_decimal row "ZAMOUNT1") ;;
  let super := Transaction.set_amount super amount in
  let investment_holding := getitem row "ZINVESTMENTHOLDING" in
  number_of_shares <-
    accessor "ZNUMBEROFSHARES1" (get_nullable_decimal row "ZNUMBEROFSHARES1") ;;
  price_per_share <-
    accessor "ZPRICEPERSHARE1" (get_nullable_decimal row "ZPRICEPERSHARE1") ;;
  let symbol := getitem row "ZSYMBOL1" in
  let sender_account := getitem row "ZSENDERACCOUNT" in
  let sender_transaction := getitem row "ZSENDERTRANSACTION" in
  original_amount <- accessor "ZORIGINALAMOUNT" (get_decimal row "ZORIGINALAMOUNT") ;;
  let original_currency := getitem row "ZORIGINALCURRENCY" in
  sender_amount <-
    accessor "ZORIGINALSENDERAMOUNT" (get_decimal row "ZORIGINALSENDERAMOUNT") ;;
  let sender_currency := getitem row "ZORIGINALSENDERCURRENCY" in
  original_exchange_rate <-
    accessor "ZORIGINALEXCHANGERATE" (get_decimal row "ZORIGINALEXCHANGERATE") ;;
  (* Fixes *)
  let original_amount := py_abs original_amount in
  let self :=
    {| super := super; account := account;
       investment_holding := investment_holding;
       number_of_shares := number_of_shares;
       price_per_share := price_per_share; symbol := symbol;
       sender_account := sender_account;
       sender_transaction := sender_transaction;
       original_amount := original_amount;
       original_currency := original_currency;
       sender_amount := sender_amount; sender_currency := sender_currency;
       original_exchange_rate := original_exchange_rate |} in
  (* Validate *)
  validate self ;;
  Ok self.

End Def.
End TransferDepositTransaction.

Module TransferWithdrawTransaction.
Section Def.
Context {RDH : RawDataHandler} {REC : RecordBase}.

Record t : Type := {
  super : Transaction.t;
  account : Value;
  fee : option Q;
  investment_holding : Value;
  number_of_shares : option Q;
  price_per_share : option Q;
  symbol : Value;
  recipient_account : Value;
  recipient_transaction : Value;
  original_amount : Q;
  original_currency : Value;
  recipient_amount : Q;
  recipient_currency : Value;
  original_fee : option Q;
  original_fee_currency : Value;
  original_exchange_rate : Q
}.

Definition amount (self : t) : Q := Transaction.amount (super self).

Definition validate (self : t) : Result unit :=
  assert_ 513 (is_not_None (account self)) ;;
  assert_ 514 (is_not_None (amount self)) ;;
  assert_ 515 (Qlt_bool (amount self) 0) ;;
  assert_ 516 (is_not_None (recipient_account self)) ;;
  assert_ 517 (is_not_None (recipient_transaction self)) ;;
  assert_ 518 (is_not_None (original_amount self)) ;;
  assert_ 519 (Qlt_bool (original_amount self) 0) ;;
  assert_ 520 (is_not_None (original_currency self)) ;;
  assert_ 521 (is_not_None (recipient_amount self)) ;;
  assert_ 522 (Qlt_bool 0 (recipient_amount self)) ;;
  assert_ 523 (is_not_None (recipient_currency self)) ;;
  (if is_None (investment_holding self) then
     assert_ 526 (Qeq_bool (amount self) (original_amount self))
   else
     assert_ 528 (is_not_None (fee self)) ;;
     assert_ 529 (is_not_None (number_of_shares self)) ;;
     assert_ 530 (is_not_None (price_per_share self)) ;;
     assert_ 531 (is_not_None (original_fee_currency self)) ;;
     assert_ 532 (is_not_None (symbol self))) ;;
  assert_ 534 (is_not_None (original_exchange_rate self)) ;;
  expected <- decimal_div (decimal_neg (recipient_amount self))
                          (original_exchange_rate self) ;;
  assert_ 535 (approx (original_amount self) expected ABS_TOLERANCE).

Definition __init__ (row : Row) : Result t :=
  super <- Transaction.__init__ false row ;;
  let account := getitem row "ZACCOUNT2" in
  amount <- accessor "ZAMOUNT1" (get_decimal row "ZAMOUNT1") ;;
  let super := Transaction.set_amount super amount in
  fee <- accessor "ZFEE2" (get_nullable_decimal row "ZFEE2") ;;
  let investment_holding := getitem row "ZINVESTMENTHOLDING" in
  number_of_shares <-
    accessor "ZNUMBEROFSHARES1" (get_nullable_decimal row "ZNUMBEROFSHARES1") ;;
  price_per_share <-
    accessor "ZPRICEPERSHARE1" (get_nullable_decimal row "ZPRICEPERSHARE1") ;;
  let symbol := getitem row "ZSYMBOL1" in
  let recipient_account := getitem row "ZRECIPIENTACCOUNT1" in
  let recipient_transaction := getitem row "ZRECIPIENTTRANSACTION" in
  original_amount <- accessor "ZORIGINALAMOUNT" (get_decimal row "ZORIGINALAMOUNT") ;;
  let original_currency := getitem row "ZORIGINALCURRENCY" in
  recipient_amount <-
    accessor "ZORIGINALRECIPIENTAMOUNT" (get_decimal row "ZORIGINALRECIPIENTAMOUNT") ;;
  let recipient_currency := getitem row "ZORIGINALRECIPIENTCURRENCY" in
  original_fee <- accessor "ZORIGINALFEE" (get_nullable_decimal row "ZORIGINALFEE") ;;
  let original_fee_currency := getitem row "ZORIGINALFEECURRENCY" in
  original_exchange_rate <-
    accessor "ZORIGINALEXCHANGERATE" (get_decimal row "ZORIGINALEXCHANGERATE") ;;
  (* Fixes *)
  let recipient_amount := py_abs recipient_amount in
  let self :=
    {| super := super; account := account; fee := fee;
       investment_holding := investment_holding;
       number_of_shares := number_of_shares;
       price_per_share := price_per_share; symbol := symbol;
       recipient_account := recipient_account;
       recipient_transaction := recipient_transaction;
       original_amount := original_amount;
       original_currency := original_currency;
       recipient_amount := recipient_amount;
       recipient_currency := recipient_currency;
       original_fee := original_fee;
       original_fee_currency := original_fee_currency;
       original_exchange_rate := original_exchange_rate |} in
  (* Validate *)
  validate self ;;
  Ok self.

End Def.
End TransferWithdrawTransaction.

Module ReconcileTransaction.
Section Def.
Context {RDH : RawDataHandler} {REC : RecordBase}.

Record t : Type := {
  super : Transaction.t;
  account : Value;
  reconcile_amount : option Q;
  reconcile_number_of_shares : option Q
}.

Definition validate (self : t) : Result unit :=
  assert_ 298 (is_not_None (account self)) ;;
  assert_ 299 (is_not_None (reconcile_amount self)
               || is_not_None (reconcile_number_of_shares self)).

Definition __init__ (row : Row) : Result t :=
  super <- Transaction.__init__ false row ;;
  let account := getitem row "ZACCOUNT2" in
  reconcile_amount <-
    accessor "ZRECONCILEAMOUNT" (get_nullable_decimal row "ZRECONCILEAMOUNT") ;;
  reconcile_number_of_shares <-
    accessor "ZRECONCILENUMBEROFSHARES"
             (get_nullable_decimal row "ZRECONCILENUMBEROFSHARES") ;;
  let self :=
    {| super := super; account := account;
       reconcile_amount := reconcile_amount;
       reconcile_number_of_shares := reconcile_number_of_shares |} in
  (* Validate *)
  validate self ;;
  Ok self.

End Def.
End ReconcileTransaction.

Module RefundTransaction.
Section Def.
Context {RDH : RawDataHandler} {REC : RecordBase}.

Record t : Type := {
  super : Transaction.t;
  account : Value;
  payee : Value;
  original_currency : Value;
  original_amount : Q;
  original_exchange_rate : option Q
}.

Definition amount (self : t) : Q := Transaction.amount (super self).

Definition validate (self : t) : Result unit :=
  assert_ 340 (is_not_None (account self)) ;;
  assert_ 341 (is_not_None (amount self)) ;;
  assert_ 342 (Qlt_bool 0 (amount self)) ;;
  assert_ 344 (is_not_None (original_currency self)) ;;
  assert_ 345 (is_not_None (original_amount self)) ;;
  assert_ 346 (Qlt_bool 0 (original_amount self)) ;;
  match original_exchange_rate self with
  | Some rate =>
      assert_ 349 (approx (amount self) (decimal_mul (original_amount self) rate)
                          ABS_TOLERANCE)
  | None => Ok tt
  end.

Definition __init__ (row : Row) : Result t :=
  super <- Transaction.__init__ false row ;;
  let account := getitem row "ZACCOUNT2" in
  amount <- accessor "ZAMOUNT1" (get_decimal row "ZAMOUNT1") ;;
  let super := Transaction.set_amount super amount in
  let payee := getitem row "ZPAYEE2" in
  let original_currency := getitem row "ZORIGINALCURRENCY" in
  original_amount <- accessor "ZORIGINALAMOUNT" (get_decimal row "ZORIGINALAMOUNT") ;;
  original_exchange_rate <-
    accessor "ZORIGINALEXCHANGERATE" (get_nullable_decimal row "ZORIGINALEXCHANGERATE") ;;
  (* Fixes *)
  let original_exchange_rate := zero_rate_to_None original_exchange_rate in
  let self :=
    {| super := super; account := account; payee := payee;
       original_currency := original_currency;
       original_amount := original_amount;
       original_exchange_rate := original_exchange_rate |} in
  (* Validate *)
  validate self ;;
  Ok self.

End Def.
End RefundTransaction.

Module TransferBudgetTransaction.
Section Def.
Context {RDH : RawDataHandler} {REC : RecordBase}.

Record t : Type := { super : Transaction.t }.

Definition __init__ (row : Row) : Result t :=
  super <- Transaction.__init__ true row ;;
  Ok {| super := super |}.

End Def.
End TransferBudgetTransaction.

(** ** investment_holding.py *)

Module InvestmentHolding.
Section Def.
Context {RDH : RawDataHandler} {REC : RecordBase}.

Record t : Type := {
  record : record_fields;
  account : Value;
  opening_number_of_shares : option Q;
  number_of_shares : Q;
  symbol : Value;
  holding_type : Value;
  description : Value;
  price_per_share_available_online : bool;
  investment_object_type : string;
  _cost_basis_of_missing_ob_shares : Q
}.

#[local] Instance NoneTest_str : NoneTest string := fun _ => false.

Definition _convert_investment_object_type (type_ : Value) : Result string :=
  if py_in type_ [VInt 0; VInt 1]
  then Ok (if py_eq type_ (VInt 1) then "Forex/Crypto" else "Investment")
  else Raise (RuntimeError "Invalid type " type_).

Definition validate (self : t) : Result unit :=
  assert_ 67 (is_not_None (account self)) ;;
  assert_ 68 (is_not_None (number_of_shares self)) ;;
  assert_ 70 (is_not_None (symbol self)) ;;
  assert_ 71 (is_not_None (description self)) ;;
  assert_ 73 (is_not_None (investment_object_type self)) ;;
  assert_ 74 (is_not_None (_cost_basis_of_missing_ob_shares self)).

Definition __init__ (row : Row) : Result t :=
  rec <- super_record (Record_init row) ;;
  let account := getitem row "ZINVESTMENTACCOUNT" in
  opening_number_of_shares <-
    accessor "ZOPENNINGNUMBEROFSHARES" (get_nullable_decimal row "ZOPENNINGNUMBEROFSHARES") ;;
  number_of_shares <- accessor "ZNUMBEROFSHARES" (get_decimal row "ZNUMBEROFSHARES") ;;
  let symbol := getitem row "ZSYMBOL" in
  let holding_type := getitem row "ZHOLDINGTYPE" in
  let description := getitem row "ZDESC" in
  let price_per_share_available_online :=
    py_eq (getitem row "ZISPRICEPERSHAREAVAILABLEONLINE") (VInt 1) in
  investment_object_type <-
    _convert_investment_object_type (getitem row "ZINVESTMENTOBJECTTYPE") ;;
  _cost_basis_of_missing_ob_shares <-
    accessor "ZCOSTBASISOFMISSINGOBSHARES" (get_decimal row "ZCOSTBASISOFMISSINGOBSHARES") ;;
  let self :=
    {| record := rec; account := account;
       opening_number_of_shares := opening_number_of_shares;
       number_of_shares := number_of_shares; symbol := symbol;
       holding_type := holding_type; description := description;
       price_per_share_available_online := price_per_share_available_online;
       investment_object_type := investment_object_type;
       _cost_basis_of_missing_ob_shares := _cost_basis_of_missing_ob_shares |} in
  (* Validate *)
  validate self ;;
  Ok self.

(** [del d[key]] on a dictionary without the key. *)
Inductive KeyError : Type := KeyError_of (key : string).

(** [as_dict], lines 76-79; [super_as_dict] is [super().as_dict()], the
    dictionary that [Record.as_dict] builds for the instance. *)
Definition as_dict {V : Type} (super_as_dict : t -> gmap string V) (self : t)
  : KeyError + gmap string V :=
  let original := super_as_dict self in
  match original !! "_cost_basis_of_missing_ob_shares" with
  | Some _ => inr (delete "_cost_basis_of_missing_ob_shares" original)
  | None => inl (KeyError_of "_cost_basis_of_missing_ob_shares")
  end.

End Def.
End InvestmentHolding.

(** ** group.py *)

Module Group.
Section Def.
Context {REC : RecordBase}.

Record t : Type := {
  record : record_fields;
  name : Value;
  user : Value;
  group_id : Value;
  display_order : Value
}.

Definition __init__ (row : Row) : Result t :=
  rec <- super_record (Record_init row) ;;
  let name := getitem row "ZNAME4" in
  let group_id := getitem row "ZGROUPID3" in
  let display_order := getitem row "ZDISPLAYORDER4" in
  let user := getitem row "ZUSER5" in
  (* Validate *)
  assert_ 29 (is_not_None name) ;;
  assert_ 30 (is_not_None user) ;;
  Ok {| record := rec; name := name; user := user; group_id := group_id;
        display_order := display_order |}.

End Def.
End Group.

(** ** group_manager.py *)

Module GroupManager.
Section Def.
Context {REC : RecordBase}.

(** [ents]: the constructor of each entity name the manager handles. *)
Definition ents : gmap string (Row -> Result Group.t) :=
  {[ "Group" := Group.__init__ ]}.

(** [next((x for _, x in self.records().items() if x.group_id == group_id), None)].
    [records] is what [self.records().items()] iterates over, in the order
    of the dictionary; the result [None] of Python is [None]. *)
Definition get_group_by_group_id (records : list (Value * Group.t))
    (group_id : Value) : option Group.t :=
  head (List.map snd
          (List.filter (fun kx => py_eq (Group.group_id (snd kx)) group_id)
                       records)).

End Def.
End GroupManager.

(** ** A coercion layer to run the constructors on concrete rows *)

Module SpecRDH.

(** The decimal that a text spells: an optional minus sign, digits, and
    possibly a point followed by digits. *)
Definition digit_of (c : Ascii.ascii) : option Z :=
  let n := Z.of_nat (Ascii.nat_of_ascii c) in
  if ((48 <=? n) && (n <=? 57))%Z then Some (n - 48)%Z else None.

Fixpoint parse_digits (s : string) (acc : Z) (scale : option positive)
    (seen : bool) : option Q :=
  match s with
  | EmptyString =>
      if seen then Some (acc # match scale with Some p => p | None => 1 end)
      else None
  | String c rest =>
      match digit_of c with
      | Some d =>
          parse_digits rest (acc * 10 + d)
                       (option_map (fun p => (p * 10)%positive) scale) true
      | None =>
          if Ascii.eqb c "."%char then
            match scale with
            | None => parse_digits rest acc (Some 1%positive) seen
            | Some _ => None
            end
          else None
      end
  end.

Definition parse_decimal (s : string) : option Q :=
  match s with
  | String c rest =>
      if Ascii.eqb c "-"%char then option_map Qopp (parse_digits rest 0 None false)
      else parse_digits s 0 None false
  | EmptyString => None
  end.

(** Modelled from the spec: [RawDataHandler] (model/raw_data_handler.py is
    not among the sources).  The exact decimal of a column is that of the
    stored integer, finite float or numeral; it fails when the column is
    absent or holds none of these; the nullable one gives null for a
    stored null; the datetime of a column is derived from the stored
    number and fails on absence. *)
Definition get_decimal (row : Row) (key : string) : option Q :=
  match getitem row key with
  | VNone => None
  | VInt z => Some (inject_Z z)
  | VFloat f => float_value f
  | VStr s => parse_decimal s
  end.

Definition get_nullable_decimal (row : Row) (key : string) : option (option Q) :=
  match getitem row key with
  | VNone => Some None
  | _ => option_map Some (get_decimal row key)
  end.

Definition get_datetime (row : Row) (key : string) : option Q :=
  match getitem row key with
  | VInt z => Some (inject_Z z)
  | VFloat f => float_value f
  | _ => None
  end.

#[export] Instance rdh : RawDataHandler :=
  Build_RawDataHandler Q get_decimal get_nullable_decimal get_datetime.

(** Modelled from the spec: [Record] (model/record.py is not among the
    sources).  The identifier is present and non-null after construction,
    its absence is fatal.  The spec does not name the identifier column;
    [Z_PK] is used.  A declared field that is not assigned yet is a missing
    attribute for [as_dict]. *)
Definition Record_init (row : Row) : option Value :=
  match getitem row "Z_PK" with
  | VNone => None
  | v => Some v
  end.

#[export] Instance rec : RecordBase :=
  Build_RecordBase Value Record_init true.

End SpecRDH.

(** ** A TransferWithdraw row without investment holding *)

Section TransferWithdrawAcceptance.
Context {RDH : RawDataHandler} {REC : RecordBase}.

(** The extraction succeeds, with amount [a], original amount [o],
    recipient amount [r] and exchange rate [rate]; the row has no investment
    holding; the required references are present; and the signs are those
    [validate] asks for, the recipient amount being taken in absolute
    value. *)
Definition TransferWithdraw_premises (row : Row) (a o r rate : Q) : Prop :=
  (exists base : Transaction.t, Transaction.__init__ false row = Ok base) /\
  get_decimal row "ZAMOUNT1" = Some a /\
  (exists fee : option Q, get_nullable_decimal row "ZFEE2" = Some fee) /\
  (exists n : option Q, get_nullable_decimal row "ZNUMBEROFSHARES1" = Some n) /\
  (exists p : option Q, get_nullable_decimal row "ZPRICEPERSHARE1" = Some p) /\
  get_decimal row "ZORIGINALAMOUNT" = Some o /\
  get_decimal row "ZORIGINALRECIPIENTAMOUNT" = Some r /\
  (exists f : option Q, get_nullable_decimal row "ZORIGINALFEE" = Some f) /\
  get_decimal row "ZORIGINALEXCHANGERATE" = Some rate /\
  getitem row "ZINVESTMENTHOLDING" = VNone /\
  getitem row "ZACCOUNT2" <> VNone /\
  getitem row "ZRECIPIENTACCOUNT1" <> VNone /\
  getitem row "ZRECIPIENTTRANSACTION" <> VNone /\
  getitem row "ZORIGINALCURRENCY" <> VNone /\
  getitem row "ZORIGINALRECIPIENTCURRENCY" <> VNone /\
  a < 0 /\ o < 0 /\ 0 < py_abs r.

End TransferWithdrawAcceptance.

(** ** Rows that differ in one column *)

Section RowsAgree.
Context {RDH : RawDataHandler} {REC : RecordBase}.

(** The base constructor and every accessor read [row1] and [row2] alike,
    except for what is read from the column [c]. *)
Definition agree_except (c : string) (row1 row2 : Row) : Prop :=
  Transaction.__init__ false row1 = Transaction.__init__ false row2 /\
  forall k : string,
    k <> c ->
    getitem row1 k = getitem row2 k /\
    get_decimal row1 k = get_decimal row2 k /\
    get_nullable_decimal row1 k = get_nullable_decimal row2 k.

End RowsAgree.

(** ** Rows used in the examples *)

(** Decimal columns hold numerals. *)
Definition base_row : Row :=
  list_to_map
    [("Z_PK", VInt 1); ("ZRECONCILED", VInt 1); ("ZDESC2", VStr "example");
     ("ZDATE1", VInt 700000000); ("ZACCOUNT2", VInt 3)].

Definition investment_row (amount shares price fee : string) : Row :=
  <["ZAMOUNT1" := VStr amount]>
  (<["ZNUMBEROFSHARES1" := VStr shares]>
  (<["ZPRICEPERSHARE1" := VStr price]>
  (<["ZFEE2" := VStr fee]>
  (<["ZINVESTMENTHOLDING" := VInt 8]>
  (<["ZSYMBOL1" := VStr "ACME"]> base_row))))).

Definition buy_row (amount : string) : Row :=
  investment_row amount "10" "50.00" "1.00".

Definition sell_row (amount fee : string) : Row :=
  investment_row amount "1" "2.00" fee.

Definition transfer_withdraw_row (amount original_amount : string) : Row :=
  <["ZAMOUNT1" := VStr amount]>
  (<["ZORIGINALAMOUNT" := VStr original_amount]>
  (<["ZORIGINALRECIPIENTAMOUNT" := VStr "100"]>
  (<["ZORIGINALEXCHANGERATE" := VStr "1"]>
  (<["ZRECIPIENTACCOUNT1" := VInt 4]>
  (<["ZRECIPIENTTRANSACTION" := VInt 12]>
  (<["ZORIGINALCURRENCY" := VStr "EUR"]>
  (<["ZORIGINALRECIPIENTCURRENCY" := VStr "EUR"]> base_row))))))).

Definition deposit_row (amount original_amount : string) (rate : Value) : Row :=
  <["ZAMOUNT1" := VStr amount]>
  (<["ZORIGINALAMOUNT" := VStr original_amount]>
  (<["ZORIGINALEXCHANGERATE" := rate]>
  (<["ZORIGINALCURRENCY" := VStr "USD"]> base_row))).

Definition transfer_deposit_row_of (amount original_amount sender_amount rate : string)
  : Row :=
  <["ZAMOUNT1" := VStr amount]>
  (<["ZORIGINALAMOUNT" := VStr original_amount]>
  (<["ZORIGINALSENDERAMOUNT" := VStr sender_amount]>
  (<["ZORIGINALEXCHANGERATE" := VStr rate]>
  (<["ZSENDERACCOUNT" := VInt 4]>
  (<["ZSENDERTRANSACTION" := VInt 11]>
  (<["ZORIGINALCURRENCY" := VStr "USD"]>
  (<["ZORIGINALSENDERCURRENCY" := VStr "EUR"]> base_row))))))).

Definition transfer_deposit_row : Row :=
  transfer_deposit_row_of "100.00" "-100.00" "-90.00" "1.1111".

Definition exchange_row_of (from_shares original_fee : Value) : Row :=
  <["ZAMOUNT1" := VInt 0]>
  (<["ZFROMINVESTMENTHOLDING" := VInt 5]>
  (<["ZFROMSYMBOL" := VStr "BTC"]>
  (<["ZTOINVESTMENTHOLDING" := VInt 6]>
  (<["ZTOSYMBOL" := VStr "ETH"]>
  (<["ZFROMNUMBEROFSHARES" := from_shares]>
  (<["ZTONUMBEROFSHARES" := VFloat (float_literal 30 1)]>
  (<["ZFEE2" := VInt 5]>
  (<["ZORIGINALFEE" := original_fee]>
  (<["ZORIGINALFEECURRENCY" := VStr "BTC"]> base_row))))))))).

(** Source shares -0.3 and original fee 0.1, both floats. *)
Definition exchange_row : Row :=
  exchange_row_of (VFloat (float_literal (-3) 10)) (VFloat (float_literal 1 10)).

Definition holding_row (type_ : Value) : Row :=
  list_to_map
    [("Z_PK", VInt 2); ("ZINVESTMENTACCOUNT", VInt 3);
     ("ZNUMBEROFSHARES", VInt 12); ("ZSYMBOL", VStr "ACME");
     ("ZDESC", VStr "Acme Corp."); ("ZINVESTMENTOBJECTTYPE", type_);
     ("ZCOSTBASISOFMISSINGOBSHARES", VInt 0)].

Definition transfer_deposit_holding_row : Row :=
  <["ZAMOUNT1" := VInt 250]>
  (<["ZINVESTMENTHOLDING" := VInt 8]>
  (<["ZNUMBEROFSHARES1" := VInt 2]>
  (<["ZPRICEPERSHARE1" := VInt 125]>
  (<["ZSYMBOL1" := VStr "EURUSD"]> transfer_deposit_row)))).

Definition reconcile_row : Row :=
  <["ZAMOUNT1" := VInt 0]>
  (<["ZRECONCILEAMOUNT" := VStr "1234.56"]> base_row).

Definition group_row : Row :=
  list_to_map
    [("Z_PK", VInt 9); ("ZNAME4", VStr "Household"); ("ZUSER5", VInt 1);
     ("ZGROUPID3", VInt 20)].

Definition example_group (pk group_id : Z) : Group.t (REC := SpecRDH.rec) :=
  @Group.Build_t SpecRDH.rec (VInt pk) (VStr "group") (VInt 1) (VInt group_id)
                 VNone.

Definition example_holding : InvestmentHolding.t (REC := SpecRDH.rec) :=
  @InvestmentHolding.Build_t SpecRDH.rec (VInt 2) (VInt 3) None 12
    (VStr "ACME") VNone (VStr "Acme Corp.") false "Investment" 0.

Definition example_super_as_dict (self : InvestmentHolding.t (REC := SpecRDH.rec))
  : gmap string Value :=
  {[ "symbol" := InvestmentHolding.symbol self;
     "_cost_basis_of_missing_ob_shares" := VInt 0 ]}.

Definition example_groups : list (Value * Group.t (REC := SpecRDH.rec)) :=
  [(VInt 1, example_group 1 10); (VInt 2, example_group 2 20);
   (VInt 3, example_group 3 20)].


(** An original amount of 29 significant digits. *)
Definition long_amount : string := "1.0000000000000000000000000001".

(** * Properties *)

(** ** The error monad and the comparisons *)

Lemma bind_Ok {A B : Type} (c : Result A) (k : A -> Result B) (b : B) :
  bind c k = Ok b -> exists a, c = Ok a /\ k a = Ok b.
Proof. destruct c as [a|e]; simpl; [eauto | discriminate]. Qed.

Lemma assert_Ok (line : nat) (cond : bool) (u : unit) :
  assert_ line cond = Ok u -> cond = true.
Proof. destruct cond; [reflexivity | discriminate]. Qed.

Lemma assert_msg_Ok (line : nat) (cond : bool) (message : Result unit) (u : unit) :
  assert_msg line cond message = Ok u -> cond = true.
Proof.
  destruct cond; [reflexivity|]. unfold assert_msg.
  destruct message; discriminate.
Qed.

Lemma accessor_Ok {A : Type} (column : string) (o : option A) (a : A) :
  accessor column o = Ok a -> o = Some a.
Proof. destruct o; simpl; congruence. Qed.

Lemma super_record_Ok {A : Type} (o : option A) (a : A) :
  super_record o = Ok a -> o = Some a.
Proof. destruct o; simpl; congruence. Qed.

Lemma Qlt_bool_iff (x y : Q) : Qlt_bool x y = true <-> x < y.
Proof.
  unfold Qlt_bool. rewrite negb_true_iff.
  split; intros H.
  - apply Qnot_le_lt. intros Hle. apply Qle_bool_iff in Hle. congruence.
  - destruct (Qle_bool y x) eqn:E; [|reflexivity].
    apply Qle_bool_iff in E. exfalso. exact (Qlt_not_le _ _ H E).
Qed.

Lemma Qlt_bool_false (x y : Q) : Qlt_bool x y = false <-> y <= x.
Proof.
  unfold Qlt_bool. rewrite negb_false_iff. apply Qle_bool_iff.
Qed.

Lemma Qeq_bool_false (x y : Q) : Qeq_bool x y = false <-> ~ x == y.
Proof.
  split; [apply Qeq_bool_neq|].
  intros H. destruct (Qeq_bool x y) eqn:E; [|reflexivity].
  apply Qeq_bool_iff in E. contradiction.
Qed.

Lemma Qle_bool_false (x y : Q) : Qle_bool x y = false <-> y < x.
Proof.
  split.
  - intros H. apply Qnot_le_lt. intros Hle. apply Qle_bool_iff in Hle. congruence.
  - intros H. destruct (Qle_bool x y) eqn:E; [|reflexivity].
    apply Qle_bool_iff in E. exfalso. exact (Qlt_not_le _ _ H E).
Qed.

#[global] Instance Qlt_bool_comp : Proper (Qeq ==> Qeq ==> eq) Qlt_bool.
Proof. intros x x' Hx y y' Hy. unfold Qlt_bool. rewrite Hx, Hy. reflexivity. Qed.

Lemma Qopp_opp_eq (q : Q) : - - q = q.
Proof. destruct q as [n d]. unfold Qopp. simpl. rewrite Z.opp_involutive. reflexivity. Qed.

Lemma Qabs_opp_eq (q : Q) : Qabs (- q) = Qabs q.
Proof. destruct q as [n d]. simpl. rewrite Z.abs_opp. reflexivity. Qed.

Lemma Qabs_nonneg_eq (q : Q) : 0 <= q -> Qabs q = q.
Proof.
  destruct q as [n d]. unfold Qle. simpl. intros H.
  rewrite Z.abs_eq by lia. reflexivity.
Qed.

(** ** Rounding to the precision of the context *)

Lemma log10_fuel_spec (fuel : nat) : forall n : Z,
  (0 < n < 2 ^ (Z.of_nat fuel + 1))%Z ->
  (0 <= log10_fuel fuel n /\
   10 ^ log10_fuel fuel n <= n < 10 ^ (log10_fuel fuel n + 1))%Z.
Proof.
  induction fuel as [|f IH]; intros n Hn.
  - assert (n = 1)%Z by (simpl in Hn; lia). subst n. simpl. lia.
  - cbn [log10_fuel]. destruct (Z.ltb_spec n 10) as [Hlt | Hge].
    + simpl. lia.
    + assert (Hm : (0 < n / 10 < 2 ^ (Z.of_nat f + 1))%Z).
      { split; [apply Z.div_str_pos; lia|].
        apply Z.div_lt_upper_bound; [lia|].
        replace (Z.of_nat (S f) + 1)%Z with (Z.succ (Z.of_nat f + 1)) in Hn by lia.
        rewrite Z.pow_succ_r in Hn by lia. lia. }
      destruct (IH _ Hm) as (H0 & Hlo & Hhi).
      set (r := log10_fuel f (n / 10)) in *.
      split; [lia|].
      replace (1 + r)%Z with (Z.succ r) by lia.
      replace (Z.succ r + 1)%Z with (Z.succ (r + 1)) by lia.
      rewrite !Z.pow_succ_r by lia.
      pose proof (Z.div_mod n 10 ltac:(lia)).
      pose proof (Z.mod_pos_bound n 10 ltac:(lia)). lia.
Qed.

Lemma ilog10_spec (n : Z) :
  (0 < n)%Z ->
  (0 <= ilog10 n /\ 10 ^ ilog10 n <= n < 10 ^ (ilog10 n + 1))%Z.
Proof.
  intros Hn. apply log10_fuel_spec. split; [lia|].
  rewrite Z2Nat.id by apply Z.log2_nonneg.
  replace (Z.log2 n + 1)%Z with (Z.succ (Z.log2 n)) by lia.
  apply Z.log2_spec; lia.
Qed.

Lemma pow10_pos (k : Z) : 0 < 10 ^ k.
Proof. apply Qpower_0_lt. reflexivity. Qed.

Lemma pow10_plus (a b : Z) : 10 ^ (a + b) == 10 ^ a * 10 ^ b.
Proof. apply Qpower_plus. discriminate. Qed.

Lemma pow10_inject (n : Z) : (0 <= n)%Z -> inject_Z (10 ^ n) == 10 ^ n.
Proof. intros Hn. exact (Zpower_Qpower 10 n Hn). Qed.

Lemma pow10_lt (a b : Z) : (a < b)%Z -> 10 ^ a < 10 ^ b.
Proof. intros H. apply Qpower_lt_compat_l; [exact H | reflexivity]. Qed.

Lemma pow10_lt_inv (a b : Z) : 10 ^ a < 10 ^ b -> (a < b)%Z.
Proof. intros H. apply (Qpower_lt_compat_l_inv 10); [exact H | reflexivity]. Qed.

Lemma adjusted_spec (x : Q) :
  0 < x -> 10 ^ adjusted x <= x /\ x < 10 ^ (adjusted x + 1).
Proof.
  intros Hx. unfold adjusted. destruct (Qle_bool 1 x) eqn:E.
  - apply Qle_bool_iff in E.
    assert (Hn : (1 <= Qfloor x)%Z).
    { change 1%Z with (Qfloor 1). apply Qfloor_resp_le. exact E. }
    destruct (ilog10_spec (Qfloor x) ltac:(lia)) as (H0 & Hlo & Hhi).
    set (e := ilog10 (Qfloor x)) in *.
    split.
    + rewrite <- (pow10_inject e H0).
      apply Qle_trans with (inject_Z (Qfloor x)); [|apply Qfloor_le].
      rewrite <- Zle_Qle. exact Hlo.
    + rewrite <- (pow10_inject (e + 1)) by lia.
      apply Qlt_le_trans with (inject_Z (Qfloor x + 1)); [apply Qlt_floor|].
      rewrite <- Zle_Qle. lia.
  - assert (Hx1 : x < 1).
    { apply Qnot_le_lt. intros H. apply Qle_bool_iff in H. congruence. }
    assert (Hxy : x * / x == 1).
    { apply Qmult_inv_r. intros H. rewrite H in Hx. discriminate Hx. }
    assert (Hy : 0 < / x) by (apply Qinv_lt_0_compat; exact Hx).
    pose proof (Qle_ceiling (/ x)) as Hc1.
    pose proof (Qceiling_lt (/ x)) as Hc2.
    set (N := Qceiling (/ x)) in *.
    assert (Hy1 : 1 < / x) by nra.
    assert (HN : (1 < N)%Z).
    { rewrite Zlt_Qlt. apply Qlt_le_trans with (/ x); assumption. }
    destruct (ilog10_spec (N - 1) ltac:(lia)) as (H0 & Hlo & Hhi).
    set (r := ilog10 (N - 1)) in *.
    assert (HloQ : 10 ^ r <= inject_Z (N - 1)).
    { rewrite <- (pow10_inject r H0). rewrite <- Zle_Qle. exact Hlo. }
    assert (HhiQ : inject_Z N <= 10 ^ (r + 1)).
    { rewrite <- (pow10_inject (r + 1)) by lia. rewrite <- Zle_Qle. lia. }
    split.
    + rewrite Qpower_opp. apply Qle_shift_inv_r; [apply pow10_pos|].
      pose proof (pow10_pos (r + 1)). nra.
    + replace (- (r + 1) + 1)%Z with (- r)%Z by lia.
      rewrite Qpower_opp. apply Qlt_shift_inv_l; [apply pow10_pos|].
      pose proof (pow10_pos r). nra.
Qed.

Lemma adjusted_unique (x : Q) (e : Z) :
  10 ^ e <= x -> x < 10 ^ (e + 1) -> adjusted x = e.
Proof.
  intros Hlo Hhi.
  assert (Hx : 0 < x) by (apply Qlt_le_trans with (10 ^ e); [apply pow10_pos | exact Hlo]).
  destruct (adjusted_spec x Hx) as [Hlo' Hhi'].
  assert (adjusted x < e + 1)%Z.
  { apply pow10_lt_inv. apply Qle_lt_trans with x; assumption. }
  assert (e < adjusted x + 1)%Z.
  { apply pow10_lt_inv. apply Qle_lt_trans with x; assumption. }
  lia.
Qed.

#[global] Instance adjusted_comp : Proper (Qeq ==> eq) adjusted.
Proof.
  intros x y H. unfold adjusted.
  assert (E1 : Qle_bool 1 x = Qle_bool 1 y) by (rewrite H; reflexivity).
  assert (E2 : Qfloor x = Qfloor y) by (rewrite H; reflexivity).
  assert (E3 : Qceiling (/ x) = Qceiling (/ y)) by (rewrite H; reflexivity).
  rewrite E1, E2, E3. reflexivity.
Qed.

#[global] Instance round_half_even_comp : Proper (Qeq ==> eq) round_half_even.
Proof.
  intros x y H. unfold round_half_even.
  assert (E1 : Qfloor x = Qfloor y) by (rewrite H; reflexivity).
  assert (E2 : Qcompare (x - inject_Z (Qfloor x)) (1 # 2)
               = Qcompare (y - inject_Z (Qfloor y)) (1 # 2))
    by (rewrite E1, H; reflexivity).
  cbv zeta. rewrite E2, E1. reflexivity.
Qed.

Lemma round_half_even_cases (x : Q) :
  round_half_even x = Qfloor x \/
  (round_half_even x = (Qfloor x + 1)%Z /\ 1 # 2 <= x - inject_Z (Qfloor x)).
Proof.
  unfold round_half_even.
  destruct (Qcompare (x - inject_Z (Qfloor x)) (1 # 2)) eqn:E.
  - apply (proj2 (Qeq_alt _ _)) in E. destruct (Z.even (Qfloor x)); [left; reflexivity|].
    right. split; [reflexivity|]. rewrite E. apply Qle_refl.
  - left. reflexivity.
  - apply (proj2 (Qgt_alt _ _)) in E. right. split; [reflexivity|]. apply Qlt_le_weak. exact E.
Qed.

Lemma round_half_even_lower (x : Q) (a : Z) :
  inject_Z a <= x -> (a <= round_half_even x)%Z.
Proof.
  intros H. apply Qfloor_resp_le in H. rewrite Qfloor_Z in H.
  destruct (round_half_even_cases x) as [-> | [-> _]]; lia.
Qed.

Lemma round_half_even_upper (x : Q) (b : Z) :
  x <= inject_Z b -> (round_half_even x <= b)%Z.
Proof.
  intros H. pose proof (Qfloor_le x) as Hf.
  destruct (round_half_even_cases x) as [-> | [-> Hh]].
  - rewrite Zle_Qle. lra.
  - assert (Hlt : inject_Z (Qfloor x) < inject_Z b) by lra.
    rewrite <- Zlt_Qlt in Hlt. lia.
Qed.

Lemma round_half_even_Z (z : Z) : round_half_even (inject_Z z) = z.
Proof.
  apply Z.le_antisymm.
  - apply round_half_even_upper. apply Qle_refl.
  - apply round_half_even_lower. apply Qle_refl.
Qed.

#[global] Instance quantize_comp : Proper (Qeq ==> eq ==> Qeq) quantize.
Proof.
  intros x y H k k' <-. unfold quantize. rewrite H. reflexivity.
Qed.

#[global] Instance round_pos_comp : Proper (Qeq ==> Qeq) round_pos.
Proof.
  intros x y H. unfold round_pos. rewrite H. reflexivity.
Qed.

(** The coefficient of a rounded positive number has 28 digits, or is
    [10 ^ 28]. *)
Lemma coefficient_bounds (x : Q) :
  0 < x ->
  (10 ^ 27 <= round_half_even (x / 10 ^ (adjusted x - (context_prec - 1)))
           <= 10 ^ 28)%Z.
Proof.
  intros Hx. destruct (adjusted_spec x Hx) as [Hlo Hhi].
  set (e := adjusted x) in *. unfold context_prec.
  set (k := (e - (28 - 1))%Z).
  pose proof (pow10_pos k) as Hk.
  split.
  - apply round_half_even_lower. rewrite (pow10_inject 27) by lia.
    apply Qle_shift_div_l; [exact Hk|].
    rewrite <- pow10_plus. replace (27 + k)%Z with e by (unfold k; lia). exact Hlo.
  - apply round_half_even_upper. rewrite (pow10_inject 28) by lia.
    apply Qle_shift_div_r; [exact Hk|].
    rewrite <- pow10_plus. replace (28 + k)%Z with (e + 1)%Z by (unfold k; lia).
    apply Qlt_le_weak. exact Hhi.
Qed.

Lemma round_pos_pos (x : Q) : 0 < x -> 0 < round_pos x.
Proof.
  intros Hx. unfold round_pos, quantize.
  apply Qmult_lt_0_compat; [|apply pow10_pos].
  destruct (coefficient_bounds x Hx) as [Hlo _].
  change 0 with (inject_Z 0). rewrite <- Zlt_Qlt.
  assert (0 < 10 ^ 27)%Z by reflexivity. lia.
Qed.

(** A number with a coefficient of at most 28 digits is not changed. *)
Lemma round_pos_exact (c j : Z) :
  (0 < c < 10 ^ 28)%Z ->
  round_pos (inject_Z c * 10 ^ j) == inject_Z c * 10 ^ j.
Proof.
  intros [Hc0 Hc].
  assert (Hc0' : 0 < inject_Z c) by (change 0 with (inject_Z 0); rewrite <- Zlt_Qlt; exact Hc0).
  assert (Hx : 0 < inject_Z c * 10 ^ j)
    by (apply Qmult_lt_0_compat; [exact Hc0' | apply pow10_pos]).
  destruct (adjusted_spec _ Hx) as [Hlo Hhi].
  unfold round_pos, quantize. set (e := adjusted (inject_Z c * 10 ^ j)) in *.
  unfold context_prec. set (k := (e - (28 - 1))%Z).
  assert (He : (e < 28 + j)%Z).
  { apply pow10_lt_inv. apply Qle_lt_trans with (inject_Z c * 10 ^ j); [exact Hlo|].
    rewrite pow10_plus. apply Qmult_lt_compat_r; [apply pow10_pos|].
    rewrite <- (pow10_inject 28) by lia. rewrite <- Zlt_Qlt. exact Hc. }
  assert (Hjk : (0 <= j - k)%Z) by (unfold k; lia).
  assert (Hj : 10 ^ j == 10 ^ (j - k) * 10 ^ k).
  { rewrite <- pow10_plus. replace (j - k + k)%Z with j by lia. reflexivity. }
  assert (Hq : inject_Z c * 10 ^ j / 10 ^ k == inject_Z (c * 10 ^ (j - k))).
  { rewrite inject_Z_mult, (pow10_inject _ Hjk), Hj.
    pose proof (pow10_pos k) as Hk. field. intros H0. rewrite H0 in Hk. discriminate Hk. }
  rewrite Hq, round_half_even_Z, inject_Z_mult, (pow10_inject _ Hjk), Hj. ring.
Qed.

Lemma round_pos_idem (x : Q) : 0 < x -> round_pos (round_pos x) == round_pos x.
Proof.
  intros Hx. destruct (coefficient_bounds x Hx) as [Hlo Hhi].
  unfold round_pos at 2 3. unfold quantize.
  set (k := (adjusted x - (context_prec - 1))%Z) in *.
  set (c := round_half_even (x / 10 ^ k)) in *.
  assert (0 < 10 ^ 27)%Z by reflexivity.
  destruct (Z.eq_dec c (10 ^ 28)%Z) as [E | NE].
  - assert (Hr : inject_Z c * 10 ^ k == inject_Z (10 ^ 27) * 10 ^ (k + 1)).
    { rewrite E, pow10_plus. change (10 ^ 1) with 10.
      change (10 ^ 28)%Z with (10 ^ 27 * 10)%Z. rewrite inject_Z_mult.
      change (inject_Z 10) with 10. ring. }
    rewrite Hr. apply round_pos_exact. split; [assumption | reflexivity].
  - apply round_pos_exact. lia.
Qed.

#[global] Instance round_signed_comp : Proper (Qeq ==> Qeq) round_signed.
Proof.
  intros x y H. unfold round_signed. rewrite H.
  destruct (Qcompare y 0); rewrite ?H; reflexivity.
Qed.

(** The value of [decimal_round q] is the rounded one. *)
Lemma decimal_round_value (q : Q) : decimal_round q == round_signed q.
Proof.
  unfold decimal_round. cbv zeta.
  destruct (Qeq_bool (round_signed q) q) eqn:E; [|reflexivity].
  apply Qeq_bool_iff in E. symmetry. exact E.
Qed.

#[global] Instance decimal_round_comp : Proper (Qeq ==> Qeq) decimal_round.
Proof.
  intros x y H. rewrite !decimal_round_value, H. reflexivity.
Qed.

(** A number that the context does not change is returned as it is. *)
Lemma decimal_round_exact (q : Q) : decimal_round q == q -> decimal_round q = q.
Proof.
  intros H. rewrite decimal_round_value in H.
  unfold decimal_round. cbv zeta. apply Qeq_bool_iff in H. rewrite H. reflexivity.
Qed.

Lemma decimal_round_0 (q : Q) : q == 0 -> decimal_round q == 0.
Proof. intros H. rewrite H. reflexivity. Qed.

Lemma decimal_round_of_pos (q : Q) : 0 < q -> decimal_round q == round_pos q.
Proof.
  intros H. rewrite decimal_round_value. unfold round_signed.
  assert (E : Qcompare q 0 = Gt) by (apply (proj1 (Qgt_alt _ _)); exact H).
  rewrite E. rewrite Qabs_pos by (apply Qlt_le_weak; exact H). reflexivity.
Qed.

Lemma round_signed_opp (q : Q) : round_signed (- q) = - round_signed q.
Proof.
  unfold round_signed. rewrite Qabs_opp_eq.
  destruct (Qcompare q 0) eqn:E.
  - apply (proj2 (Qeq_alt _ _)) in E.
    assert (E' : Qcompare (- q) 0 = Eq)
      by (apply (proj1 (Qeq_alt _ _)); rewrite E; reflexivity).
    rewrite E'. reflexivity.
  - apply (proj2 (Qlt_alt _ _)) in E.
    assert (E' : Qcompare (- q) 0 = Gt) by (apply (proj1 (Qgt_alt _ _)); lra).
    rewrite E', Qopp_opp_eq. reflexivity.
  - apply (proj2 (Qgt_alt _ _)) in E.
    assert (E' : Qcompare (- q) 0 = Lt) by (apply (proj1 (Qlt_alt _ _)); lra).
    rewrite E'. reflexivity.
Qed.

(** Rounding is symmetric. *)
Lemma decimal_round_opp (q : Q) : decimal_round (- q) = - decimal_round q.
Proof.
  unfold decimal_round. cbv zeta. rewrite round_signed_opp.
  assert (E : Qeq_bool (- round_signed q) (- q) = Qeq_bool (round_signed q) q).
  { destruct (Qeq_bool (round_signed q) q) eqn:E1.
    - apply Qeq_bool_iff in E1. apply Qeq_bool_iff. rewrite E1. reflexivity.
    - apply Qeq_bool_false in E1. apply Qeq_bool_false. intros H. apply E1. lra. }
  rewrite E. destruct (Qeq_bool (round_signed q) q); reflexivity.
Qed.

Lemma decimal_round_pos (q : Q) : 0 < q -> 0 < decimal_round q.
Proof.
  intros H. rewrite (decimal_round_of_pos q H). apply round_pos_pos. exact H.
Qed.

Lemma decimal_round_neg (q : Q) : q < 0 -> decimal_round q < 0.
Proof.
  intros H. assert (H' : 0 < - q) by lra.
  apply decimal_round_pos in H'. rewrite decimal_round_opp in H'. lra.
Qed.

(** Rounding keeps the sign. *)
Lemma decimal_round_pos_iff (q : Q) : 0 < decimal_round q <-> 0 < q.
Proof.
  split; [|apply decimal_round_pos].
  intros H. destruct (Q_dec q 0) as [[Hlt | Hgt] | Heq].
  - apply decimal_round_neg in Hlt. lra.
  - exact Hgt.
  - rewrite (decimal_round_0 q Heq) in H. discriminate H.
Qed.

Lemma decimal_round_neg_iff (q : Q) : decimal_round q < 0 <-> q < 0.
Proof.
  split; [|apply decimal_round_neg].
  intros H. destruct (Q_dec q 0) as [[Hlt | Hgt] | Heq].
  - exact Hlt.
  - apply decimal_round_pos in Hgt. lra.
  - rewrite (decimal_round_0 q Heq) in H. discriminate H.
Qed.

Lemma decimal_round_zero_iff (q : Q) : decimal_round q == 0 <-> q == 0.
Proof.
  split.
  - intros H. destruct (Q_dec q 0) as [[Hlt | Hgt] | Heq].
    + apply decimal_round_neg in Hlt. lra.
    + apply decimal_round_pos in Hgt. lra.
    + exact Heq.
  - apply decimal_round_0.
Qed.

Lemma decimal_round_nonneg (q : Q) : 0 <= q -> 0 <= decimal_round q.
Proof.
  intros H. destruct (Qle_lt_or_eq _ _ H) as [Hlt | Heq].
  - apply Qlt_le_weak, decimal_round_pos, Hlt.
  - rewrite (decimal_round_0 q) by (symmetry; exact Heq). apply Qle_refl.
Qed.

Lemma round_signed_idem (q : Q) : round_signed (round_signed q) == round_signed q.
Proof.
  assert (Hpos : forall x, 0 < x -> round_signed (round_signed x) == round_signed x).
  { intros x Hx. rewrite <- !decimal_round_value.
    rewrite (decimal_round_of_pos (decimal_round x)) by (apply decimal_round_pos; exact Hx).
    rewrite (decimal_round_of_pos x Hx). apply round_pos_idem. exact Hx. }
  destruct (Q_dec q 0) as [[Hlt | Hgt] | Heq].
  - assert (H' : 0 < - q) by lra. apply Hpos in H'.
    rewrite !round_signed_opp in H'. lra.
  - apply Hpos. exact Hgt.
  - rewrite Heq. reflexivity.
Qed.

(** Rounding what is rounded changes nothing. *)
Lemma decimal_round_idem (q : Q) : decimal_round (decimal_round q) = decimal_round q.
Proof.
  apply decimal_round_exact.
  rewrite !decimal_round_value. apply round_signed_idem.
Qed.

(** ** The operations on decimals *)

#[global] Instance decimal_add_comp : Proper (Qeq ==> Qeq ==> Qeq) decimal_add.
Proof. intros a a' Ha b b' Hb. unfold decimal_add. rewrite Ha, Hb. reflexivity. Qed.

#[global] Instance decimal_sub_comp : Proper (Qeq ==> Qeq ==> Qeq) decimal_sub.
Proof. intros a a' Ha b b' Hb. unfold decimal_sub. rewrite Ha, Hb. reflexivity. Qed.

#[global] Instance decimal_mul_comp : Proper (Qeq ==> Qeq ==> Qeq) decimal_mul.
Proof. intros a a' Ha b b' Hb. unfold decimal_mul. rewrite Ha, Hb. reflexivity. Qed.

#[global] Instance decimal_neg_comp : Proper (Qeq ==> Qeq) decimal_neg.
Proof. intros a a' Ha. unfold decimal_neg. rewrite Ha. reflexivity. Qed.

#[global] Instance py_abs_comp : Proper (Qeq ==> Qeq) py_abs.
Proof. intros a a' Ha. unfold py_abs. rewrite Ha. reflexivity. Qed.

#[global] Instance buy_value_comp : Proper (Qeq ==> Qeq ==> Qeq ==> Qeq) buy_value.
Proof.
  intros s s' Hs p p' Hp f f' Hf. unfold buy_value. rewrite Hs, Hp, Hf.
  reflexivity.
Qed.

#[global] Instance sell_value_comp : Proper (Qeq ==> Qeq ==> Qeq ==> Qeq) sell_value.
Proof.
  intros s s' Hs p p' Hp f f' Hf. unfold sell_value. rewrite Hs, Hp, Hf.
  reflexivity.
Qed.

#[global] Instance approx_distance_comp : Proper (Qeq ==> Qeq ==> Qeq) approx_distance.
Proof.
  intros a a' Ha b b' Hb. unfold approx_distance. rewrite Ha, Hb. reflexivity.
Qed.

#[global] Instance approx_comp : Proper (Qeq ==> Qeq ==> Qeq ==> eq) approx.
Proof.
  intros a a' Ha b b' Hb t t' Ht. unfold approx. rewrite Ha, Hb, Ht. reflexivity.
Qed.

(** The product of two decimals has the sign of the exact product. *)
Lemma decimal_mul_pos (a b : Q) : 0 < decimal_mul a b <-> 0 < a * b.
Proof. apply decimal_round_pos_iff. Qed.

Lemma decimal_mul_neg (a b : Q) : decimal_mul a b < 0 <-> a * b < 0.
Proof. apply decimal_round_neg_iff. Qed.

Lemma decimal_neg_value (a : Q) : decimal_neg a = - decimal_round a.
Proof. apply decimal_round_opp. Qed.

(** The negation of a number of at most 28 significant digits is exact. *)
Lemma decimal_neg_exact (a : Q) : decimal_round a == a -> decimal_neg a = - a.
Proof.
  intros H. unfold decimal_neg. apply decimal_round_exact.
  rewrite decimal_round_opp, H. reflexivity.
Qed.

Lemma py_abs_nonneg (x : Q) : 0 <= py_abs x.
Proof. apply decimal_round_nonneg, Qabs_nonneg. Qed.

Lemma py_abs_pos_iff (x : Q) : 0 < py_abs x <-> ~ x == 0.
Proof.
  unfold py_abs. rewrite decimal_round_pos_iff. split.
  - intros H E. rewrite E in H. discriminate H.
  - intros H. pose proof (Qabs_nonneg x) as Hge.
    destruct (Qle_lt_or_eq _ _ Hge) as [Hlt | Heq]; [exact Hlt|].
    exfalso. apply H.
    assert (Hz : Qabs x <= 0) by (rewrite <- Heq; apply Qle_refl).
    apply Qabs_Qle_condition in Hz. lra.
Qed.

Lemma py_abs_opp (q : Q) : py_abs (- q) = py_abs q.
Proof. unfold py_abs. rewrite Qabs_opp_eq. reflexivity. Qed.

Lemma py_abs_idem (q : Q) : py_abs (py_abs q) = py_abs q.
Proof.
  unfold py_abs at 1. rewrite (Qabs_nonneg_eq _ (py_abs_nonneg q)).
  unfold py_abs. apply decimal_round_idem.
Qed.


Lemma approx_distance_nonneg (actual expected : Q) :
  0 <= approx_distance actual expected.
Proof. apply py_abs_nonneg. Qed.

Lemma approx_distance_eq (actual expected : Q) :
  actual == expected -> approx_distance actual expected == 0.
Proof.
  intros H. unfold approx_distance, decimal_sub, py_abs.
  assert (E : expected - actual == 0) by (rewrite H; ring).
  rewrite E. reflexivity.
Qed.

(** [pytest.approx] with a non-negative absolute tolerance is the bound on
    the distance. *)
Lemma approx_iff (actual expected tol : Q) :
  0 <= tol ->
  approx actual expected tol = true <-> approx_distance actual expected <= tol.
Proof.
  intros Htol. unfold approx. rewrite orb_true_iff, Qeq_bool_iff, Qle_bool_iff.
  split.
  - intros [Heq | Hle]; [|exact Hle].
    rewrite (approx_distance_eq _ _ Heq). exact Htol.
  - intros Hle. right. exact Hle.
Qed.

Lemma ABS_TOLERANCE_nonneg : 0 <= ABS_TOLERANCE.
Proof. unfold ABS_TOLERANCE. lra. Qed.

Lemma ABS_TOLERANCE2_nonneg : 0 <= ABS_TOLERANCE2.
Proof. unfold ABS_TOLERANCE2. lra. Qed.

Lemma ABS_TOLERANCE_le_2 : ABS_TOLERANCE <= ABS_TOLERANCE2.
Proof. unfold ABS_TOLERANCE, ABS_TOLERANCE2. lra. Qed.

(** The tolerances are the floats of the literals, each above the decimal
    fraction that the literal spells. *)
Lemma ABS_TOLERANCE_float :
  float_value (float_literal 1 1000) = Some (4611686018427388 * 2 ^ (-62)) /\
  4611686018427388 * 2 ^ (-62) == ABS_TOLERANCE /\
  0.001 < ABS_TOLERANCE.
Proof. split; [vm_compute; reflexivity|]. split; reflexivity. Qed.

Lemma ABS_TOLERANCE2_float :
  float_value (float_literal 1 100) = Some (5764607523034235 * 2 ^ (-59)) /\
  5764607523034235 * 2 ^ (-59) == ABS_TOLERANCE2 /\
  0.01 < ABS_TOLERANCE2.
Proof. split; [vm_compute; reflexivity|]. split; reflexivity. Qed.

Ltac inv_ok :=
  repeat match goal with
  | H : bind _ _ = Ok _ |- _ =>
      let a := fresh "a" in
      let Ha := fresh "Ha" in
      apply bind_Ok in H; destruct H as (a & Ha & H)
  | H : assert_ _ _ = Ok _ |- _ => apply assert_Ok in H
  | H : assert_msg _ _ _ = Ok _ |- _ => apply assert_msg_Ok in H
  | H : accessor _ _ = Ok _ |- _ => apply accessor_Ok in H
  | H : super_record _ = Ok _ |- _ => apply super_record_Ok in H
  | H : Ok _ = Ok _ |- _ => injection H as H
  end.

Lemma assert_Ok_iff (line : nat) (cond : bool) :
  assert_ line cond = Ok tt <-> cond = true.
Proof. destruct cond; simpl; split; congruence. Qed.

Lemma assert_bind_Ok (line : nat) (cond : bool) (k : Result unit) :
  (assert_ line cond ;; k) = Ok tt <-> cond = true /\ k = Ok tt.
Proof.
  destruct cond; simpl; split.
  - intros H. split; [reflexivity | exact H].
  - intros [_ H]. exact H.
  - discriminate.
  - intros [H _]. discriminate.
Qed.

Lemma is_not_None_Value (v : Value) : is_not_None v = true <-> v <> VNone.
Proof. destruct v; cbv; split; congruence. Qed.

Lemma is_not_None_Decimal (q : Q) : is_not_None q = true <-> True.
Proof. cbv. tauto. Qed.

Lemma bind_Raise {A B : Type} (c : Result A) (k : A -> Result B) (e : exn) :
  bind c k = Raise e -> c = Raise e \/ exists a, c = Ok a /\ k a = Raise e.
Proof.
  destruct c as [a|e']; simpl; intros H; [right; eauto | left; congruence].
Qed.

Lemma accessor_Raise {A : Type} (column : string) (o : option A) (e : exn) :
  accessor column o = Raise e -> e = MissingField column.
Proof. destruct o; simpl; congruence. Qed.

Lemma is_ok_validate_then {A : Type} (v : Result unit) (self : A) :
  is_ok (v ;; Ok self) = true <-> v = Ok tt.
Proof.
  destruct v as [[]|e]; simpl; split; congruence.
Qed.

Lemma is_ok_true {A : Type} (c : Result A) :
  is_ok c = true <-> exists a : A, c = Ok a.
Proof.
  destruct c as [a|e]; simpl; split; eauto; try discriminate.
  intros [a [=]].
Qed.

Lemma is_not_None_option_iff {A : Type} (o : option A) :
  is_not_None o = true <-> o <> None.
Proof. destruct o; cbv; split; congruence. Qed.

(** What the message of an assertion of the base constructor raises. *)
Lemma as_dict_message_Raise {REC : RecordBase} (complete : bool) (e : exn) :
  as_dict_message complete = Raise e -> complete = false /\ e = AttributeError.
Proof.
  unfold as_dict_message. destruct complete; [discriminate|].
  destruct as_dict_partial_fails; [|discriminate].
  intros [= <-]. split; reflexivity.
Qed.

(** The base constructor raises what [Record.__init__] or an accessor
    raises, or fails the assertion on the description, or raises what the
    message of that assertion raises. *)
Lemma Transaction_init_Raise {RDH : RawDataHandler} {REC : RecordBase}
    (complete : bool) (row : Row) (e : exn) :
  Transaction.__init__ complete row = Raise e ->
  e = RecordError \/ (exists column, e = MissingField column) \/
  e = AssertionError 43 \/ e = AttributeError.
Proof.
  unfold Transaction.__init__.
  destruct (Record_init row); simpl; [|intros [= <-]; tauto].
  destruct (get_decimal row "ZAMOUNT1"); simpl; [|intros [= <-]; eauto].
  destruct (get_datetime row "ZDATE1"); simpl; [|intros [= <-]; eauto].
  destruct (getitem row "ZDESC2"); cbn; try discriminate.
  unfold as_dict_message.
  destruct complete; [cbn; intros [= <-]; tauto|].
  destruct as_dict_partial_fails; cbn; intros [= <-]; tauto.
Qed.

(** Whether the base constructor returns, and what, does not depend on the
    class that is instantiated. *)
Lemma Transaction_init_Ok_complete {RDH : RawDataHandler} {REC : RecordBase}
    (c c' : bool) (row : Row) (base : Transaction.t) :
  Transaction.__init__ c row = Ok base -> Transaction.__init__ c' row = Ok base.
Proof.
  unfold Transaction.__init__.
  destruct (Record_init row); simpl; [|discriminate].
  destruct (get_decimal row "ZAMOUNT1"); simpl; [|discriminate].
  destruct (get_datetime row "ZDATE1"); simpl; [|discriminate].
  destruct (getitem row "ZDESC2"); cbn; try (intros H; exact H).
  destruct (as_dict_message c); discriminate.
Qed.

(** One assertion of a [validate]: case on its condition. *)
Ltac step_assert :=
  match goal with
  | |- context [assert_ ?line ?cond] =>
      let E := fresh "E" in
      destruct cond eqn:E; cbn [assert_ bind]
  end.

(** Decide an inequality between two rationals that are given in full. *)
Ltac decide_Q :=
  first [ apply (proj1 (Qle_bool_iff _ _)); vm_compute; reflexivity
        | apply (proj1 (Qlt_bool_iff _ _)); vm_compute; reflexivity ].

(** The product of a number and a rounded number has the sign of the
    exact product. *)
Lemma mul_decimal_round_pos (a x : Q) : 0 < a * decimal_round x <-> 0 < a * x.
Proof.
  destruct (Q_dec x 0) as [[Hlt | Hgt] | Heq].
  - pose proof (decimal_round_neg x Hlt). split; intros H0; nra.
  - pose proof (decimal_round_pos x Hgt). split; intros H0; nra.
  - rewrite (decimal_round_0 x Heq), Heq. reflexivity.
Qed.

Lemma py_max_0_nonneg (fee : Q) : 0 <= py_max fee 0.
Proof.
  unfold py_max. destruct (Qlt_bool fee 0) eqn:E; [lra|].
  apply Qnot_lt_le. intros Hlt. apply Qlt_bool_iff in Hlt. congruence.
Qed.

Lemma py_max_0_cases (raw : Q) :
  (raw < 0 -> py_max raw 0 = 0) /\ (0 <= raw -> py_max raw 0 = raw).
Proof.
  unfold py_max. destruct (Qlt_bool raw 0) eqn:E.
  - apply Qlt_bool_iff in E. split; [reflexivity | lra].
  - split; [|reflexivity]. intros Hlt. apply Qlt_bool_iff in Hlt. congruence.
Qed.


(** The distance of an absolute value to 0 is that absolute value. *)
Lemma approx_distance_abs_0 (x : Q) : approx_distance (py_abs x) 0 == py_abs x.
Proof.
  unfold approx_distance, decimal_sub.
  assert (E : 0 - py_abs x == - py_abs x) by ring.
  rewrite E, decimal_round_opp, py_abs_opp.
  unfold py_abs at 2. rewrite decimal_round_idem.
  fold (py_abs x). rewrite py_abs_idem. reflexivity.
Qed.

(** Rounding commutes with the absolute value. *)
Lemma decimal_round_abs (x : Q) : decimal_round (Qabs x) == Qabs (decimal_round x).
Proof.
  destruct (Qlt_le_dec x 0) as [Hlt | Hge].
  - rewrite (Qabs_neg x) by lra.
    pose proof (decimal_round_neg x Hlt) as Hr.
    rewrite (Qabs_neg (decimal_round x)) by lra.
    rewrite decimal_round_opp. reflexivity.
  - rewrite (Qabs_pos x Hge).
    rewrite (Qabs_pos (decimal_round x) (decimal_round_nonneg x Hge)).
    reflexivity.
Qed.

Lemma py_abs_value (x : Q) : py_abs x == Qabs (decimal_round x).
Proof. apply decimal_round_abs. Qed.

(** The distance is the absolute value of the difference as the context
    gives it. *)
Lemma approx_distance_value (actual expected : Q) :
  approx_distance actual expected == Qabs (decimal_sub expected actual).
Proof.
  unfold approx_distance. rewrite py_abs_value.
  unfold decimal_sub. rewrite decimal_round_idem. reflexivity.
Qed.

Lemma context_exact_opp (q : Q) : context_exact q -> context_exact (- q).
Proof.
  unfold context_exact. intros H. rewrite decimal_round_opp, H. reflexivity.
Qed.

(** ** The fee of an investment transaction *)

Section InvestmentFee.
Context {RDH : RawDataHandler} {REC : RecordBase}.

(** The check of line 203 fails exactly on a fee that is within the
    tolerance and whose absolute value, as the context rounds it, is not. *)
Lemma fee_check_false (fee : Q) :
  InvestmentBuyTransaction.fee_tiny_or_positive fee = false <->
  fee <= ABS_TOLERANCE /\ ABS_TOLERANCE < py_abs fee.
Proof.
  unfold InvestmentBuyTransaction.fee_tiny_or_positive.
  rewrite orb_false_iff, Qlt_bool_false.
  assert (Ha : approx (py_abs fee) 0 ABS_TOLERANCE = false
               <-> ABS_TOLERANCE < py_abs fee).
  { split.
    - intros H. apply Qnot_le_lt. intros Hle.
      assert (Ht : approx (py_abs fee) 0 ABS_TOLERANCE = true).
      { apply (approx_iff _ _ _ ABS_TOLERANCE_nonneg).
        rewrite approx_distance_abs_0. exact Hle. }
      congruence.
    - intros H. destruct (approx (py_abs fee) 0 ABS_TOLERANCE) eqn:E; [|reflexivity].
      apply (approx_iff _ _ _ ABS_TOLERANCE_nonneg) in E.
      rewrite approx_distance_abs_0 in E. lra. }
  rewrite Ha. tauto.
Qed.

Lemma sell_fee_check_false (fee : Q) :
  InvestmentSellTransaction.fee_tiny_or_positive fee = false <->
  fee <= ABS_TOLERANCE /\ ABS_TOLERANCE < py_abs fee.
Proof. exact (fee_check_false fee). Qed.



End InvestmentFee.

(** ** InvestmentBuy *)

Section InvestmentBuy.
Import InvestmentBuyTransaction.
Context {RDH : RawDataHandler} {REC : RecordBase}.

(** What the assertions of [validate] amount to. *)
Lemma InvestmentBuy_validate_Ok (self : t) :
  validate self = Ok tt <->
  account self <> VNone /\ amount self <= 0 /\ 0 <= fee self /\
  fee_tiny_or_positive (fee self) = true /\
  investment_holding self <> VNone /\ 0 < number_of_shares self /\
  0 <= price_per_share self /\
  approx_distance
    (buy_value (number_of_shares self) (price_per_share self) (fee self))
    (amount self) <= ABS_TOLERANCE /\
  symbol self <> VNone.
Proof.
  unfold validate.
  rewrite !assert_bind_Ok, assert_Ok_iff.
  rewrite !is_not_None_Value, !is_not_None_Decimal.
  rewrite (approx_iff _ _ _ ABS_TOLERANCE_nonneg).
  rewrite !Qle_bool_iff, !Qlt_bool_iff.
  tauto.
Qed.

Lemma InvestmentBuy_init_validate (row : Row) (self : t) :
  __init__ row = Ok self -> validate self = Ok tt.
Proof.
  unfold __init__. intros H. inv_ok. subst self.
  match goal with Hv : validate _ = Ok ?u |- _ => destruct u; exact Hv end.
Qed.

Lemma InvestmentBuy_init_eq (row : Row) (base : Transaction.t)
    (a f shares price : Q) :
  Transaction.__init__ false row = Ok base ->
  get_decimal row "ZAMOUNT1" = Some a ->
  get_decimal row "ZFEE2" = Some f ->
  get_decimal row "ZNUMBEROFSHARES1" = Some shares ->
  get_decimal row "ZPRICEPERSHARE1" = Some price ->
  let self :=
    {| super := Transaction.set_amount base a;
       account := getitem row "ZACCOUNT2"; fee := py_max f 0;
       investment_holding := getitem row "ZINVESTMENTHOLDING";
       number_of_shares := shares; price_per_share := price;
       symbol := getitem row "ZSYMBOL1" |} in
  __init__ row = (validate self ;; Ok self).
Proof.
  intros Hb Ha Hf Hs Hp. unfold __init__.
  rewrite Hb, Ha, Hf, Hs, Hp. reflexivity.
Qed.

Lemma InvestmentBuy_init_fee (row : Row) (self : t) (raw : Q) :
  get_decimal row "ZFEE2" = Some raw ->
  __init__ row = Ok self -> fee self = py_max raw 0.
Proof.
  intros Hraw H. unfold __init__ in H. inv_ok. subst self.
  cbn [fee]. congruence.
Qed.



Lemma InvestmentBuy_validate_201 (self : t) :
  0 <= fee self -> validate self <> Raise (AssertionError 201).
Proof.
  intros Hfee. unfold validate.
  do 4 (step_assert; [|discriminate]).
  apply Qle_bool_iff in Hfee. rewrite Hfee. cbn [assert_ bind].
  repeat (step_assert; [|discriminate]). discriminate.
Qed.

Lemma InvestmentBuy_init_not_201 (row : Row) :
  __init__ row <> Raise (AssertionError 201).
Proof.
  unfold __init__. intros H.
  apply bind_Raise in H. destruct H as [H | (base & _ & H)].
  { apply Transaction_init_Raise in H.
    destruct H as [H | [[c H] | [H | H]]]; discriminate H. }
  repeat (apply bind_Raise in H;
          destruct H as [H | (? & _ & H)];
          [apply accessor_Raise in H; discriminate H|]).
  apply bind_Raise in H. destruct H as [H | (? & _ & H)]; [|discriminate H].
  revert H. apply InvestmentBuy_validate_201. cbn [fee]. apply py_max_0_nonneg.
Qed.

Lemma buy_value_exact (shares price fee : Q) :
  context_exact (shares * price) -> context_exact (shares * price + fee) ->
  buy_value shares price fee == - (shares * price + fee).
Proof.
  unfold context_exact, buy_value, decimal_mul, decimal_add, decimal_neg.
  intros Hm Ha. rewrite Hm, Ha. apply (context_exact_opp _ Ha).
Qed.

(** C1. Every constructed InvestmentBuy has shares > 0, price >= 0 and
    amount <= 0, and the distance between its amount and
    -(shares * price + fee), in the arithmetic of the decimal context, is at
    most ABS_TOLERANCE, the float 0.001; when the product, the sum and the
    difference have at most 28 significant digits, that is
    |-(shares * price + fee) - amount| <= ABS_TOLERANCE.  A well-formed row
    with shares 10, price 50.00 and fee 1.00 is accepted with amount
    -501.00 and fails the assertion of line 212 with amount -500.00. *)
Theorem InvestmentBuy_invariants :
  (forall (row : Row) (self : t),
     __init__ row = Ok self ->
     approx_distance
       (buy_value (number_of_shares self) (price_per_share self) (fee self))
       (amount self) <= ABS_TOLERANCE /\
     0 < number_of_shares self /\ 0 <= price_per_share self /\
     amount self <= 0 /\
     (context_exact (number_of_shares self * price_per_share self) ->
      context_exact (number_of_shares self * price_per_share self + fee self) ->
      context_exact (amount self
                     + (number_of_shares self * price_per_share self + fee self)) ->
      Qabs (- (number_of_shares self * price_per_share self + fee self)
            - amount self) <= ABS_TOLERANCE))
  /\
  (forall (row : Row) (base : Transaction.t) (a f shares price : Q),
     Transaction.__init__ false row = Ok base ->
     get_decimal row "ZAMOUNT1" = Some a ->
     get_decimal row "ZFEE2" = Some f -> f == 1.00 ->
     get_decimal row "ZNUMBEROFSHARES1" = Some shares -> shares == 10 ->
     get_decimal row "ZPRICEPERSHARE1" = Some price -> price == 50.00 ->
     getitem row "ZACCOUNT2" <> VNone ->
     getitem row "ZINVESTMENTHOLDING" <> VNone ->
     getitem row "ZSYMBOL1" <> VNone ->
     (a == -501.00 -> is_ok (__init__ row) = true) /\
     (a == -500.00 -> __init__ row = Raise (AssertionError 212))).
Proof.
  split.
  - intros row self H.
    apply InvestmentBuy_init_validate, InvestmentBuy_validate_Ok in H.
    destruct H as (_ & Ha & _ & _ & _ & Hs & Hp & Hd & _).
    repeat split; try assumption.
    intros Emul Eadd Esub.
    rewrite approx_distance_value, (buy_value_exact _ _ _ Emul Eadd) in Hd.
    unfold decimal_sub in Hd.
    assert (E : amount self
                - - (number_of_shares self * price_per_share self + fee self)
                == amount self
                   + (number_of_shares self * price_per_share self + fee self))
      by ring.
    unfold context_exact in Esub.
    rewrite E, Esub in Hd.
    assert (Es : - (number_of_shares self * price_per_share self + fee self)
                 - amount self
                 == - (amount self
                       + (number_of_shares self * price_per_share self
                          + fee self))) by ring.
    rewrite Es, Qabs_opp. exact Hd.
  - intros row base a f shares price Hb Ha Hf Ef Hs Es Hp Ep Hacc Hhold Hsym.
    rewrite (InvestmentBuy_init_eq row base a f shares price Hb Ha Hf Hs Hp).
    assert (Efee : py_max f 0 == 1.00).
    { unfold py_max. destruct (Qlt_bool f 0) eqn:E; [|exact Ef].
      apply Qlt_bool_iff in E. lra. }
    assert (Hfee : fee_tiny_or_positive (py_max f 0) = true).
    { unfold fee_tiny_or_positive. rewrite Efee. vm_compute. reflexivity. }
    split; intros Ea.
    + match goal with |- is_ok (validate ?s ;; _) = true =>
        assert (Hv : validate s = Ok tt) end.
      { apply InvestmentBuy_validate_Ok. unfold amount.
        cbn [fee number_of_shares price_per_share account investment_holding
             symbol super Transaction.amount Transaction.set_amount].
        repeat split; try assumption; try lra.
        rewrite Efee, Es, Ep, Ea. decide_Q. }
      rewrite Hv. reflexivity.
    + unfold validate, amount.
      cbn [fee number_of_shares price_per_share account investment_holding
           symbol super Transaction.amount Transaction.set_amount].
      rewrite (proj2 (is_not_None_Value _) Hacc).
      rewrite (proj2 (is_not_None_Value _) Hhold).
      rewrite (proj2 (is_not_None_Value _) Hsym).
      assert (E1 : Qle_bool a 0 = true) by (apply Qle_bool_iff; lra).
      assert (E2 : Qle_bool 0 (py_max f 0) = true) by (apply Qle_bool_iff; lra).
      assert (E3 : Qlt_bool 0 shares = true) by (apply Qlt_bool_iff; lra).
      assert (E4 : Qle_bool 0 price = true) by (apply Qle_bool_iff; lra).
      assert (E5 : approx (buy_value shares price (py_max f 0)) a ABS_TOLERANCE
                   = false).
      { rewrite Efee, Es, Ep, Ea. vm_compute. reflexivity. }
      rewrite E1, E2, E3, E4, E5, Hfee. reflexivity.
Qed.

End InvestmentBuy.

(** ** InvestmentSell *)

Section InvestmentSell.
Import InvestmentSellTransaction.
Context {RDH : RawDataHandler} {REC : RecordBase}.

Lemma InvestmentSell_validate_Ok (self : t) :
  validate self = Ok tt <->
  account self <> VNone /\ 0 <= fee self /\
  fee_tiny_or_positive (fee self) = true /\
  investment_holding self <> VNone /\ 0 < number_of_shares self /\
  0 <= price_per_share self /\
  approx_distance
    (sell_value (number_of_shares self) (price_per_share self) (fee self))
    (amount self) <= ABS_TOLERANCE /\
  symbol self <> VNone.
Proof.
  unfold validate.
  rewrite !assert_bind_Ok, assert_Ok_iff.
  rewrite !is_not_None_Value, !is_not_None_Decimal.
  rewrite (approx_iff _ _ _ ABS_TOLERANCE_nonneg).
  rewrite !Qle_bool_iff, !Qlt_bool_iff.
  tauto.
Qed.

Lemma InvestmentSell_init_Ok (row : Row) (self : t) :
  __init__ row = Ok self <->
  exists (base : Transaction.t) (a f shares price : Q),
    Transaction.__init__ false row = Ok base /\
    get_decimal row "ZAMOUNT1" = Some a /\
    get_decimal row "ZFEE2" = Some f /\
    get_decimal row "ZNUMBEROFSHARES1" = Some shares /\
    get_decimal row "ZPRICEPERSHARE1" = Some price /\
    self = {| super := Transaction.set_amount base a;
              account := getitem row "ZACCOUNT2"; fee := py_max f 0;
              investment_holding := getitem row "ZINVESTMENTHOLDING";
              number_of_shares := shares; price_per_share := price;
              symbol := getitem row "ZSYMBOL1" |} /\
    validate self = Ok tt.
Proof.
  unfold __init__. split.
  - intros H. inv_ok. subst self.
    match goal with Hv : validate _ = Ok ?u |- _ => destruct u end.
    eauto 12.
  - intros (base & a & f & shares & price & Hb & Ha & Hf & Hs & Hp & -> & Hv).
    rewrite Hb, Ha, Hf, Hs, Hp. cbn [bind accessor]. rewrite Hv. reflexivity.
Qed.



Lemma InvestmentSell_validate_257 (self : t) :
  0 <= fee self -> validate self <> Raise (AssertionError 257).
Proof.
  intros Hfee. unfold validate.
  do 3 (step_assert; [|discriminate]).
  apply Qle_bool_iff in Hfee. rewrite Hfee. cbn [assert_ bind].
  repeat (step_assert; [|discriminate]). discriminate.
Qed.

Lemma InvestmentSell_init_not_257 (row : Row) :
  __init__ row <> Raise (AssertionError 257).
Proof.
  unfold __init__. intros H.
  apply bind_Raise in H. destruct H as [H | (base & _ & H)].
  { apply Transaction_init_Raise in H.
    destruct H as [H | [[c H] | [H | H]]]; discriminate H. }
  repeat (apply bind_Raise in H;
          destruct H as [H | (? & _ & H)];
          [apply accessor_Raise in H; discriminate H|]).
  apply bind_Raise in H. destruct H as [H | (? & _ & H)]; [|discriminate H].
  revert H. apply InvestmentSell_validate_257. cbn [fee]. apply py_max_0_nonneg.
Qed.

(** X1. Every constructed InvestmentSell has fee >= 0, shares > 0,
    price >= 0, and the distance between its amount and
    shares * price - fee, in the arithmetic of the decimal context, is at
    most ABS_TOLERANCE, the float 0.001; its fee passed the check of line
    259. *)
Theorem InvestmentSell_invariants (row : Row) (self : t) :
  __init__ row = Ok self ->
  0 <= fee self /\ 0 < number_of_shares self /\ 0 <= price_per_share self /\
  approx_distance
    (sell_value (number_of_shares self) (price_per_share self) (fee self))
    (amount self) <= ABS_TOLERANCE /\
  ~ (fee self <= ABS_TOLERANCE /\ ABS_TOLERANCE < py_abs (fee self)).
Proof.
  intros H. apply InvestmentSell_init_Ok in H.
  destruct H as (base & a & f & shares & price & _ & _ & _ & _ & _ & _ & Hv).
  apply InvestmentSell_validate_Ok in Hv.
  destruct Hv as (_ & Hfee & Hcheck & _ & Hs & Hp & Habs & _).
  repeat split; try assumption.
  intros Hf. apply sell_fee_check_false in Hf. congruence.
Qed.

(** X2. A row whose extraction succeeds is accepted as InvestmentSell exactly
    when account, holding and symbol are present, shares > 0, price >= 0,
    the clamped fee max(fee, 0) passes the check of line 259, and the
    distance between the amount and shares * price - max(fee, 0) is at
    most ABS_TOLERANCE; the amount's sign is not constrained. *)
Theorem InvestmentSell_accepts (row : Row) (base : Transaction.t)
    (a f shares price : Q) :
  Transaction.__init__ false row = Ok base ->
  get_decimal row "ZAMOUNT1" = Some a ->
  get_decimal row "ZFEE2" = Some f ->
  get_decimal row "ZNUMBEROFSHARES1" = Some shares ->
  get_decimal row "ZPRICEPERSHARE1" = Some price ->
  is_ok (__init__ row) = true <->
  getitem row "ZACCOUNT2" <> VNone /\
  getitem row "ZINVESTMENTHOLDING" <> VNone /\
  getitem row "ZSYMBOL1" <> VNone /\
  0 < shares /\ 0 <= price /\
  ~ (py_max f 0 <= ABS_TOLERANCE /\ ABS_TOLERANCE < py_abs (py_max f 0)) /\
  approx_distance (sell_value shares price (py_max f 0)) a <= ABS_TOLERANCE.
Proof.
  intros Hb Ha Hf Hs Hp.
  set (self := {| super := Transaction.set_amount base a;
                  account := getitem row "ZACCOUNT2"; fee := py_max f 0;
                  investment_holding := getitem row "ZINVESTMENTHOLDING";
                  number_of_shares := shares; price_per_share := price;
                  symbol := getitem row "ZSYMBOL1" |}).
  assert (Hinit : __init__ row = (validate self ;; Ok self)).
  { unfold __init__. rewrite Hb, Ha, Hf, Hs, Hp. reflexivity. }
  rewrite Hinit, is_ok_validate_then, InvestmentSell_validate_Ok.
  unfold amount, self.
  cbn [super account fee investment_holding number_of_shares price_per_share
       symbol Transaction.amount Transaction.set_amount].
  pose proof (py_max_0_nonneg f).
  rewrite <- sell_fee_check_false.
  destruct (fee_tiny_or_positive (py_max f 0)); intuition congruence.
Qed.

End InvestmentSell.

Section InvestmentBuyMore.
Import InvestmentBuyTransaction.
Context {RDH : RawDataHandler} {REC : RecordBase}.

(** X3. A row whose extraction succeeds is accepted as InvestmentBuy exactly
    when account, holding and symbol are present, amount <= 0, shares > 0,
    price >= 0, the clamped fee max(fee, 0) passes the check of line 203,
    and the distance between the amount and
    -(shares * price + max(fee, 0)) is at most ABS_TOLERANCE. *)
Theorem InvestmentBuy_accepts (row : Row) (base : Transaction.t)
    (a f shares price : Q) :
  Transaction.__init__ false row = Ok base ->
  get_decimal row "ZAMOUNT1" = Some a ->
  get_decimal row "ZFEE2" = Some f ->
  get_decimal row "ZNUMBEROFSHARES1" = Some shares ->
  get_decimal row "ZPRICEPERSHARE1" = Some price ->
  is_ok (__init__ row) = true <->
  getitem row "ZACCOUNT2" <> VNone /\
  getitem row "ZINVESTMENTHOLDING" <> VNone /\
  getitem row "ZSYMBOL1" <> VNone /\
  a <= 0 /\ 0 < shares /\ 0 <= price /\
  ~ (py_max f 0 <= ABS_TOLERANCE /\ ABS_TOLERANCE < py_abs (py_max f 0)) /\
  approx_distance (buy_value shares price (py_max f 0)) a <= ABS_TOLERANCE.
Proof.
  intros Hb Ha Hf Hs Hp.
  rewrite (InvestmentBuy_init_eq row base a f shares price Hb Ha Hf Hs Hp).
  rewrite is_ok_validate_then, InvestmentBuy_validate_Ok.
  unfold amount.
  cbn [super account fee investment_holding number_of_shares price_per_share
       symbol Transaction.amount Transaction.set_amount].
  pose proof (py_max_0_nonneg f) as Hfee.
  rewrite <- fee_check_false.
  destruct (fee_tiny_or_positive (py_max f 0)); intuition congruence.
Qed.

End InvestmentBuyMore.


(** X4. The fee of a constructed InvestmentBuy or InvestmentSell is the stored
    fee when that is not negative and 0 when it is; the constructors never
    fail on [assert self.fee >= 0] (lines 201 and 257). *)
Theorem investment_fee_clamped {RDH : RawDataHandler} {REC : RecordBase}
    (row : Row) (raw : Q) :
  get_decimal row "ZFEE2" = Some raw ->
  (forall self : InvestmentBuyTransaction.t,
     InvestmentBuyTransaction.__init__ row = Ok self ->
     (raw < 0 -> InvestmentBuyTransaction.fee self = 0) /\
     (0 <= raw -> InvestmentBuyTransaction.fee self = raw)) /\
  (forall self : InvestmentSellTransaction.t,
     InvestmentSellTransaction.__init__ row = Ok self ->
     (raw < 0 -> InvestmentSellTransaction.fee self = 0) /\
     (0 <= raw -> InvestmentSellTransaction.fee self = raw)) /\
  InvestmentBuyTransaction.__init__ row <> Raise (AssertionError 201) /\
  InvestmentSellTransaction.__init__ row <> Raise (AssertionError 257).
Proof.
  intros Hraw. split; [|split; [|split]].
  - intros self H. rewrite (InvestmentBuy_init_fee row self raw Hraw H).
    apply py_max_0_cases.
  - intros self H. apply InvestmentSell_init_Ok in H.
    destruct H as (base & a & f & shares & price & _ & _ & Hf & _ & _ & -> & _).
    cbn [InvestmentSellTransaction.fee].
    assert (f = raw) by congruence. subst f. apply py_max_0_cases.
  - apply InvestmentBuy_init_not_201.
  - apply InvestmentSell_init_not_257.
Qed.

(** ** Deposit *)

Section Deposit.
Import DepositTransaction.
Context {RDH : RawDataHandler} {REC : RecordBase}.

Lemma Deposit_validate_Ok (self : t) :
  validate self = Ok tt <->
  account self <> VNone /\ original_currency self <> VNone /\
  0 < amount self * original_amount self /\
  (forall rate : Q,
     original_exchange_rate self = Some rate ->
     approx_distance (amount self) (decimal_mul (original_amount self) rate)
     <= ABS_TOLERANCE).
Proof.
  unfold validate.
  rewrite !assert_bind_Ok.
  rewrite !is_not_None_Value, !is_not_None_Decimal, Qlt_bool_iff, decimal_mul_pos.
  destruct (original_exchange_rate self) as [rate|].
  - rewrite assert_Ok_iff, (approx_iff _ _ _ ABS_TOLERANCE_nonneg).
    split.
    + intros (H1 & _ & H2 & _ & H3 & H4). repeat split; try assumption.
      intros r [= <-]. exact H4.
    + intros (H1 & H2 & H3 & H4). repeat split; try assumption.
      apply H4. reflexivity.
  - split.
    + intros (H1 & _ & H2 & _ & H3 & _). repeat split; try assumption.
      discriminate.
    + intros (H1 & H2 & H3 & _). repeat split; assumption.
Qed.

(** The constructor succeeds exactly when the extraction succeeds and the
    instance it assembles passes [validate]. *)
Lemma Deposit_init_Ok (row : Row) (self : t) :
  __init__ row = Ok self <->
  exists (base : Transaction.t) (a o : Q) (rate : option Q),
    Transaction.__init__ false row = Ok base /\
    get_decimal row "ZAMOUNT1" = Some a /\
    get_decimal row "ZORIGINALAMOUNT" = Some o /\
    get_nullable_decimal row "ZORIGINALEXCHANGERATE" = Some rate /\
    self = {| super := Transaction.set_amount base a;
              account := getitem row "ZACCOUNT2";
              payee := getitem row "ZPAYEE2";
              original_currency := getitem row "ZORIGINALCURRENCY";
              original_amount := o;
              original_exchange_rate := zero_rate_to_None rate |} /\
    validate self = Ok tt.
Proof.
  unfold __init__. split.
  - intros H. inv_ok. subst self.
    match goal with Hv : validate _ = Ok ?u |- _ => destruct u end.
    eauto 10.
  - intros (base & a & o & rate & Hb & Ha & Ho & Hr & -> & Hv).
    rewrite Hb, Ha, Ho, Hr. cbn [bind accessor]. rewrite Hv. reflexivity.
Qed.

(** C2. Every constructed Deposit has amount * original_amount > 0, and
    when its exchange rate is not null, the distance between its amount and
    original_amount * rate, in the arithmetic of the decimal context, is at
    most ABS_TOLERANCE, the float 0.001; when the product and the
    difference have at most 28 significant digits, that is
    |amount - original_amount * rate| <= ABS_TOLERANCE. *)
Theorem Deposit_invariants (row : Row) (self : t) :
  __init__ row = Ok self ->
  0 < amount self * original_amount self /\
  (forall rate : Q,
     original_exchange_rate self = Some rate ->
     approx_distance (amount self) (decimal_mul (original_amount self) rate)
     <= ABS_TOLERANCE /\
     (context_exact (original_amount self * rate) ->
      context_exact (original_amount self * rate - amount self) ->
      Qabs (amount self - original_amount self * rate) <= ABS_TOLERANCE)).
Proof.
  intros H. apply Deposit_init_Ok in H.
  destruct H as (base & a & o & rate & _ & _ & _ & _ & _ & Hv).
  apply Deposit_validate_Ok in Hv. destruct Hv as (_ & _ & Hsign & Hrate).
  split; [exact Hsign|].
  intros r Hr. specialize (Hrate r Hr). split; [exact Hrate|].
  intros Emul Esub. unfold context_exact in Emul, Esub.
  rewrite approx_distance_value in Hrate. unfold decimal_sub, decimal_mul in Hrate.
  rewrite Emul, Esub in Hrate.
  rewrite (Qabs_Qminus (amount self) (original_amount self * r)). exact Hrate.
Qed.

(** A zero amount or original amount never passes the same-sign check. *)
Lemma Deposit_zero_rejected (row : Row) (a o : Q) :
  get_decimal row "ZAMOUNT1" = Some a ->
  get_decimal row "ZORIGINALAMOUNT" = Some o ->
  a == 0 \/ o == 0 ->
  is_ok (__init__ row) = false /\
  (forall (base : Transaction.t) (rate : option Q),
     Transaction.__init__ false row = Ok base ->
     get_nullable_decimal row "ZORIGINALEXCHANGERATE" = Some rate ->
     (exists line : nat, __init__ row = Raise (AssertionError line)) /\
     (getitem row "ZACCOUNT2" <> VNone ->
      getitem row "ZORIGINALCURRENCY" <> VNone ->
      __init__ row = Raise (AssertionError 88))).
Proof.
  intros Ha Ho Hz.
  assert (Hprod : Qlt_bool 0 (decimal_mul a o) = false).
  { destruct (Qlt_bool 0 (decimal_mul a o)) eqn:E; [|reflexivity].
    apply Qlt_bool_iff, decimal_mul_pos in E.
    destruct Hz as [Hz | Hz]; rewrite Hz in E; lra. }
  split.
  - destruct (__init__ row) as [self|e] eqn:E; [|reflexivity].
    apply Deposit_init_Ok in E.
    destruct E as (base & a' & o' & rate & _ & Ha' & Ho' & _ & -> & Hv).
    apply Deposit_validate_Ok in Hv. destruct Hv as (_ & _ & Hv & _).
    unfold amount in Hv. cbn in Hv.
    assert (a' = a) by congruence. assert (o' = o) by congruence. subst a' o'.
    apply decimal_mul_pos, Qlt_bool_iff in Hv. congruence.
  - intros base rate Hb Hr. unfold __init__.
    rewrite Hb, Ha, Ho, Hr. cbn [bind accessor].
    unfold validate, amount.
    cbn [super account original_currency original_amount original_exchange_rate
         Transaction.amount Transaction.set_amount].
    rewrite Hprod. split.
    + destruct (is_not_None (getitem row "ZACCOUNT2")); cbn; eauto.
      destruct (is_not_None (getitem row "ZORIGINALCURRENCY")); cbn; eauto.
    + intros Hacc Hcur.
      rewrite (proj2 (is_not_None_Value _) Hacc).
      rewrite (proj2 (is_not_None_Value _) Hcur). reflexivity.
Qed.

End Deposit.

(** ** Withdraw *)

Section Withdraw.
Import WithdrawTransaction.
Context {RDH : RawDataHandler} {REC : RecordBase}.

Lemma Withdraw_validate_Ok (self : t) :
  validate self = Ok tt <->
  account self <> VNone /\ original_currency self <> VNone /\
  0 < amount self * original_amount self /\
  (forall rate : Q,
     original_exchange_rate self = Some rate ->
     approx_distance (amount self) (decimal_mul (original_amount self) rate)
     <= ABS_TOLERANCE2).
Proof.
  unfold validate.
  rewrite !assert_bind_Ok.
  rewrite !is_not_None_Value, !is_not_None_Decimal, Qlt_bool_iff, decimal_mul_pos.
  destruct (original_exchange_rate self) as [rate|].
  - rewrite assert_Ok_iff, (approx_iff _ _ _ ABS_TOLERANCE2_nonneg).
    split.
    + intros (H1 & _ & H2 & _ & H3 & H4). repeat split; try assumption.
      intros r [= <-]. exact H4.
    + intros (H1 & H2 & H3 & H4). repeat split; try assumption.
      apply H4. reflexivity.
  - split.
    + intros (H1 & _ & H2 & _ & H3 & _). repeat split; try assumption.
      discriminate.
    + intros (H1 & H2 & H3 & _). repeat split; assumption.
Qed.

Lemma Withdraw_init_Ok (row : Row) (self : t) :
  __init__ row = Ok self <->
  exists (base : Transaction.t) (a o : Q) (rate : option Q),
    Transaction.__init__ false row = Ok base /\
    get_decimal row "ZAMOUNT1" = Some a /\
    get_decimal row "ZORIGINALAMOUNT" = Some o /\
    get_nullable_decimal row "ZORIGINALEXCHANGERATE" = Some rate /\
    self = {| super := Transaction.set_amount base a;
              account := getitem row "ZACCOUNT2";
              payee := getitem row "ZPAYEE2";
              original_currency := getitem row "ZORIGINALCURRENCY";
              original_amount := fix_sign a o;
              original_exchange_rate := zero_rate_to_None rate |} /\
    validate self = Ok tt.
Proof.
  unfold __init__. split.
  - intros H. inv_ok. subst self.
    match goal with Hv : validate _ = Ok ?u |- _ => destruct u end.
    eauto 10.
  - intros (base & a & o & rate & Hb & Ha & Ho & Hr & -> & Hv).
    rewrite Hb, Ha, Ho, Hr. cbn [bind accessor]. rewrite Hv. reflexivity.
Qed.

Lemma fix_sign_opposite (a o : Q) : a * o < 0 -> fix_sign a o = decimal_neg o.
Proof.
  intros H. unfold fix_sign. apply decimal_mul_neg, Qlt_bool_iff in H.
  rewrite H. reflexivity.
Qed.

Lemma fix_sign_unchanged (a o : Q) : 0 <= a * o -> fix_sign a o = o.
Proof.
  intros H. unfold fix_sign.
  destruct (Qlt_bool (decimal_mul a o) 0) eqn:E; [|reflexivity].
  apply Qlt_bool_iff, decimal_mul_neg in E. lra.
Qed.

Lemma fix_sign_product (a o : Q) : 0 < a * fix_sign a o <-> ~ a * o == 0.
Proof.
  destruct (Qlt_le_dec (a * o) 0) as [Hlt | Hge].
  - rewrite (fix_sign_opposite a o Hlt). unfold decimal_neg.
    rewrite mul_decimal_round_pos. split; intros H; lra.
  - rewrite (fix_sign_unchanged a o Hge). split; intros H; [lra|].
    destruct (Qlt_le_dec 0 (a * o)) as [Hlt | Hle]; [exact Hlt|].
    exfalso. apply H. lra.
Qed.

(** The fixed original amount is the extracted one or its negation, and
    has the magnitude that the context gives the extracted one. *)
Lemma fix_sign_cases (a o : Q) :
  (fix_sign a o = o \/ fix_sign a o = decimal_neg o) /\
  py_abs (fix_sign a o) == py_abs o.
Proof.
  unfold fix_sign. destruct (Qlt_bool (decimal_mul a o) 0).
  - split; [right; reflexivity|].
    rewrite decimal_neg_value, py_abs_opp.
    rewrite !py_abs_value, decimal_round_idem. reflexivity.
  - split; [left; reflexivity | reflexivity].
Qed.

(** C5. When the extracted amount and original amount have a negative
    product, the instance holds the negation of the extracted original
    amount as the decimal context gives it, which is the exact negation when
    the extracted one has at most 28 significant digits, and which has the
    sign of the amount; and with a non-null rate on the instance the
    constructor accepts a row that is well formed otherwise exactly when
    the distance between the amount and original_amount * rate, in the
    arithmetic of the context, is at most ABS_TOLERANCE2, the float 0.01. *)
Theorem Withdraw_sign_fix (row : Row) (a o : Q) :
  get_decimal row "ZAMOUNT1" = Some a ->
  get_decimal row "ZORIGINALAMOUNT" = Some o ->
  a * o < 0 ->
  (forall self : t,
     __init__ row = Ok self ->
     amount self = a /\ original_amount self = decimal_neg o /\
     (context_exact o -> original_amount self = - o)) /\
  0 < a * decimal_neg o /\
  (forall (base : Transaction.t) (raw : option Q) (rate : Q),
     Transaction.__init__ false row = Ok base ->
     get_nullable_decimal row "ZORIGINALEXCHANGERATE" = Some raw ->
     zero_rate_to_None raw = Some rate ->
     getitem row "ZACCOUNT2" <> VNone ->
     getitem row "ZORIGINALCURRENCY" <> VNone ->
     ((exists self : t,
         __init__ row = Ok self /\ original_exchange_rate self = Some rate) <->
      approx_distance a (decimal_mul (decimal_neg o) rate) <= ABS_TOLERANCE2)).
Proof.
  intros Ha Ho Hneg.
  assert (Hpos : 0 < a * decimal_neg o).
  { unfold decimal_neg. apply mul_decimal_round_pos. lra. }
  split; [|split; [exact Hpos|]].
  - intros self H. apply Withdraw_init_Ok in H.
    destruct H as (base & a' & o' & rate & _ & Ha' & Ho' & _ & -> & _).
    assert (a' = a) by congruence. assert (o' = o) by congruence. subst a' o'.
    cbn [original_amount]. rewrite (fix_sign_opposite a o Hneg).
    split; [reflexivity|]. split; [reflexivity|].
    apply decimal_neg_exact.
  - intros base raw rate Hb Hraw Hrate Hacc Hcur.
    set (self := {| super := Transaction.set_amount base a;
                    account := getitem row "ZACCOUNT2";
                    payee := getitem row "ZPAYEE2";
                    original_currency := getitem row "ZORIGINALCURRENCY";
                    original_amount := fix_sign a o;
                    original_exchange_rate := zero_rate_to_None raw |}).
    assert (Hval : validate self = Ok tt <->
                   approx_distance a (decimal_mul (decimal_neg o) rate)
                   <= ABS_TOLERANCE2).
    { rewrite Withdraw_validate_Ok. unfold amount, self.
      cbn [super account original_currency original_amount original_exchange_rate
           Transaction.amount Transaction.set_amount].
      rewrite Hrate, (fix_sign_opposite a o Hneg).
      split.
      - intros (_ & _ & _ & H). apply H. reflexivity.
      - intros H. repeat split; try assumption.
        intros r [= <-]. exact H. }
    rewrite <- Hval. split.
    + intros (self' & H & _). apply Withdraw_init_Ok in H.
      destruct H as (base' & a' & o' & raw' & Hb' & Ha' & Ho' & Hraw' & -> & Hv).
      assert (base' = base) by congruence. assert (a' = a) by congruence.
      assert (o' = o) by congruence. assert (raw' = raw) by congruence.
      subst. exact Hv.
    + intros Hv. exists self. split.
      * apply Withdraw_init_Ok. exists base, a, o, raw. tauto.
      * exact Hrate.
Qed.

Lemma Withdraw_zero_rejected (row : Row) (a o : Q) :
  get_decimal row "ZAMOUNT1" = Some a ->
  get_decimal row "ZORIGINALAMOUNT" = Some o ->
  a == 0 \/ o == 0 ->
  fix_sign a o = o /\
  is_ok (__init__ row) = false /\
  (forall (base : Transaction.t) (rate : option Q),
     Transaction.__init__ false row = Ok base ->
     get_nullable_decimal row "ZORIGINALEXCHANGERATE" = Some rate ->
     (exists line : nat, __init__ row = Raise (AssertionError line)) /\
     (getitem row "ZACCOUNT2" <> VNone ->
      getitem row "ZORIGINALCURRENCY" <> VNone ->
      __init__ row = Raise (AssertionError 585))).
Proof.
  intros Ha Ho Hz.
  assert (Hfix : fix_sign a o = o).
  { apply fix_sign_unchanged. destruct Hz as [Hz | Hz]; rewrite Hz; lra. }
  assert (Hprod : Qlt_bool 0 (decimal_mul a o) = false).
  { destruct (Qlt_bool 0 (decimal_mul a o)) eqn:E; [|reflexivity].
    apply Qlt_bool_iff, decimal_mul_pos in E.
    destruct Hz as [Hz | Hz]; rewrite Hz in E; lra. }
  split; [exact Hfix|]. split.
  - destruct (__init__ row) as [self|e] eqn:E; [|reflexivity].
    apply Withdraw_init_Ok in E.
    destruct E as (base & a' & o' & rate & _ & Ha' & Ho' & _ & -> & Hv).
    apply Withdraw_validate_Ok in Hv. destruct Hv as (_ & _ & Hv & _).
    unfold amount in Hv. cbn in Hv.
    assert (a' = a) by congruence. assert (o' = o) by congruence. subst a' o'.
    rewrite Hfix in Hv. apply decimal_mul_pos, Qlt_bool_iff in Hv. congruence.
  - intros base rate Hb Hr. unfold __init__.
    rewrite Hb, Ha, Ho, Hr. cbn [bind accessor].
    unfold validate, amount.
    cbn [super account original_currency original_amount original_exchange_rate
         Transaction.amount Transaction.set_amount].
    rewrite Hfix, Hprod. split.
    + destruct (is_not_None (getitem row "ZACCOUNT2")); cbn; eauto.
      destruct (is_not_None (getitem row "ZORIGINALCURRENCY")); cbn; eauto.
    + intros Hacc Hcur.
      rewrite (proj2 (is_not_None_Value _) Hacc).
      rewrite (proj2 (is_not_None_Value _) Hcur). reflexivity.
Qed.

End Withdraw.

(** C10. A Deposit or Withdraw row whose decoded amount or original amount
    is zero is never accepted (the Withdraw sign fix leaves the original
    amount as it is): once the extraction has succeeded the constructor
    fails on an assertion, and that is the same-sign assertion (line 88,
    line 585) when account and original currency are present. *)
Theorem zero_amount_rejected {RDH : RawDataHandler} {REC : RecordBase}
    (row : Row) (a o : Q) :
  get_decimal row "ZAMOUNT1" = Some a ->
  get_decimal row "ZORIGINALAMOUNT" = Some o ->
  a == 0 \/ o == 0 ->
  Qlt_bool 0 (a * o) = false /\
  Qlt_bool 0 (decimal_mul a o) = false /\
  WithdrawTransaction.fix_sign a o = o /\
  is_ok (DepositTransaction.__init__ row) = false /\
  is_ok (WithdrawTransaction.__init__ row) = false /\
  (forall (base : Transaction.t) (rate : option Q),
     Transaction.__init__ false row = Ok base ->
     get_nullable_decimal row "ZORIGINALEXCHANGERATE" = Some rate ->
     (exists line : nat,
        DepositTransaction.__init__ row = Raise (AssertionError line)) /\
     (exists line : nat,
        WithdrawTransaction.__init__ row = Raise (AssertionError line)) /\
     (getitem row "ZACCOUNT2" <> VNone ->
      getitem row "ZORIGINALCURRENCY" <> VNone ->
      DepositTransaction.__init__ row = Raise (AssertionError 88) /\
      WithdrawTransaction.__init__ row = Raise (AssertionError 585))).
Proof.
  intros Ha Ho Hz.
  destruct (Deposit_zero_rejected row a o Ha Ho Hz) as [Hd1 Hd2].
  destruct (Withdraw_zero_rejected row a o Ha Ho Hz) as (Hfix & Hw1 & Hw2).
  assert (Hexact : Qlt_bool 0 (a * o) = false).
  { destruct (Qlt_bool 0 (a * o)) eqn:E; [|reflexivity].
    apply Qlt_bool_iff in E. destruct Hz as [Hz | Hz]; rewrite Hz in E; lra. }
  split; [exact Hexact|]. split.
  { destruct (Qlt_bool 0 (decimal_mul a o)) eqn:E; [|reflexivity].
    apply Qlt_bool_iff, decimal_mul_pos, Qlt_bool_iff in E. congruence. }
  split; [exact Hfix|]. split; [exact Hd1|]. split; [exact Hw1|].
  intros base rate Hb Hr.
  destruct (Hd2 base rate Hb Hr) as [Hd3 Hd4].
  destruct (Hw2 base rate Hb Hr) as [Hw3 Hw4].
  split; [exact Hd3|]. split; [exact Hw3|].
  intros Hacc Hcur. split; [exact (Hd4 Hacc Hcur) | exact (Hw4 Hacc Hcur)].
Qed.

(** ** TransferDeposit *)

Section TransferDeposit.
Import TransferDepositTransaction.
Context {RDH : RawDataHandler} {REC : RecordBase}.

Lemma TransferDeposit_validate_Ok (self : t) :
  validate self = Ok tt ->
  0 < amount self /\ 0 < original_amount self /\ sender_amount self <= 0 /\
  (investment_holding self = VNone ->
   approx_distance (amount self) (original_amount self) <= ABS_TOLERANCE) /\
  approx_distance (original_amount self)
                  (decimal_mul (decimal_neg (sender_amount self))
                               (original_exchange_rate self))
  <= ABS_TOLERANCE.
Proof.
  unfold validate. intros H.
  repeat (apply assert_bind_Ok in H; destruct H as [? H]).
  apply bind_Ok in H. destruct H as ([] & Hhold & H).
  apply assert_Ok_iff, (approx_iff _ _ _ ABS_TOLERANCE_nonneg) in H.
  repeat match goal with
         | E : Qlt_bool _ _ = true |- _ => apply Qlt_bool_iff in E
         | E : Qle_bool _ _ = true |- _ => apply Qle_bool_iff in E
         end.
  repeat split; try assumption.
  intros Hnone. rewrite Hnone in Hhold. cbn in Hhold.
  apply assert_Ok_iff, (approx_iff _ _ _ ABS_TOLERANCE_nonneg) in Hhold.
  exact Hhold.
Qed.

Lemma TransferDeposit_init_Ok (row : Row) (self : t) :
  __init__ row = Ok self ->
  validate self = Ok tt /\
  exists raw : Q,
    get_decimal row "ZORIGINALAMOUNT" = Some raw /\
    original_amount self = py_abs raw.
Proof.
  unfold __init__. intros H. inv_ok. subst self.
  match goal with Hv : validate _ = Ok ?u |- _ => destruct u end.
  split; [assumption|]. eexists. split; [eassumption | reflexivity].
Qed.

(** C3. Every constructed TransferDeposit has amount > 0 and
    original_amount > 0, the latter being the absolute value of the
    extracted one; the distance between original_amount and
    -sender_amount * rate, in the arithmetic of the decimal context, is at
    most ABS_TOLERANCE, the float 0.001; and without an investment holding
    so is the distance between amount and original_amount.  When the
    differences and the product have at most 28 significant digits, these
    are |original_amount - (-sender_amount * rate)| <= ABS_TOLERANCE and
    |amount - original_amount| <= ABS_TOLERANCE. *)
Theorem TransferDeposit_invariants (row : Row) (self : t) :
  __init__ row = Ok self ->
  0 < amount self /\
  0 < original_amount self /\
  (exists raw : Q,
     get_decimal row "ZORIGINALAMOUNT" = Some raw /\
     original_amount self = py_abs raw) /\
  approx_distance (original_amount self)
                  (decimal_mul (decimal_neg (sender_amount self))
                               (original_exchange_rate self))
  <= ABS_TOLERANCE /\
  (investment_holding self = VNone ->
   approx_distance (amount self) (original_amount self) <= ABS_TOLERANCE) /\
  (context_exact (sender_amount self) ->
   context_exact (- sender_amount self * original_exchange_rate self) ->
   context_exact (- sender_amount self * original_exchange_rate self
                  - original_amount self) ->
   Qabs (original_amount self
         - - sender_amount self * original_exchange_rate self)
   <= ABS_TOLERANCE) /\
  (investment_holding self = VNone ->
   context_exact (original_amount self - amount self) ->
   Qabs (amount self - original_amount self) <= ABS_TOLERANCE).
Proof.
  intros H. apply TransferDeposit_init_Ok in H. destruct H as [Hv Hraw].
  apply TransferDeposit_validate_Ok in Hv.
  destruct Hv as (H1 & H2 & H3 & H4 & H5).
  repeat split; try assumption.
  - intros Es Em Ed. unfold context_exact in Es, Em, Ed.
    rewrite approx_distance_value in H5.
    unfold decimal_sub, decimal_mul in H5.
    rewrite decimal_neg_value, Es, Em, Ed in H5.
    rewrite (Qabs_Qminus (original_amount self)). exact H5.
  - intros Hnone Ed. unfold context_exact in Ed. specialize (H4 Hnone).
    rewrite approx_distance_value in H4. unfold decimal_sub in H4.
    rewrite Ed in H4. rewrite (Qabs_Qminus (amount self)). exact H4.
Qed.

End TransferDeposit.

(** ** The fixes applied twice *)

(** C8. Normalising a zero rate to null maps 0 to null and leaves every
    other value as it is, and doing it twice is doing it once; the absolute
    value of an absolute value is that absolute value. *)
Theorem fixes_idempotent (v : Q) :
  zero_rate_to_None (Some v) = (if Qeq_bool v 0 then None else Some v) /\
  zero_rate_to_None (zero_rate_to_None (Some v)) = zero_rate_to_None (Some v) /\
  zero_rate_to_None (zero_rate_to_None None) = zero_rate_to_None None /\
  py_abs (py_abs v) = py_abs v.
Proof.
  split; [reflexivity|]. split; [|split].
  - simpl. destruct (Qeq_bool v 0) eqn:E; simpl; [reflexivity|].
    rewrite E. reflexivity.
  - reflexivity.
  - apply py_abs_idem.
Qed.

(** ** InvestmentExchange *)

Section InvestmentExchange.
Import InvestmentExchangeTransaction.
Context {RDH : RawDataHandler} {REC : RecordBase}.




Lemma py_add_None (x : Value) : py_add x VNone = Raise TypeError.
Proof. destruct x; reflexivity. Qed.

Lemma InvestmentExchange_validate_Ok (self : t) :
  validate self = Ok tt ->
  py_le0 (from_number_of_shares self) = Ok true /\
  py_ge0 (to_number_of_shares self) = Ok true /\
  original_fee self <> VNone /\
  (py_eq (original_fee_currency self) (from_symbol self) = true \/
   py_eq (original_fee_currency self) (to_symbol self) = true) /\
  (~ fee self == 0 -> py_ne0 (original_fee self) = true).
Proof.
  unfold validate. intros H.
  repeat (apply assert_bind_Ok in H; destruct H as [? H]).
  apply bind_Ok in H. destruct H as (c1 & Hfrom & H).
  apply assert_bind_Ok in H. destruct H as [-> H].
  apply bind_Ok in H. destruct H as (c2 & Hto & H).
  apply assert_bind_Ok in H. destruct H as [-> H].
  apply assert_bind_Ok in H. destruct H as [Hfee H].
  apply assert_bind_Ok in H. destruct H as [Hin H].
  split; [exact Hfrom|].
  split; [exact Hto|].
  split; [apply is_not_None_Value; exact Hfee|].
  split.
  - unfold py_in in Hin. cbn [existsb] in Hin.
    rewrite orb_false_r in Hin. apply orb_true_iff in Hin. exact Hin.
  - intros Hne. apply Qeq_bool_false in Hne. rewrite Hne in H. cbn in H.
    apply assert_Ok_iff in H. exact H.
Qed.

Lemma InvestmentExchange_init_Ok (row : Row) (self : t) :
  __init__ row = Ok self ->
  validate self = Ok tt /\
  from_symbol self = getitem row "ZFROMSYMBOL" /\
  to_symbol self = getitem row "ZTOSYMBOL" /\
  original_fee self = getitem row "ZORIGINALFEE" /\
  original_fee_currency self = getitem row "ZORIGINALFEECURRENCY" /\
  fold_fee (original_fee_currency self) (from_symbol self) (to_symbol self)
           (getitem row "ZFROMNUMBEROFSHARES") (getitem row "ZTONUMBEROFSHARES")
           (original_fee self)
  = Ok (from_number_of_shares self, to_number_of_shares self).
Proof.
  unfold __init__. intros H. inv_ok. subst self.
  match goal with Hv : validate _ = Ok ?u |- _ => destruct u end.
  cbn [from_symbol to_symbol original_fee original_fee_currency
       from_number_of_shares to_number_of_shares].
  repeat split; try assumption.
  match goal with Hf : fold_fee _ _ _ _ _ _ = Ok ?p |- _ =>
    rewrite Hf; destruct p; reflexivity end.
Qed.


(** X19. An InvestmentExchange row with a null original fee is never accepted;
    when the fee currency equals the source or the destination symbol, the
    addition of the fix raises TypeError, before any assertion of
    [validate] is reached. *)
Theorem InvestmentExchange_null_original_fee (row : Row) :
  getitem row "ZORIGINALFEE" = VNone ->
  is_ok (__init__ row) = false /\
  (forall (base : Transaction.t) (f : Q),
     Transaction.__init__ false row = Ok base ->
     get_decimal row "ZFEE2" = Some f ->
     py_in (getitem row "ZORIGINALFEECURRENCY")
           [getitem row "ZFROMSYMBOL"; getitem row "ZTOSYMBOL"] = true ->
     __init__ row = Raise TypeError).
Proof.
  intros Hnull. split.
  - destruct (__init__ row) as [self|e] eqn:E; [|reflexivity].
    apply InvestmentExchange_init_Ok in E.
    destruct E as (Hv & _ & _ & Hfee & _).
    apply InvestmentExchange_validate_Ok in Hv.
    destruct Hv as (_ & _ & Hnn & _). congruence.
  - intros base f Hb Hf Hin. unfold __init__.
    rewrite Hb, Hf, Hnull. cbn [bind accessor].
    unfold fold_fee. unfold py_in in Hin. cbn [existsb] in Hin.
    rewrite orb_false_r in Hin.
    destruct (py_eq (getitem row "ZORIGINALFEECURRENCY") (getitem row "ZFROMSYMBOL")).
    + rewrite py_add_None. reflexivity.
    + cbn [orb] in Hin. rewrite Hin, py_add_None. reflexivity.
Qed.

End InvestmentExchange.

(** ** InvestmentHolding *)

Section Holding.
Import InvestmentHolding.
Context {RDH : RawDataHandler} {REC : RecordBase}.

Lemma convert_Ok (type_ : Value) (s : string) :
  _convert_investment_object_type type_ = Ok s ->
  (py_eq type_ (VInt 0) = true /\ py_eq type_ (VInt 1) = false /\
   s = "Investment") \/
  (py_eq type_ (VInt 1) = true /\ s = "Forex/Crypto").
Proof.
  unfold _convert_investment_object_type, py_in. cbn [existsb].
  rewrite orb_false_r.
  destruct (py_eq type_ (VInt 1)) eqn:E1.
  - rewrite orb_true_r. intros [= <-]. tauto.
  - rewrite orb_false_r. destruct (py_eq type_ (VInt 0)) eqn:E0.
    + intros [= <-]. tauto.
    + discriminate.
Qed.

Lemma convert_Raise (type_ : Value) :
  py_in type_ [VInt 0; VInt 1] = false ->
  _convert_investment_object_type type_ = Raise (RuntimeError "Invalid type " type_).
Proof.
  intros H. unfold _convert_investment_object_type. rewrite H. reflexivity.
Qed.

Lemma Holding_init_type (row : Row) (self : t) :
  __init__ row = Ok self ->
  _convert_investment_object_type (getitem row "ZINVESTMENTOBJECTTYPE")
  = Ok (investment_object_type self).
Proof.
  intros H. unfold __init__ in H. inv_ok. subst self.
  cbn [investment_object_type]. assumption.
Qed.

(** C7. The object type decodes through the closed mapping 0 ->
    "Investment", 1 -> "Forex/Crypto"; any other stored value, 7 for one,
    makes the conversion raise; the constructor then never returns an
    instance and never fails on an assertion of [validate], and raises
    that error as soon as the fields read before the type are extracted;
    the type of an instance is "Investment" when the row stores 0 and
    "Forex/Crypto" when the row stores 1, and the row stores one of the
    two. *)
Theorem investment_object_type_closed :
  _convert_investment_object_type (VInt 0) = Ok "Investment" /\
  _convert_investment_object_type (VInt 1) = Ok "Forex/Crypto" /\
  _convert_investment_object_type (VInt 7)
  = Raise (RuntimeError "Invalid type " (VInt 7)) /\
  (forall type_ : Value,
     py_in type_ [VInt 0; VInt 1] = false ->
     _convert_investment_object_type type_
     = Raise (RuntimeError "Invalid type " type_)) /\
  (forall row : Row,
     py_in (getitem row "ZINVESTMENTOBJECTTYPE") [VInt 0; VInt 1] = false ->
     is_ok (__init__ row) = false /\
     (forall line : nat, __init__ row <> Raise (AssertionError line)) /\
     (forall (rec : record_fields) (opening : option Q) (shares : Q),
        Record_init row = Some rec ->
        get_nullable_decimal row "ZOPENNINGNUMBEROFSHARES" = Some opening ->
        get_decimal row "ZNUMBEROFSHARES" = Some shares ->
        __init__ row
        = Raise (RuntimeError "Invalid type " (getitem row "ZINVESTMENTOBJECTTYPE")))) /\
  (forall (row : Row) (self : t),
     __init__ row = Ok self ->
     (py_eq (getitem row "ZINVESTMENTOBJECTTYPE") (VInt 0) = true /\
      py_eq (getitem row "ZINVESTMENTOBJECTTYPE") (VInt 1) = false /\
      investment_object_type self = "Investment") \/
     (py_eq (getitem row "ZINVESTMENTOBJECTTYPE") (VInt 1) = true /\
      investment_object_type self = "Forex/Crypto")) /\
  (forall (row : Row) (self : t),
     __init__ row = Ok self ->
     (getitem row "ZINVESTMENTOBJECTTYPE" = VInt 0 ->
      investment_object_type self = "Investment") /\
     (getitem row "ZINVESTMENTOBJECTTYPE" = VInt 1 ->
      investment_object_type self = "Forex/Crypto")).
Proof.
  split; [reflexivity|]. split; [reflexivity|]. split; [reflexivity|].
  split; [exact convert_Raise|]. split; [|split].
  - intros row Hin. pose proof (convert_Raise _ Hin) as Hc.
    assert (Hshape :
      __init__ row = Raise RecordError \/
      (exists column, __init__ row = Raise (MissingField column)) \/
      __init__ row
      = Raise (RuntimeError "Invalid type " (getitem row "ZINVESTMENTOBJECTTYPE"))).
    { unfold __init__.
      destruct (Record_init row); cbn [super_record bind]; [|tauto].
      destruct (get_nullable_decimal row "ZOPENNINGNUMBEROFSHARES");
        cbn [accessor bind]; [|eauto].
      destruct (get_decimal row "ZNUMBEROFSHARES"); cbn [accessor bind]; [|eauto].
      rewrite Hc. cbn [bind]. tauto. }
    split; [|split].
    + destruct Hshape as [-> | [[c ->] | ->]]; reflexivity.
    + intros line. destruct Hshape as [-> | [[c ->] | ->]]; discriminate.
    + intros rec opening shares Hrec Hopen Hshares. unfold __init__.
      rewrite Hrec, Hopen, Hshares. cbn [super_record accessor bind].
      rewrite Hc. reflexivity.
  - intros row self H. apply Holding_init_type, convert_Ok in H. exact H.
  - intros row self H. apply Holding_init_type in H. split; intros E;
      rewrite E in H.
    + change (Ok "Investment" = Ok (investment_object_type self)) in H.
      congruence.
    + change (Ok "Forex/Crypto" = Ok (investment_object_type self)) in H.
      congruence.
Qed.

(** X20. A holding row whose extraction succeeds is accepted exactly when the
    stored object type is 0 or 1 and account, symbol and description are
    present; the instance is a "Forex/Crypto" one exactly when the stored
    type equals 1, its online-price flag is true exactly when the stored
    flag equals 1, and opening shares and holding type are kept as stored,
    null or not. *)
Theorem InvestmentHolding_accepts (row : Row) (rec : record_fields)
    (opening : option Q) (shares cost : Q) :
  Record_init row = Some rec ->
  get_nullable_decimal row "ZOPENNINGNUMBEROFSHARES" = Some opening ->
  get_decimal row "ZNUMBEROFSHARES" = Some shares ->
  get_decimal row "ZCOSTBASISOFMISSINGOBSHARES" = Some cost ->
  (is_ok (__init__ row) = true <->
   py_in (getitem row "ZINVESTMENTOBJECTTYPE") [VInt 0; VInt 1] = true /\
   getitem row "ZINVESTMENTACCOUNT" <> VNone /\
   getitem row "ZSYMBOL" <> VNone /\ getitem row "ZDESC" <> VNone) /\
  (forall self : t,
     __init__ row = Ok self ->
     (investment_object_type self = "Forex/Crypto" <->
      py_eq (getitem row "ZINVESTMENTOBJECTTYPE") (VInt 1) = true) /\
     (price_per_share_available_online self = true <->
      py_eq (getitem row "ZISPRICEPERSHAREAVAILABLEONLINE") (VInt 1) = true) /\
     opening_number_of_shares self = opening /\
     holding_type self = getitem row "ZHOLDINGTYPE").
Proof.
  intros Hrec Hopen Hshares Hcost. unfold __init__.
  rewrite Hrec, Hopen, Hshares, Hcost. cbn [super_record accessor bind].
  unfold _convert_investment_object_type.
  destruct (py_in (getitem row "ZINVESTMENTOBJECTTYPE") [VInt 0; VInt 1]) eqn:Ein;
    cbn [bind].
  - split.
    + rewrite is_ok_validate_then. unfold validate.
      cbn [account number_of_shares symbol description investment_object_type
           _cost_basis_of_missing_ob_shares].
      rewrite !assert_bind_Ok, assert_Ok_iff.
      rewrite !is_not_None_Value.
      rewrite (is_not_None_Decimal shares), (is_not_None_Decimal cost).
      change (is_not_None
                (if py_eq (getitem row "ZINVESTMENTOBJECTTYPE") (VInt 1)
                 then "Forex/Crypto" else "Investment"))
        with true.
      tauto.
    + intros self H. apply bind_Ok in H. destruct H as (u & _ & [= <-]).
      cbn [investment_object_type price_per_share_available_online
           opening_number_of_shares holding_type].
      repeat split; try reflexivity; try tauto.
      * destruct (py_eq (getitem row "ZINVESTMENTOBJECTTYPE") (VInt 1));
          [reflexivity | discriminate].
      * intros ->. reflexivity.
  - split.
    + cbn [is_ok]. split; [discriminate | intros [H _]; discriminate].
    + intros self [=].
Qed.

(** X21. [as_dict] leaves the cost basis out and keeps every other entry of
    the dictionary of the base class; it raises KeyError exactly when that
    dictionary has no cost-basis entry. *)
Theorem as_dict_hides_cost_basis {V : Type}
    (super_as_dict : t -> gmap string V) (self : t) :
  match as_dict super_as_dict self with
  | inr d =>
      d !! "_cost_basis_of_missing_ob_shares" = None /\
      (forall k : string,
         k <> "_cost_basis_of_missing_ob_shares" ->
         d !! k = super_as_dict self !! k) /\
      super_as_dict self !! "_cost_basis_of_missing_ob_shares" <> None
  | inl e =>
      e = KeyError_of "_cost_basis_of_missing_ob_shares" /\
      super_as_dict self !! "_cost_basis_of_missing_ob_shares" = None
  end.
Proof.
  unfold as_dict.
  destruct (super_as_dict self !! "_cost_basis_of_missing_ob_shares") eqn:E.
  - split; [apply lookup_delete_eq|]. split; [|discriminate].
    intros k Hk. apply lookup_delete_ne. congruence.
  - split; reflexivity.
Qed.

End Holding.

(** ** Refund, Deposit and Withdraw on the same row *)

Lemma zero_rate_to_None_Some (raw : option Q) (rate : Q) :
  zero_rate_to_None raw = Some rate <-> raw = Some rate /\ ~ rate == 0.
Proof.
  unfold zero_rate_to_None. destruct raw as [r|]; [|split; [discriminate | intros [[=] _]]].
  destruct (Qeq_bool r 0) eqn:E.
  - apply Qeq_bool_iff in E. split; [discriminate|].
    intros [[= ->] H]. contradiction.
  - apply Qeq_bool_false in E. split.
    + intros [= ->]. tauto.
    + intros [[= ->] _]. reflexivity.
Qed.

Lemma zero_rate_to_None_zero (r : Q) : r == 0 -> zero_rate_to_None (Some r) = None.
Proof.
  intros H. unfold zero_rate_to_None. apply Qeq_bool_iff in H. rewrite H.
  reflexivity.
Qed.

Section Refund.
Import RefundTransaction.
Context {RDH : RawDataHandler} {REC : RecordBase}.

Lemma Refund_validate_Ok (self : t) :
  validate self = Ok tt <->
  account self <> VNone /\ 0 < amount self /\
  original_currency self <> VNone /\ 0 < original_amount self /\
  (forall rate : Q,
     original_exchange_rate self = Some rate ->
     approx_distance (amount self) (decimal_mul (original_amount self) rate)
     <= ABS_TOLERANCE).
Proof.
  unfold validate.
  rewrite !assert_bind_Ok.
  rewrite !is_not_None_Value, !is_not_None_Decimal, !Qlt_bool_iff.
  destruct (original_exchange_rate self) as [rate|].
  - rewrite assert_Ok_iff, (approx_iff _ _ _ ABS_TOLERANCE_nonneg).
    split.
    + intros (H1 & _ & H2 & H3 & _ & H4 & H5). repeat split; try assumption.
      intros r [= <-]. exact H5.
    + intros (H1 & H2 & H3 & H4 & H5). repeat split; try assumption.
      apply H5. reflexivity.
  - split.
    + intros (H1 & _ & H2 & H3 & _ & H4 & _). repeat split; try assumption.
      discriminate.
    + intros (H1 & H2 & H3 & H4 & _). repeat split; assumption.
Qed.

Lemma Refund_init_Ok (row : Row) (self : t) :
  __init__ row = Ok self <->
  exists (base : Transaction.t) (a o : Q) (rate : option Q),
    Transaction.__init__ false row = Ok base /\
    get_decimal row "ZAMOUNT1" = Some a /\
    get_decimal row "ZORIGINALAMOUNT" = Some o /\
    get_nullable_decimal row "ZORIGINALEXCHANGERATE" = Some rate /\
    self = {| super := Transaction.set_amount base a;
              account := getitem row "ZACCOUNT2";
              payee := getitem row "ZPAYEE2";
              original_currency := getitem row "ZORIGINALCURRENCY";
              original_amount := o;
              original_exchange_rate := zero_rate_to_None rate |} /\
    validate self = Ok tt.
Proof.
  unfold __init__. split.
  - intros H. inv_ok. subst self.
    match goal with Hv : validate _ = Ok ?u |- _ => destruct u end.
    eauto 10.
  - intros (base & a & o & rate & Hb & Ha & Ho & Hr & -> & Hv).
    rewrite Hb, Ha, Ho, Hr. cbn [bind accessor]. rewrite Hv. reflexivity.
Qed.

(** X5. Every constructed Refund has amount > 0 and original_amount > 0; a
    rate it carries is not zero, and the distance between the amount and
    original_amount * rate, in the arithmetic of the decimal context, is at
    most ABS_TOLERANCE, the float 0.001; account and original currency
    are present. *)
Theorem Refund_invariants (row : Row) (self : t) :
  __init__ row = Ok self ->
  0 < amount self /\ 0 < original_amount self /\
  account self <> VNone /\ original_currency self <> VNone /\
  (forall rate : Q,
     original_exchange_rate self = Some rate ->
     ~ rate == 0 /\
     approx_distance (amount self) (decimal_mul (original_amount self) rate)
     <= ABS_TOLERANCE).
Proof.
  intros H. apply Refund_init_Ok in H.
  destruct H as (base & a & o & raw & _ & _ & _ & _ & -> & Hv).
  apply Refund_validate_Ok in Hv.
  destruct Hv as (H1 & H2 & H3 & H4 & H5).
  repeat split; try assumption.
  - cbn in H. apply zero_rate_to_None_Some in H. tauto.
  - apply H5. exact H.
Qed.

End Refund.

Section SameRow.
Context {RDH : RawDataHandler} {REC : RecordBase}.

(** X6. A row accepted as a Refund is accepted as a Deposit, and a row
    accepted as a Deposit is accepted as a Withdraw, each time with the same
    attribute values. *)
Theorem Refund_Deposit_Withdraw (row : Row) :
  (forall r : RefundTransaction.t,
     RefundTransaction.__init__ row = Ok r ->
     exists d : DepositTransaction.t,
       DepositTransaction.__init__ row = Ok d /\
       DepositTransaction.super d = RefundTransaction.super r /\
       DepositTransaction.account d = RefundTransaction.account r /\
       DepositTransaction.payee d = RefundTransaction.payee r /\
       DepositTransaction.original_currency d
       = RefundTransaction.original_currency r /\
       DepositTransaction.original_amount d
       = RefundTransaction.original_amount r /\
       DepositTransaction.original_exchange_rate d
       = RefundTransaction.original_exchange_rate r) /\
  (forall d : DepositTransaction.t,
     DepositTransaction.__init__ row = Ok d ->
     exists w : WithdrawTransaction.t,
       WithdrawTransaction.__init__ row = Ok w /\
       WithdrawTransaction.super w = DepositTransaction.super d /\
       WithdrawTransaction.account w = DepositTransaction.account d /\
       WithdrawTransaction.payee w = DepositTransaction.payee d /\
       WithdrawTransaction.original_currency w
       = DepositTransaction.original_currency d /\
       WithdrawTransaction.original_amount w
       = DepositTransaction.original_amount d /\
       WithdrawTransaction.original_exchange_rate w
       = DepositTransaction.original_exchange_rate d).
Proof.
  split.
  - intros r H. apply Refund_init_Ok in H.
    destruct H as (base & a & o & raw & Hb & Ha & Ho & Hr & -> & Hv).
    apply Refund_validate_Ok in Hv. destruct Hv as (H1 & H2 & H3 & H4 & H5).
    unfold RefundTransaction.amount in *.
    cbn [RefundTransaction.super RefundTransaction.account
         RefundTransaction.original_currency RefundTransaction.original_amount
         RefundTransaction.original_exchange_rate RefundTransaction.payee
         Transaction.amount Transaction.set_amount] in *.
    eexists. split.
    { apply Deposit_init_Ok. exists base, a, o, raw.
      repeat split; try assumption.
      apply Deposit_validate_Ok. unfold DepositTransaction.amount.
      cbn [DepositTransaction.super DepositTransaction.account
           DepositTransaction.original_currency
           DepositTransaction.original_amount
           DepositTransaction.original_exchange_rate
           Transaction.amount Transaction.set_amount].
      repeat split; try assumption.
      apply Qmult_lt_0_compat; assumption. }
    repeat split; reflexivity.
  - intros d H. apply Deposit_init_Ok in H.
    destruct H as (base & a & o & raw & Hb & Ha & Ho & Hr & -> & Hv).
    apply Deposit_validate_Ok in Hv. destruct Hv as (H1 & H2 & H3 & H4).
    assert (Hfix : WithdrawTransaction.fix_sign a o = o).
    { apply fix_sign_unchanged. unfold DepositTransaction.amount in H3.
      cbn [DepositTransaction.super DepositTransaction.original_amount
           Transaction.amount Transaction.set_amount] in H3. lra. }
    unfold DepositTransaction.amount in *.
    cbn [DepositTransaction.super DepositTransaction.account
         DepositTransaction.original_currency
         DepositTransaction.original_amount
         DepositTransaction.original_exchange_rate DepositTransaction.payee
         Transaction.amount Transaction.set_amount] in *.
    eexists. split.
    { apply Withdraw_init_Ok. exists base, a, o, raw.
      repeat split; try assumption.
      apply Withdraw_validate_Ok. unfold WithdrawTransaction.amount.
      cbn [WithdrawTransaction.super WithdrawTransaction.account
           WithdrawTransaction.original_currency
           WithdrawTransaction.original_amount
           WithdrawTransaction.original_exchange_rate
           Transaction.amount Transaction.set_amount].
      rewrite Hfix. repeat split; try assumption.
      intros rate Hrate. specialize (H4 rate Hrate).
      apply Qle_trans with (y := ABS_TOLERANCE);
        [exact H4 | exact ABS_TOLERANCE_le_2]. }
    cbn [WithdrawTransaction.super WithdrawTransaction.account
         WithdrawTransaction.original_currency WithdrawTransaction.payee
         WithdrawTransaction.original_amount
         WithdrawTransaction.original_exchange_rate].
    rewrite Hfix. repeat split; reflexivity.
Qed.

End SameRow.

(** ** Withdraw: what is accepted, and the sign of the stored original amount *)

Section WithdrawMore.
Import WithdrawTransaction.
Context {RDH : RawDataHandler} {REC : RecordBase}.

(** On a stored original amount of at most 28 significant digits the fix
    does not depend on the sign that is stored. *)
Lemma fix_sign_opp (a o : Q) :
  context_exact o -> ~ a * o == 0 -> fix_sign a (- o) = fix_sign a o.
Proof.
  intros Hex Hnz.
  destruct (Qlt_le_dec (a * o) 0) as [Hlt | Hge].
  - rewrite (fix_sign_opposite a o Hlt).
    rewrite (fix_sign_unchanged a (- o)) by lra.
    symmetry. apply decimal_neg_exact. exact Hex.
  - assert (Hneg : a * - o < 0) by lra.
    rewrite (fix_sign_opposite a (- o) Hneg).
    rewrite (fix_sign_unchanged a o Hge).
    rewrite (decimal_neg_exact (- o) (context_exact_opp o Hex)).
    apply Qopp_opp_eq.
Qed.

(** X8. Every constructed Withdraw has amount * original_amount > 0; its
    original amount is the extracted one or its negation as the decimal
    context gives it, and has the magnitude that the context gives the
    extracted one; a rate it carries is not zero, and the distance between
    the amount and original_amount * rate, in the arithmetic of the
    context, is at most ABS_TOLERANCE2, the float 0.01. *)
Theorem Withdraw_invariants (row : Row) (self : t) :
  __init__ row = Ok self ->
  0 < amount self * original_amount self /\
  (exists raw : Q,
     get_decimal row "ZORIGINALAMOUNT" = Some raw /\
     (original_amount self = raw \/ original_amount self = decimal_neg raw) /\
     py_abs (original_amount self) == py_abs raw) /\
  (forall rate : Q,
     original_exchange_rate self = Some rate ->
     ~ rate == 0 /\
     approx_distance (amount self) (decimal_mul (original_amount self) rate)
     <= ABS_TOLERANCE2).
Proof.
  intros H. apply Withdraw_init_Ok in H.
  destruct H as (base & a & o & raw & _ & _ & Ho & _ & -> & Hv).
  apply Withdraw_validate_Ok in Hv. destruct Hv as (_ & _ & H3 & H4).
  split; [exact H3|]. split.
  - exists o. split; [exact Ho | apply fix_sign_cases].
  - intros rate Hrate. split.
    + cbn [original_exchange_rate] in Hrate.
      apply zero_rate_to_None_Some in Hrate. tauto.
    + apply H4. exact Hrate.
Qed.

(** X9. A row whose extraction succeeds is accepted as Withdraw exactly when
    account and original currency are present, neither amount is zero, and
    with a non-zero stored rate the distance between the amount and the
    sign-corrected original amount times the rate, in the arithmetic of
    the decimal context, is at most ABS_TOLERANCE2, the float 0.01. *)
Theorem Withdraw_accepts (row : Row) (base : Transaction.t) (a o : Q)
    (raw : option Q) :
  Transaction.__init__ false row = Ok base ->
  get_decimal row "ZAMOUNT1" = Some a ->
  get_decimal row "ZORIGINALAMOUNT" = Some o ->
  get_nullable_decimal row "ZORIGINALEXCHANGERATE" = Some raw ->
  is_ok (__init__ row) = true <->
  getitem row "ZACCOUNT2" <> VNone /\
  getitem row "ZORIGINALCURRENCY" <> VNone /\
  ~ a * o == 0 /\
  (forall rate : Q,
     raw = Some rate -> ~ rate == 0 ->
     approx_distance a (decimal_mul (fix_sign a o) rate) <= ABS_TOLERANCE2).
Proof.
  intros Hb Ha Ho Hraw.
  set (self := {| super := Transaction.set_amount base a;
                  account := getitem row "ZACCOUNT2";
                  payee := getitem row "ZPAYEE2";
                  original_currency := getitem row "ZORIGINALCURRENCY";
                  original_amount := fix_sign a o;
                  original_exchange_rate := zero_rate_to_None raw |}).
  assert (Hinit : __init__ row = (validate self ;; Ok self)).
  { unfold __init__. rewrite Hb, Ha, Ho, Hraw. reflexivity. }
  rewrite Hinit, is_ok_validate_then, Withdraw_validate_Ok.
  unfold amount, self.
  cbn [super account original_currency original_amount original_exchange_rate
       Transaction.amount Transaction.set_amount].
  rewrite fix_sign_product.
  split.
  - intros (H1 & H2 & H3 & H4). repeat split; try assumption.
    intros rate Hr Hnz. apply H4. apply zero_rate_to_None_Some. tauto.
  - intros (H1 & H2 & H3 & H4). repeat split; try assumption.
    intros rate Hr. apply zero_rate_to_None_Some in Hr. destruct Hr as [Hr Hnz].
    apply H4; assumption.
Qed.

(** X10. Negating the stored original amount of a row, when it has at most
    28 significant digits, does not change what the Withdraw constructor
    returns. *)
Theorem Withdraw_original_sign_irrelevant (row1 row2 : Row) :
  agree_except "ZORIGINALAMOUNT" row1 row2 ->
  get_decimal row2 "ZORIGINALAMOUNT"
  = option_map Qopp (get_decimal row1 "ZORIGINALAMOUNT") ->
  (forall o : Q, get_decimal row1 "ZORIGINALAMOUNT" = Some o -> context_exact o) ->
  __init__ row2 = __init__ row1.
Proof.
  intros [Hbase Hagree] Hopp Hex. unfold __init__.
  destruct (Hagree "ZACCOUNT2") as (Hacc & _ & _); [discriminate|].
  destruct (Hagree "ZPAYEE2") as (Hpayee & _ & _); [discriminate|].
  destruct (Hagree "ZORIGINALCURRENCY") as (Hcur & _ & _); [discriminate|].
  destruct (Hagree "ZAMOUNT1") as (_ & Ha & _); [discriminate|].
  destruct (Hagree "ZORIGINALEXCHANGERATE") as (_ & _ & Hr); [discriminate|].
  rewrite <- Hbase, <- Hacc, <- Hpayee, <- Hcur, <- Ha, <- Hr, Hopp.
  destruct (Transaction.__init__ false row1) as [base|e]; [|reflexivity].
  cbn [bind].
  destruct (get_decimal row1 "ZAMOUNT1") as [a|]; [|reflexivity].
  cbn [bind accessor].
  destruct (get_decimal row1 "ZORIGINALAMOUNT") as [o|]; [|reflexivity].
  specialize (Hex o eq_refl).
  cbn [bind accessor option_map].
  destruct (get_nullable_decimal row1 "ZORIGINALEXCHANGERATE") as [raw|];
    [|reflexivity].
  cbn [bind accessor].
  destruct (Qeq_bool (a * o) 0) eqn:Ez.
  - apply Qeq_bool_iff in Ez.
    assert (E1 : Qlt_bool 0 (decimal_mul a (fix_sign a o)) = false).
    { destruct (Qlt_bool 0 (decimal_mul a (fix_sign a o))) eqn:E; [|reflexivity].
      apply Qlt_bool_iff, decimal_mul_pos, fix_sign_product in E. contradiction. }
    assert (E2 : Qlt_bool 0 (decimal_mul a (fix_sign a (- o))) = false).
    { destruct (Qlt_bool 0 (decimal_mul a (fix_sign a (- o)))) eqn:E; [|reflexivity].
      apply Qlt_bool_iff, decimal_mul_pos, fix_sign_product in E.
      exfalso. apply E. lra. }
    unfold validate, amount.
    cbn [super account original_currency original_amount original_exchange_rate
         Transaction.amount Transaction.set_amount].
    rewrite E1, E2.
    destruct (is_not_None (getitem row1 "ZACCOUNT2")); [|reflexivity].
    destruct (is_not_None (getitem row1 "ZORIGINALCURRENCY")); reflexivity.
  - apply Qeq_bool_false in Ez. rewrite (fix_sign_opp a o Hex Ez). reflexivity.
Qed.

End WithdrawMore.

(** ** A stored rate of zero *)

Section ZeroRate.
Context {RDH : RawDataHandler} {REC : RecordBase}.

Lemma Deposit_accepts_validate (row : Row) (base : Transaction.t) (a o : Q)
    (raw : option Q) :
  Transaction.__init__ false row = Ok base ->
  get_decimal row "ZAMOUNT1" = Some a ->
  get_decimal row "ZORIGINALAMOUNT" = Some o ->
  get_nullable_decimal row "ZORIGINALEXCHANGERATE" = Some raw ->
  is_ok (DepositTransaction.__init__ row) = true <->
  DepositTransaction.validate
    {| DepositTransaction.super := Transaction.set_amount base a;
       DepositTransaction.account := getitem row "ZACCOUNT2";
       DepositTransaction.payee := getitem row "ZPAYEE2";
       DepositTransaction.original_currency := getitem row "ZORIGINALCURRENCY";
       DepositTransaction.original_amount := o;
       DepositTransaction.original_exchange_rate := zero_rate_to_None raw |}
  = Ok tt.
Proof.
  intros Hb Ha Ho Hraw. unfold DepositTransaction.__init__.
  rewrite Hb, Ha, Ho, Hraw. cbn [bind accessor].
  apply is_ok_validate_then.
Qed.

Lemma Refund_accepts_validate (row : Row) (base : Transaction.t) (a o : Q)
    (raw : option Q) :
  Transaction.__init__ false row = Ok base ->
  get_decimal row "ZAMOUNT1" = Some a ->
  get_decimal row "ZORIGINALAMOUNT" = Some o ->
  get_nullable_decimal row "ZORIGINALEXCHANGERATE" = Some raw ->
  is_ok (RefundTransaction.__init__ row) = true <->
  RefundTransaction.validate
    {| RefundTransaction.super := Transaction.set_amount base a;
       RefundTransaction.account := getitem row "ZACCOUNT2";
       RefundTransaction.payee := getitem row "ZPAYEE2";
       RefundTransaction.original_currency := getitem row "ZORIGINALCURRENCY";
       RefundTransaction.original_amount := o;
       RefundTransaction.original_exchange_rate := zero_rate_to_None raw |}
  = Ok tt.
Proof.
  intros Hb Ha Ho Hraw. unfold RefundTransaction.__init__.
  rewrite Hb, Ha, Ho, Hraw. cbn [bind accessor].
  apply is_ok_validate_then.
Qed.

Lemma Withdraw_accepts_validate (row : Row) (base : Transaction.t) (a o : Q)
    (raw : option Q) :
  Transaction.__init__ false row = Ok base ->
  get_decimal row "ZAMOUNT1" = Some a ->
  get_decimal row "ZORIGINALAMOUNT" = Some o ->
  get_nullable_decimal row "ZORIGINALEXCHANGERATE" = Some raw ->
  is_ok (WithdrawTransaction.__init__ row) = true <->
  WithdrawTransaction.validate
    {| WithdrawTransaction.super := Transaction.set_amount base a;
       WithdrawTransaction.account := getitem row "ZACCOUNT2";
       WithdrawTransaction.payee := getitem row "ZPAYEE2";
       WithdrawTransaction.original_currency := getitem row "ZORIGINALCURRENCY";
       WithdrawTransaction.original_amount := WithdrawTransaction.fix_sign a o;
       WithdrawTransaction.original_exchange_rate := zero_rate_to_None raw |}
  = Ok tt.
Proof.
  intros Hb Ha Ho Hraw. unfold WithdrawTransaction.__init__.
  rewrite Hb, Ha, Ho, Hraw. cbn [bind accessor].
  apply is_ok_validate_then.
Qed.

(** X7. With a stored exchange rate of zero the instance carries no rate and
    amount and original amount are not compared: an extracted row is
    accepted as Deposit when account and currency are present and
    amount * original_amount > 0, as Refund when both amounts are positive,
    as Withdraw when neither amount is zero. *)
Theorem zero_rate_is_no_rate (row : Row) (base : Transaction.t) (a o r : Q) :
  Transaction.__init__ false row = Ok base ->
  get_decimal row "ZAMOUNT1" = Some a ->
  get_decimal row "ZORIGINALAMOUNT" = Some o ->
  get_nullable_decimal row "ZORIGINALEXCHANGERATE" = Some (Some r) ->
  r == 0 ->
  (forall d : DepositTransaction.t,
     DepositTransaction.__init__ row = Ok d ->
     DepositTransaction.original_exchange_rate d = None) /\
  (forall f : RefundTransaction.t,
     RefundTransaction.__init__ row = Ok f ->
     RefundTransaction.original_exchange_rate f = None) /\
  (forall w : WithdrawTransaction.t,
     WithdrawTransaction.__init__ row = Ok w ->
     WithdrawTransaction.original_exchange_rate w = None) /\
  (is_ok (DepositTransaction.__init__ row) = true <->
   getitem row "ZACCOUNT2" <> VNone /\
   getitem row "ZORIGINALCURRENCY" <> VNone /\ 0 < a * o) /\
  (is_ok (RefundTransaction.__init__ row) = true <->
   getitem row "ZACCOUNT2" <> VNone /\
   getitem row "ZORIGINALCURRENCY" <> VNone /\ 0 < a /\ 0 < o) /\
  (is_ok (WithdrawTransaction.__init__ row) = true <->
   getitem row "ZACCOUNT2" <> VNone /\
   getitem row "ZORIGINALCURRENCY" <> VNone /\ ~ a * o == 0).
Proof.
  intros Hb Ha Ho Hraw Hz.
  pose proof (zero_rate_to_None_zero r Hz) as Hnone.
  split; [|split; [|split; [|split; [|split]]]].
  - intros d H. apply Deposit_init_Ok in H.
    destruct H as (? & ? & ? & raw' & _ & _ & _ & Hraw' & -> & _).
    cbn [DepositTransaction.original_exchange_rate].
    assert (raw' = Some r) by congruence. subst raw'. exact Hnone.
  - intros f H. apply Refund_init_Ok in H.
    destruct H as (? & ? & ? & raw' & _ & _ & _ & Hraw' & -> & _).
    cbn [RefundTransaction.original_exchange_rate].
    assert (raw' = Some r) by congruence. subst raw'. exact Hnone.
  - intros w H. apply Withdraw_init_Ok in H.
    destruct H as (? & ? & ? & raw' & _ & _ & _ & Hraw' & -> & _).
    cbn [WithdrawTransaction.original_exchange_rate].
    assert (raw' = Some r) by congruence. subst raw'. exact Hnone.
  - rewrite (Deposit_accepts_validate row base a o (Some r) Hb Ha Ho Hraw).
    rewrite Deposit_validate_Ok. unfold DepositTransaction.amount.
    cbn [DepositTransaction.super DepositTransaction.account
         DepositTransaction.original_currency DepositTransaction.original_amount
         DepositTransaction.original_exchange_rate
         Transaction.amount Transaction.set_amount].
    rewrite Hnone. split; [tauto|].
    intros (H1 & H2 & H3). repeat split; try assumption. discriminate.
  - rewrite (Refund_accepts_validate row base a o (Some r) Hb Ha Ho Hraw).
    rewrite Refund_validate_Ok. unfold RefundTransaction.amount.
    cbn [RefundTransaction.super RefundTransaction.account
         RefundTransaction.original_currency RefundTransaction.original_amount
         RefundTransaction.original_exchange_rate
         Transaction.amount Transaction.set_amount].
    rewrite Hnone. split; [tauto|].
    intros (H1 & H2 & H3 & H4). repeat split; try assumption. discriminate.
  - rewrite (Withdraw_accepts_validate row base a o (Some r) Hb Ha Ho Hraw).
    rewrite Withdraw_validate_Ok. unfold WithdrawTransaction.amount.
    cbn [WithdrawTransaction.super WithdrawTransaction.account
         WithdrawTransaction.original_currency
         WithdrawTransaction.original_amount
         WithdrawTransaction.original_exchange_rate
         Transaction.amount Transaction.set_amount].
    rewrite Hnone, fix_sign_product. split; [tauto|].
    intros (H1 & H2 & H3). repeat split; try assumption. discriminate.
Qed.

End ZeroRate.

(** ** The two legs of a transfer *)

Section TransferDepositMore.
Import TransferDepositTransaction.
Context {RDH : RawDataHandler} {REC : RecordBase}.

Lemma TransferDeposit_validate_iff (self : t) :
  validate self = Ok tt <->
  account self <> VNone /\ 0 < amount self /\
  sender_account self <> VNone /\ sender_transaction self <> VNone /\
  0 < original_amount self /\ original_currency self <> VNone /\
  sender_amount self <= 0 /\ sender_currency self <> VNone /\
  (investment_holding self = VNone ->
   approx_distance (amount self) (original_amount self) <= ABS_TOLERANCE) /\
  (investment_holding self <> VNone ->
   number_of_shares self <> None /\ price_per_share self <> None /\
   symbol self <> VNone) /\
  approx_distance (original_amount self)
                  (decimal_mul (decimal_neg (sender_amount self))
                               (original_exchange_rate self))
  <= ABS_TOLERANCE.
Proof.
  unfold validate.
  rewrite !assert_bind_Ok.
  rewrite !is_not_None_Value, !is_not_None_Decimal, !Qlt_bool_iff, Qle_bool_iff.
  assert (Hmid :
    forall k : Result unit,
      ((if is_None (investment_holding self)
        then assert_ 438 (approx (amount self) (original_amount self) ABS_TOLERANCE)
        else assert_ 440 (is_not_None (number_of_shares self)) ;;
             assert_ 441 (is_not_None (price_per_share self)) ;;
             assert_ 443 (is_not_None (symbol self))) ;; k) = Ok tt <->
      ((investment_holding self = VNone ->
        approx_distance (amount self) (original_amount self) <= ABS_TOLERANCE) /\
       (investment_holding self <> VNone ->
        number_of_shares self <> None /\ price_per_share self <> None /\
        symbol self <> VNone)) /\ k = Ok tt).
  { intros k.
    assert (Hb : forall (u v w : Result unit),
               ((u ;; v ;; w) ;; k) = (u ;; v ;; w ;; k)).
    { intros [[]|] [[]|] [[]|]; reflexivity. }
    destruct (investment_holding self) as [|z|f|s] eqn:Eh.
    - change (is_None VNone) with true. cbv iota.
      rewrite assert_bind_Ok, (approx_iff _ _ _ ABS_TOLERANCE_nonneg).
      split; [intros [H1 H2] | intros [[H1 _] H2]].
      + split; [|exact H2]. split; [intros _; exact H1 | intros H; contradiction].
      + split; [apply H1; reflexivity | exact H2].
    - change (is_None (VInt z)) with false. cbv iota.
      rewrite Hb, !assert_bind_Ok.
      rewrite !is_not_None_option_iff, is_not_None_Value.
      split; [intros (H1 & H2 & H3 & H4) | intros [[_ H1] H2]].
      + split; [|exact H4]. split; [discriminate | tauto].
      + assert (Hne : VInt z <> VNone) by discriminate.
        specialize (H1 Hne). tauto.
    - change (is_None (VFloat f)) with false. cbv iota.
      rewrite Hb, !assert_bind_Ok.
      rewrite !is_not_None_option_iff, is_not_None_Value.
      split; [intros (H1 & H2 & H3 & H4) | intros [[_ H1] H2]].
      + split; [|exact H4]. split; [discriminate | tauto].
      + assert (Hne : VFloat f <> VNone) by discriminate.
        specialize (H1 Hne). tauto.
    - change (is_None (VStr s)) with false. cbv iota.
      rewrite Hb, !assert_bind_Ok.
      rewrite !is_not_None_option_iff, is_not_None_Value.
      split; [intros (H1 & H2 & H3 & H4) | intros [[_ H1] H2]].
      + split; [|exact H4]. split; [discriminate | tauto].
      + assert (Hne : VStr s <> VNone) by discriminate.
        specialize (H1 Hne). tauto. }
  rewrite Hmid, assert_Ok_iff, (approx_iff _ _ _ ABS_TOLERANCE_nonneg).
  tauto.
Qed.

Lemma TransferDeposit_init_eq (row : Row) (base : Transaction.t)
    (a o s rate : Q) (n p : option Q) :
  Transaction.__init__ false row = Ok base ->
  get_decimal row "ZAMOUNT1" = Some a ->
  get_nullable_decimal row "ZNUMBEROFSHARES1" = Some n ->
  get_nullable_decimal row "ZPRICEPERSHARE1" = Some p ->
  get_decimal row "ZORIGINALAMOUNT" = Some o ->
  get_decimal row "ZORIGINALSENDERAMOUNT" = Some s ->
  get_decimal row "ZORIGINALEXCHANGERATE" = Some rate ->
  let self :=
    {| super := Transaction.set_amount base a;
       account := getitem row "ZACCOUNT2";
       investment_holding := getitem row "ZINVESTMENTHOLDING";
       number_of_shares := n; price_per_share := p;
       symbol := getitem row "ZSYMBOL1";
       sender_account := getitem row "ZSENDERACCOUNT";
       sender_transaction := getitem row "ZSENDERTRANSACTION";
       original_amount := py_abs o;
       original_currency := getitem row "ZORIGINALCURRENCY";
       sender_amount := s;
       sender_currency := getitem row "ZORIGINALSENDERCURRENCY";
       original_exchange_rate := rate |} in
  __init__ row = (validate self ;; Ok self).
Proof.
  intros Hb Ha Hn Hp Ho Hs Hrate. unfold __init__.
  rewrite Hb, Ha, Hn, Hp, Ho, Hs, Hrate. reflexivity.
Qed.

(** X11. A row whose extraction succeeds is accepted as TransferDeposit exactly
    when the account, the sender account and transaction and both
    currencies are present, amount > 0, the stored original amount is not
    zero, sender_amount <= 0, the distance between its absolute value and
    -sender_amount * rate, in the arithmetic of the decimal context, is at
    most ABS_TOLERANCE, the float 0.001, and either there is no holding
    and the distance between the amount and that absolute value is at most
    ABS_TOLERANCE, or there is a holding and shares, price and symbol are
    present. *)
Theorem TransferDeposit_accepts (row : Row) (base : Transaction.t)
    (a o s rate : Q) (n p : option Q) :
  Transaction.__init__ false row = Ok base ->
  get_decimal row "ZAMOUNT1" = Some a ->
  get_nullable_decimal row "ZNUMBEROFSHARES1" = Some n ->
  get_nullable_decimal row "ZPRICEPERSHARE1" = Some p ->
  get_decimal row "ZORIGINALAMOUNT" = Some o ->
  get_decimal row "ZORIGINALSENDERAMOUNT" = Some s ->
  get_decimal row "ZORIGINALEXCHANGERATE" = Some rate ->
  is_ok (__init__ row) = true <->
  getitem row "ZACCOUNT2" <> VNone /\
  getitem row "ZSENDERACCOUNT" <> VNone /\
  getitem row "ZSENDERTRANSACTION" <> VNone /\
  getitem row "ZORIGINALCURRENCY" <> VNone /\
  getitem row "ZORIGINALSENDERCURRENCY" <> VNone /\
  0 < a /\ ~ o == 0 /\ s <= 0 /\
  approx_distance (py_abs o) (decimal_mul (decimal_neg s) rate)
  <= ABS_TOLERANCE /\
  (getitem row "ZINVESTMENTHOLDING" = VNone /\
   approx_distance a (py_abs o) <= ABS_TOLERANCE \/
   getitem row "ZINVESTMENTHOLDING" <> VNone /\
   n <> None /\ p <> None /\ getitem row "ZSYMBOL1" <> VNone).
Proof.
  intros Hb Ha Hn Hp Ho Hs Hrate.
  rewrite (TransferDeposit_init_eq row base a o s rate n p Hb Ha Hn Hp Ho Hs Hrate).
  rewrite is_ok_validate_then, TransferDeposit_validate_iff.
  unfold amount.
  cbn [super account investment_holding number_of_shares price_per_share
       symbol sender_account sender_transaction original_amount
       original_currency sender_amount sender_currency original_exchange_rate
       Transaction.amount Transaction.set_amount].
  rewrite py_abs_pos_iff.
  assert (Hdec : getitem row "ZINVESTMENTHOLDING" = VNone \/
                 getitem row "ZINVESTMENTHOLDING" <> VNone).
  { destruct (getitem row "ZINVESTMENTHOLDING");
      [left; reflexivity | right; discriminate ..]. }
  tauto.
Qed.

(** X12. Negating the stored original amount of a row does not change what the
    TransferDeposit constructor returns. *)
Theorem TransferDeposit_original_sign_irrelevant (row1 row2 : Row) :
  agree_except "ZORIGINALAMOUNT" row1 row2 ->
  get_decimal row2 "ZORIGINALAMOUNT"
  = option_map Qopp (get_decimal row1 "ZORIGINALAMOUNT") ->
  __init__ row2 = __init__ row1.
Proof.
  intros [Hbase Hagree] Hopp. unfold __init__.
  destruct (Hagree "ZACCOUNT2") as (H1 & _ & _); [discriminate|].
  destruct (Hagree "ZAMOUNT1") as (_ & H2 & _); [discriminate|].
  destruct (Hagree "ZINVESTMENTHOLDING") as (H3 & _ & _); [discriminate|].
  destruct (Hagree "ZNUMBEROFSHARES1") as (_ & _ & H4); [discriminate|].
  destruct (Hagree "ZPRICEPERSHARE1") as (_ & _ & H5); [discriminate|].
  destruct (Hagree "ZSYMBOL1") as (H6 & _ & _); [discriminate|].
  destruct (Hagree "ZSENDERACCOUNT") as (H7 & _ & _); [discriminate|].
  destruct (Hagree "ZSENDERTRANSACTION") as (H8 & _ & _); [discriminate|].
  destruct (Hagree "ZORIGINALCURRENCY") as (H9 & _ & _); [discriminate|].
  destruct (Hagree "ZORIGINALSENDERAMOUNT") as (_ & H10 & _); [discriminate|].
  destruct (Hagree "ZORIGINALSENDERCURRENCY") as (H11 & _ & _); [discriminate|].
  destruct (Hagree "ZORIGINALEXCHANGERATE") as (_ & H12 & _); [discriminate|].
  rewrite <- Hbase, <- H1, <- H2, <- H3, <- H4, <- H5, <- H6, <- H7, <- H8,
          <- H9, <- H10, <- H11, <- H12, Hopp.
  destruct (Transaction.__init__ false row1) as [base|e]; [|reflexivity].
  cbn [bind].
  destruct (get_decimal row1 "ZAMOUNT1") as [a|]; [|reflexivity].
  cbn [bind accessor].
  destruct (get_nullable_decimal row1 "ZNUMBEROFSHARES1") as [n|]; [|reflexivity].
  cbn [bind accessor].
  destruct (get_nullable_decimal row1 "ZPRICEPERSHARE1") as [p|]; [|reflexivity].
  cbn [bind accessor].
  destruct (get_decimal row1 "ZORIGINALAMOUNT") as [o|]; [|reflexivity].
  cbn [bind accessor option_map].
  destruct (get_decimal row1 "ZORIGINALSENDERAMOUNT") as [s|]; [|reflexivity].
  cbn [bind accessor].
  destruct (get_decimal row1 "ZORIGINALEXCHANGERATE") as [rate|]; [|reflexivity].
  cbn [bind accessor].
  rewrite py_abs_opp. reflexivity.
Qed.

End TransferDepositMore.

Section TransferWithdraw.
Import TransferWithdrawTransaction.
Context {RDH : RawDataHandler} {REC : RecordBase}.

Lemma decimal_div_Ok (a b q : Q) :
  decimal_div a b = Ok q <-> ~ b == 0 /\ q = decimal_round (a / b).
Proof.
  unfold decimal_div. destruct (Qeq_bool b 0) eqn:E.
  - apply Qeq_bool_iff in E. split; [discriminate | tauto].
  - apply Qeq_bool_false in E. split.
    + intros [= <-]. tauto.
    + intros [_ ->]. reflexivity.
Qed.

(** [validate] on an instance without investment holding. *)
Lemma TransferWithdraw_validate_no_holding (self : t) :
  investment_holding self = VNone ->
  validate self = Ok tt <->
  account self <> VNone /\ amount self < 0 /\
  recipient_account self <> VNone /\ recipient_transaction self <> VNone /\
  original_amount self < 0 /\ original_currency self <> VNone /\
  0 < recipient_amount self /\ recipient_currency self <> VNone /\
  amount self == original_amount self /\
  ~ original_exchange_rate self == 0 /\
  approx_distance (original_amount self)
    (decimal_round (decimal_neg (recipient_amount self)
                    / original_exchange_rate self))
  <= ABS_TOLERANCE.
Proof.
  intros Hnone. unfold validate. rewrite Hnone.
  change (is_None VNone) with true. cbv iota.
  rewrite !assert_bind_Ok.
  rewrite !is_not_None_Value, !is_not_None_Decimal, !Qlt_bool_iff.
  rewrite Qeq_bool_iff.
  split.
  - intros (H1 & _ & H2 & H3 & H4 & _ & H5 & H6 & _ & H7 & H8 & H9 & _ & H).
    apply bind_Ok in H. destruct H as (q & Hq & H).
    apply decimal_div_Ok in Hq. destruct Hq as [Hrate ->].
    apply assert_Ok_iff, (approx_iff _ _ _ ABS_TOLERANCE_nonneg) in H.
    tauto.
  - intros (H1 & H2 & H3 & H4 & H5 & H6 & H7 & H8 & H9 & Hrate & H).
    repeat split; try assumption.
    rewrite (proj2 (decimal_div_Ok _ _ _) (conj Hrate eq_refl)). cbn [bind].
    apply assert_Ok_iff, (approx_iff _ _ _ ABS_TOLERANCE_nonneg). exact H.
Qed.

Lemma TransferWithdraw_init_eq (row : Row) (base : Transaction.t)
    (a o r rate : Q) (fee n p f : option Q) :
  Transaction.__init__ false row = Ok base ->
  get_decimal row "ZAMOUNT1" = Some a ->
  get_nullable_decimal row "ZFEE2" = Some fee ->
  get_nullable_decimal row "ZNUMBEROFSHARES1" = Some n ->
  get_nullable_decimal row "ZPRICEPERSHARE1" = Some p ->
  get_decimal row "ZORIGINALAMOUNT" = Some o ->
  get_decimal row "ZORIGINALRECIPIENTAMOUNT" = Some r ->
  get_nullable_decimal row "ZORIGINALFEE" = Some f ->
  get_decimal row "ZORIGINALEXCHANGERATE" = Some rate ->
  let self :=
    {| super := Transaction.set_amount base a;
       account := getitem row "ZACCOUNT2"; fee := fee;
       investment_holding := getitem row "ZINVESTMENTHOLDING";
       number_of_shares := n; price_per_share := p;
       symbol := getitem row "ZSYMBOL1";
       recipient_account := getitem row "ZRECIPIENTACCOUNT1";
       recipient_transaction := getitem row "ZRECIPIENTTRANSACTION";
       original_amount := o;
       original_currency := getitem row "ZORIGINALCURRENCY";
       recipient_amount := py_abs r;
       recipient_currency := getitem row "ZORIGINALRECIPIENTCURRENCY";
       original_fee := f;
       original_fee_currency := getitem row "ZORIGINALFEECURRENCY";
       original_exchange_rate := rate |} in
  __init__ row = (validate self ;; Ok self).
Proof.
  intros Hb Ha Hfee Hn Hp Ho Hr Hf Hrate. unfold __init__.
  rewrite Hb, Ha, Hfee, Hn, Hp, Ho, Hr, Hf, Hrate. reflexivity.
Qed.

Lemma TransferWithdraw_init_Ok (row : Row) (self : t) :
  __init__ row = Ok self ->
  validate self = Ok tt /\
  investment_holding self = getitem row "ZINVESTMENTHOLDING" /\
  get_decimal row "ZORIGINALEXCHANGERATE" = Some (original_exchange_rate self) /\
  exists raw : Q,
    get_decimal row "ZORIGINALRECIPIENTAMOUNT" = Some raw /\
    recipient_amount self = py_abs raw.
Proof.
  unfold __init__. intros H. inv_ok. subst self.
  match goal with Hv : validate _ = Ok ?u |- _ => destruct u end.
  split; [assumption|]. split; [reflexivity|]. split; [assumption|].
  eexists. split; [eassumption | reflexivity].
Qed.

Lemma TransferWithdraw_validate_Ok (self : t) :
  validate self = Ok tt ->
  amount self < 0 /\ original_amount self < 0 /\ 0 < recipient_amount self /\
  ~ original_exchange_rate self == 0 /\
  approx_distance (original_amount self)
    (decimal_round (decimal_neg (recipient_amount self)
                    / original_exchange_rate self))
  <= ABS_TOLERANCE /\
  (investment_holding self = VNone -> amount self == original_amount self) /\
  (investment_holding self <> VNone ->
   fee self <> None /\ number_of_shares self <> None /\
   price_per_share self <> None /\ original_fee_currency self <> VNone /\
   symbol self <> VNone).
Proof.
  unfold validate. intros H.
  repeat (apply assert_bind_Ok in H; destruct H as [? H]).
  apply bind_Ok in H. destruct H as ([] & Hhold & H).
  apply assert_bind_Ok in H. destruct H as [_ H].
  apply bind_Ok in H. destruct H as (q & Hq & H).
  apply decimal_div_Ok in Hq. destruct Hq as [Hrate ->].
  apply assert_Ok_iff, (approx_iff _ _ _ ABS_TOLERANCE_nonneg) in H.
  repeat match goal with
         | E : Qlt_bool _ _ = true |- _ => apply Qlt_bool_iff in E
         end.
  assert (Hno : investment_holding self = VNone ->
                amount self == original_amount self).
  { intros Hnone. rewrite Hnone in Hhold. cbn in Hhold.
    apply assert_Ok_iff, Qeq_bool_iff in Hhold. exact Hhold. }
  assert (Hwith : investment_holding self <> VNone ->
                  fee self <> None /\ number_of_shares self <> None /\
                  price_per_share self <> None /\
                  original_fee_currency self <> VNone /\
                  symbol self <> VNone).
  { intros Hsome.
    destruct (investment_holding self) eqn:Eh; [contradiction| | |];
      cbn [is_None NoneTest_Value] in Hhold;
      repeat (apply assert_bind_Ok in Hhold; destruct Hhold as [? Hhold]);
      apply assert_Ok_iff in Hhold;
      repeat match goal with
             | E : is_not_None _ = true |- _ =>
                 first [apply is_not_None_option_iff in E
                       | apply is_not_None_Value in E]
             end; tauto. }
  tauto.
Qed.

(** X13. Every constructed TransferWithdraw has amount < 0, original_amount < 0,
    a recipient amount > 0 that is the absolute value of the extracted one,
    a rate that is not zero, and a distance between original_amount and
    -recipient_amount / rate, in the arithmetic of the decimal context, of
    at most ABS_TOLERANCE, the float 0.001; without a holding the amount
    equals the original amount, with a holding the fee, shares, price, fee
    currency and symbol are present. *)
Theorem TransferWithdraw_invariants (row : Row) (self : t) :
  __init__ row = Ok self ->
  amount self < 0 /\ original_amount self < 0 /\ 0 < recipient_amount self /\
  (exists raw : Q,
     get_decimal row "ZORIGINALRECIPIENTAMOUNT" = Some raw /\
     recipient_amount self = py_abs raw) /\
  ~ original_exchange_rate self == 0 /\
  approx_distance (original_amount self)
    (decimal_round (decimal_neg (recipient_amount self)
                    / original_exchange_rate self))
  <= ABS_TOLERANCE /\
  (investment_holding self = VNone -> amount self == original_amount self) /\
  (investment_holding self <> VNone ->
   fee self <> None /\ number_of_shares self <> None /\
   price_per_share self <> None /\ original_fee_currency self <> VNone /\
   symbol self <> VNone).
Proof.
  intros H. apply TransferWithdraw_init_Ok in H.
  destruct H as (Hv & _ & _ & Hraw).
  apply TransferWithdraw_validate_Ok in Hv. tauto.
Qed.

(** X17. A TransferWithdraw row without investment holding that meets the
    other requirements is accepted exactly when amount and original amount
    are equal, the exchange rate is not zero, and the distance between
    original_amount and -recipient_amount / rate, in the arithmetic of the
    decimal context, is at most ABS_TOLERANCE, the float 0.001. *)
Theorem TransferWithdraw_accepts_exact (row : Row) (a o r rate : Q) :
  TransferWithdraw_premises row a o r rate ->
  is_ok (__init__ row) = true <->
  a == o /\ ~ rate == 0 /\
  approx_distance o (decimal_round (decimal_neg (py_abs r) / rate))
  <= ABS_TOLERANCE.
Proof.
  intros ((base & Hb) & Ha & (fee & Hfee) & (n & Hn) & (p & Hp) & Ho & Hr
          & (f & Hf) & Hrate & Hhold & Hacc & Hra & Hrt & Hoc & Hrc
          & Hneg & Honeg & Hrpos).
  rewrite (TransferWithdraw_init_eq row base a o r rate fee n p f
             Hb Ha Hfee Hn Hp Ho Hr Hf Hrate).
  rewrite is_ok_validate_then.
  match goal with
  | |- validate ?s = Ok tt <-> _ =>
      rewrite (TransferWithdraw_validate_no_holding s Hhold)
  end.
  unfold amount.
  cbn [super account recipient_account recipient_transaction original_amount
       original_currency recipient_amount recipient_currency
       original_exchange_rate Transaction.amount Transaction.set_amount].
  tauto.
Qed.

Lemma TransferWithdraw_validate_not_InvalidOperation (self : t) :
  validate self <> Raise InvalidOperation.
Proof.
  unfold validate.
  do 11 (step_assert; [|discriminate]).
  match goal with
  | E : Qlt_bool 0 (recipient_amount self) = true |- _ =>
      apply Qlt_bool_iff in E; rename E into Hpos
  end.
  assert (Hnum : Qeq_bool (decimal_neg (recipient_amount self)) 0 = false).
  { apply Qeq_bool_false. intros Ez. unfold decimal_neg in Ez.
    apply (proj1 (decimal_round_zero_iff _)) in Ez. lra. }
  destruct (is_None (investment_holding self));
    repeat (step_assert; [|discriminate]);
    unfold decimal_div;
    (destruct (Qeq_bool (original_exchange_rate self) 0);
     [ rewrite Hnum; discriminate
     | cbn [bind]; step_assert; discriminate ]).
Qed.

Lemma TransferWithdraw_init_not_InvalidOperation (row : Row) :
  __init__ row <> Raise InvalidOperation.
Proof.
  unfold __init__. intros H.
  apply bind_Raise in H. destruct H as [H | (base & _ & H)].
  { apply Transaction_init_Raise in H.
    destruct H as [H | [[c H] | [H | H]]]; discriminate H. }
  repeat (apply bind_Raise in H;
          destruct H as [H | (? & _ & H)];
          [apply accessor_Raise in H; discriminate H|]).
  apply bind_Raise in H. destruct H as [H | (? & _ & H)]; [|discriminate H].
  exact (TransferWithdraw_validate_not_InvalidOperation _ H).
Qed.

(** X14. A TransferWithdraw row with an exchange rate of zero is never
    accepted: when everything else is in order the division raises
    DivisionByZero; no row makes the constructor raise InvalidOperation,
    since the recipient amount is known to be positive before the
    division. *)
Theorem TransferWithdraw_zero_rate :
  (forall row : Row, __init__ row <> Raise InvalidOperation) /\
  (forall (row : Row) (rate : Q),
     get_decimal row "ZORIGINALEXCHANGERATE" = Some rate -> rate == 0 ->
     is_ok (__init__ row) = false) /\
  (forall (row : Row) (a o r rate : Q),
     TransferWithdraw_premises row a o r rate -> a == o -> rate == 0 ->
     __init__ row = Raise DivisionByZero).
Proof.
  split; [exact TransferWithdraw_init_not_InvalidOperation|]. split.
  - intros row rate Hrate Hz.
    destruct (__init__ row) as [self|e] eqn:E; [|reflexivity].
    apply TransferWithdraw_init_Ok in E. destruct E as (Hv & _ & Hr & _).
    apply TransferWithdraw_validate_Ok in Hv.
    destruct Hv as (_ & _ & _ & Hnz & _).
    assert (original_exchange_rate self = rate) by congruence. subst rate.
    contradiction.
  - intros row a o r rate
      ((base & Hb) & Ha & (fee & Hfee) & (n & Hn) & (p & Hp) & Ho & Hr
       & (f & Hf) & Hrate & Hhold & Hacc & Hra & Hrt & Hoc & Hrc
       & Hneg & Honeg & Hrpos) Heq Hz.
    rewrite (TransferWithdraw_init_eq row base a o r rate fee n p f
               Hb Ha Hfee Hn Hp Ho Hr Hf Hrate).
    unfold validate, amount.
    cbn [super account investment_holding recipient_account
         recipient_transaction original_amount original_currency
         recipient_amount recipient_currency original_exchange_rate
         Transaction.amount Transaction.set_amount].
    rewrite Hhold.
    rewrite !(proj2 (is_not_None_Value _)) by assumption.
    apply Qlt_bool_iff in Hneg, Honeg. rewrite Hneg, Honeg.
    pose proof Hrpos as Hrpos'. apply Qlt_bool_iff in Hrpos'. rewrite Hrpos'.
    apply Qeq_bool_iff in Heq. rewrite Heq.
    unfold decimal_div.
    apply Qeq_bool_iff in Hz. rewrite Hz.
    assert (Hnum : Qeq_bool (decimal_neg (py_abs r)) 0 = false).
    { apply Qeq_bool_false. intros Ez. unfold decimal_neg in Ez.
      apply (proj1 (decimal_round_zero_iff _)) in Ez. lra. }
    rewrite Hnum. reflexivity.
Qed.

(** X15. Negating the stored recipient amount of a row does not change what the
    TransferWithdraw constructor returns. *)
Theorem TransferWithdraw_recipient_sign_irrelevant (row1 row2 : Row) :
  agree_except "ZORIGINALRECIPIENTAMOUNT" row1 row2 ->
  get_decimal row2 "ZORIGINALRECIPIENTAMOUNT"
  = option_map Qopp (get_decimal row1 "ZORIGINALRECIPIENTAMOUNT") ->
  __init__ row2 = __init__ row1.
Proof.
  intros [Hbase Hagree] Hopp. unfold __init__.
  destruct (Hagree "ZACCOUNT2") as (H1 & _ & _); [discriminate|].
  destruct (Hagree "ZAMOUNT1") as (_ & H2 & _); [discriminate|].
  destruct (Hagree "ZFEE2") as (_ & _ & H3); [discriminate|].
  destruct (Hagree "ZINVESTMENTHOLDING") as (H4 & _ & _); [discriminate|].
  destruct (Hagree "ZNUMBEROFSHARES1") as (_ & _ & H5); [discriminate|].
  destruct (Hagree "ZPRICEPERSHARE1") as (_ & _ & H6); [discriminate|].
  destruct (Hagree "ZSYMBOL1") as (H7 & _ & _); [discriminate|].
  destruct (Hagree "ZRECIPIENTACCOUNT1") as (H8 & _ & _); [discriminate|].
  destruct (Hagree "ZRECIPIENTTRANSACTION") as (H9 & _ & _); [discriminate|].
  destruct (Hagree "ZORIGINALAMOUNT") as (_ & H10 & _); [discriminate|].
  destruct (Hagree "ZORIGINALCURRENCY") as (H11 & _ & _); [discriminate|].
  destruct (Hagree "ZORIGINALRECIPIENTCURRENCY") as (H12 & _ & _); [discriminate|].
  destruct (Hagree "ZORIGINALFEE") as (_ & _ & H13); [discriminate|].
  destruct (Hagree "ZORIGINALFEECURRENCY") as (H14 & _ & _); [discriminate|].
  destruct (Hagree "ZORIGINALEXCHANGERATE") as (_ & H15 & _); [discriminate|].
  rewrite <- Hbase, <- H1, <- H2, <- H3, <- H4, <- H5, <- H6, <- H7, <- H8,
          <- H9, <- H10, <- H11, <- H12, <- H13, <- H14, <- H15, Hopp.
  destruct (Transaction.__init__ false row1) as [base|e]; [|reflexivity].
  cbn [bind].
  destruct (get_decimal row1 "ZAMOUNT1") as [a|]; [|reflexivity].
  cbn [bind accessor].
  destruct (get_nullable_decimal row1 "ZFEE2") as [fee|]; [|reflexivity].
  cbn [bind accessor].
  destruct (get_nullable_decimal row1 "ZNUMBEROFSHARES1") as [n|]; [|reflexivity].
  cbn [bind accessor].
  destruct (get_nullable_decimal row1 "ZPRICEPERSHARE1") as [p|]; [|reflexivity].
  cbn [bind accessor].
  destruct (get_decimal row1 "ZORIGINALAMOUNT") as [o|]; [|reflexivity].
  cbn [bind accessor].
  destruct (get_decimal row1 "ZORIGINALRECIPIENTAMOUNT") as [r|]; [|reflexivity].
  cbn [bind accessor option_map].
  destruct (get_nullable_decimal row1 "ZORIGINALFEE") as [f|]; [|reflexivity].
  cbn [bind accessor].
  destruct (get_decimal row1 "ZORIGINALEXCHANGERATE") as [rate|]; [|reflexivity].
  cbn [bind accessor].
  rewrite py_abs_opp. reflexivity.
Qed.

End TransferWithdraw.

(** ** The base class *)

Section Base.
Context {RDH : RawDataHandler} {REC : RecordBase}.

(** X16. What [Transaction.__init__] returns, case by case: the failure of
    [Record.__init__] comes first, then a missing amount, then a missing
    date, then a null description; otherwise the instance is returned, with
    [reconciled] true exactly when the stored flag equals 1 and with the
    notes as stored, null or not.  On a null description the message
    [self.as_dict()] of the assertion of line 43 is evaluated: the
    constructor raises AssertionError when the instance has all its
    fields, or when [as_dict] builds a dictionary of a half-built
    instance, and AttributeError when the instance is that of a class
    adding fields and [as_dict] raises it. *)
Theorem Transaction_init_outcome (complete : bool) (row : Row) :
  (Record_init row = None ->
   Transaction.__init__ complete row = Raise RecordError) /\
  (Record_init row <> None -> get_decimal row "ZAMOUNT1" = None ->
   Transaction.__init__ complete row = Raise (MissingField "ZAMOUNT1")) /\
  (Record_init row <> None -> get_decimal row "ZAMOUNT1" <> None ->
   get_datetime row "ZDATE1" = None ->
   Transaction.__init__ complete row = Raise (MissingField "ZDATE1")) /\
  (Record_init row <> None -> get_decimal row "ZAMOUNT1" <> None ->
   get_datetime row "ZDATE1" <> None -> getitem row "ZDESC2" = VNone ->
   Transaction.__init__ complete row
   = (if complete then Raise (AssertionError 43)
      else if as_dict_partial_fails then Raise AttributeError
           else Raise (AssertionError 43))) /\
  (forall (rec : record_fields) (a : Q) (d : Datetime),
     Record_init row = Some rec -> get_decimal row "ZAMOUNT1" = Some a ->
     get_datetime row "ZDATE1" = Some d -> getitem row "ZDESC2" <> VNone ->
     Transaction.__init__ complete row
     = Ok {| Transaction.record := rec;
             Transaction.reconciled := py_eq (getitem row "ZRECONCILED") (VInt 1);
             Transaction.amount := a;
             Transaction.description := getitem row "ZDESC2";
             Transaction.datetime := d;
             Transaction.notes := getitem row "ZNOTES1" |}).
Proof.
  unfold Transaction.__init__.
  split; [|split; [|split; [|split]]].
  - intros ->. reflexivity.
  - intros Hrec ->. destruct (Record_init row); [reflexivity | contradiction].
  - intros Hrec Ha ->. destruct (Record_init row); [|contradiction].
    destruct (get_decimal row "ZAMOUNT1"); [reflexivity | contradiction].
  - intros Hrec Ha Hd ->. destruct (Record_init row); [|contradiction].
    destruct (get_decimal row "ZAMOUNT1"); [|contradiction].
    destruct (get_datetime row "ZDATE1"); [|contradiction].
    unfold as_dict_message. destruct complete; [reflexivity|].
    destruct as_dict_partial_fails; reflexivity.
  - intros rec a d -> -> -> Hd. cbn [super_record accessor bind].
    apply is_not_None_Value in Hd. cbn. rewrite Hd. reflexivity.
Qed.

End Base.

(** ** Reconcile *)

Section Reconcile.
Import ReconcileTransaction.
Context {RDH : RawDataHandler} {REC : RecordBase}.

(** X18. A row whose extraction succeeds is accepted as Reconcile exactly when
    the account is present and at least one of the two balances is not
    null; the instance then carries the two balances as extracted. *)
Theorem Reconcile_accepts (row : Row) (base : Transaction.t)
    (ra rs : option Q) :
  Transaction.__init__ false row = Ok base ->
  get_nullable_decimal row "ZRECONCILEAMOUNT" = Some ra ->
  get_nullable_decimal row "ZRECONCILENUMBEROFSHARES" = Some rs ->
  (is_ok (__init__ row) = true <->
   getitem row "ZACCOUNT2" <> VNone /\ (ra <> None \/ rs <> None)) /\
  (forall self : t,
     __init__ row = Ok self ->
     reconcile_amount self = ra /\ reconcile_number_of_shares self = rs /\
     super self = base).
Proof.
  intros Hb Hra Hrs. unfold __init__. rewrite Hb, Hra, Hrs.
  cbn [bind accessor]. split.
  - rewrite is_ok_validate_then. unfold validate.
    cbn [account reconcile_amount reconcile_number_of_shares].
    rewrite assert_bind_Ok, assert_Ok_iff, is_not_None_Value, orb_true_iff.
    rewrite !is_not_None_option_iff. tauto.
  - intros self H. apply bind_Ok in H. destruct H as (u & _ & [= <-]).
    repeat split; reflexivity.
Qed.

End Reconcile.

(** ** Groups *)

Section Groups.
Context {REC : RecordBase}.

(** X22. A group row is accepted exactly when [Record.__init__] accepts it and
    name and user are present; a null name fails line 29, a null user with
    a name line 30; group id and display order are kept as stored, null or
    not. *)
Theorem Group_accepts (row : Row) :
  (Record_init row = None -> Group.__init__ row = Raise RecordError) /\
  (forall rec : record_fields,
     Record_init row = Some rec ->
     (getitem row "ZNAME4" = VNone ->
      Group.__init__ row = Raise (AssertionError 29)) /\
     (getitem row "ZNAME4" <> VNone -> getitem row "ZUSER5" = VNone ->
      Group.__init__ row = Raise (AssertionError 30)) /\
     (getitem row "ZNAME4" <> VNone -> getitem row "ZUSER5" <> VNone ->
      Group.__init__ row
      = Ok {| Group.record := rec;
              Group.name := getitem row "ZNAME4";
              Group.user := getitem row "ZUSER5";
              Group.group_id := getitem row "ZGROUPID3";
              Group.display_order := getitem row "ZDISPLAYORDER4" |})).
Proof.
  unfold Group.__init__. split.
  - intros ->. reflexivity.
  - intros rec ->. cbn [super_record bind]. split; [|split].
    + intros ->. reflexivity.
    + intros Hn ->. apply is_not_None_Value in Hn. rewrite Hn. reflexivity.
    + intros Hn Hu. apply is_not_None_Value in Hn, Hu. rewrite Hn, Hu.
      reflexivity.
Qed.

(** X23. [get_group_by_group_id] returns the first group, in the order of the
    dictionary, whose group id equals the one asked for, and [None]
    exactly when no group has it; it raises nothing, also on an empty
    dictionary. *)
Theorem get_group_by_group_id_first (records : list (Value * Group.t))
    (group_id : Value) :
  (forall g : Group.t,
     GroupManager.get_group_by_group_id records group_id = Some g ->
     exists (before : list (Value * Group.t)) (key : Value)
            (after : list (Value * Group.t)),
       records = (before ++ (key, g) :: after)%list /\
       py_eq (Group.group_id g) group_id = true /\
       forall kx : Value * Group.t,
         In kx before -> py_eq (Group.group_id (snd kx)) group_id = false) /\
  (GroupManager.get_group_by_group_id records group_id = None <->
   forall kx : Value * Group.t,
     In kx records -> py_eq (Group.group_id (snd kx)) group_id = false).
Proof.
  unfold GroupManager.get_group_by_group_id.
  induction records as [|[k x] records [IH1 IH2]]; cbn [List.filter List.map].
  - split; [discriminate|]. split; [intros _ kx [] | reflexivity].
  - cbn [snd]. destruct (py_eq (Group.group_id x) group_id) eqn:E.
    + split.
      * intros g [= <-]. exists [], k, records.
        split; [reflexivity|]. split; [exact E | intros kx []].
      * split; [discriminate|].
        intros H. specialize (H (k, x) (or_introl eq_refl)). cbn in H. congruence.
    + split.
      * intros g Hg. destruct (IH1 g Hg) as (before & key & after & -> & Hm & Hb).
        exists ((k, x) :: before), key, after.
        split; [reflexivity|]. split; [exact Hm|].
        intros kx [<- | Hin]; [exact E | exact (Hb kx Hin)].
      * rewrite IH2. split.
        -- intros H kx [<- | Hin]; [exact E | exact (H kx Hin)].
        -- intros H kx Hin. apply H. right. exact Hin.
Qed.

End Groups.

(** * Examples *)

Section Examples.
#[local] Existing Instance SpecRDH.rdh.
#[local] Existing Instance SpecRDH.rec.

(** What a constructor returns, by evaluation. *)
Ltac evals := lazymatch goal with |- _ = ?v => exact (@eq_refl _ v) end.

(** Decide a comparison between values that are given in full. *)
Ltac qdec :=
  lazymatch goal with
  | |- @eq (Result _) _ _ => evals
  | |- ~ _ =>
      let H := fresh "H" in
      intros H; vm_compute in H;
      first [ exact (H eq_refl) | discriminate H
            | let H1 := fresh "H" in
              let H2 := fresh "H" in
              destruct H as [H1 H2];
              first [ discriminate H1 | discriminate H2
                    | exact (H1 eq_refl) | exact (H2 eq_refl) ] ]
  | |- _ =>
      vm_compute;
      first [ reflexivity | let H := fresh "H" in intros H; discriminate H ]
  end.

(** Split a conjunction into its parts. *)
Ltac conjs := repeat match goal with |- _ /\ _ => split end.

(** Run a constructor: [E] states what it returns. *)
Ltac run c E :=
  let v := eval vm_compute in c in
  assert (E : c = v) by exact (@eq_refl _ v).

Lemma agree_except_insert (c : string) (v : Value) (row : Row) :
  Transaction.__init__ false row = Transaction.__init__ false (<[c := v]> row) ->
  agree_except c row (<[c := v]> row).
Proof.
  intros Hbase. split; [exact Hbase|].
  intros k Hk.
  assert (Hget : getitem row k = getitem (<[c := v]> row) k).
  { unfold getitem. rewrite lookup_insert_ne by congruence. reflexivity. }
  cbn [get_decimal get_nullable_decimal SpecRDH.rdh].
  unfold SpecRDH.get_nullable_decimal, SpecRDH.get_decimal.
  rewrite Hget. repeat split; reflexivity.
Defined.

Lemma transfer_withdraw_row_premises (amount original : string) (a o : Q) :
  SpecRDH.parse_decimal amount = Some a ->
  SpecRDH.parse_decimal original = Some o ->
  a < 0 -> o < 0 ->
  TransferWithdraw_premises (transfer_withdraw_row amount original) a o 100 1.
Proof.
  intros Pa Po Ha Ho. unfold TransferWithdraw_premises.
  assert (Ea : get_decimal (transfer_withdraw_row amount original) "ZAMOUNT1"
               = Some a) by exact Pa.
  assert (Eo : get_decimal (transfer_withdraw_row amount original)
                 "ZORIGINALAMOUNT" = Some o) by exact Po.
  split.
  { eexists.
    unfold Transaction.__init__. rewrite Ea. reflexivity. }
  split; [exact Ea|].
  do 3 (split; [exists None; reflexivity|]).
  split; [exact Eo|].
  split; [reflexivity|].
  split; [exists None; reflexivity|].
  do 2 (split; [reflexivity|]).
  do 5 (split; [qdec|]).
  split; [exact Ha|]. split; [exact Ho|]. reflexivity.
Defined.

(** *** InvestmentBuy *)

Lemma InvestmentBuy_invariants_witness :
  match InvestmentBuyTransaction.__init__ (buy_row "-501.00") with
  | Ok self =>
      approx_distance
        (buy_value (InvestmentBuyTransaction.number_of_shares self)
                   (InvestmentBuyTransaction.price_per_share self)
                   (InvestmentBuyTransaction.fee self))
        (InvestmentBuyTransaction.amount self) <= ABS_TOLERANCE /\
      Qabs (- (InvestmentBuyTransaction.number_of_shares self
               * InvestmentBuyTransaction.price_per_share self
               + InvestmentBuyTransaction.fee self)
            - InvestmentBuyTransaction.amount self) <= ABS_TOLERANCE /\
      0 < InvestmentBuyTransaction.number_of_shares self /\
      0 <= InvestmentBuyTransaction.price_per_share self /\
      InvestmentBuyTransaction.amount self <= 0
  | Raise _ => False
  end /\
  InvestmentBuyTransaction.__init__ (buy_row "-500.00") = Raise (AssertionError 212).
Proof.
  destruct InvestmentBuy_invariants as [Hinv Hex].
  split.
  - run (InvestmentBuyTransaction.__init__ (buy_row "-501.00")) E.
    destruct (Hinv _ _ E) as (H1 & H2 & H3 & H4 & H5).
    rewrite E. cbv iota.
    split; [exact H1|]. split; [apply H5; qdec|].
    split; [exact H2|]. split; [exact H3 | exact H4].
  - run (Transaction.__init__ false (buy_row "-500.00")) Hb.
    refine (proj2 (Hex (buy_row "-500.00") _ (-500.00) 1.00 10 50.00 Hb
                       _ _ _ _ _ _ _ _ _ _) _); qdec.
Defined.

(** An accepted row on which |-(shares * price + fee) - amount| is above
    0.001: the difference is 0.00100000000000000001, below the float. *)
Lemma InvestmentBuy_tolerance_counterexample :
  exists self : InvestmentBuyTransaction.t,
    InvestmentBuyTransaction.__init__
      (investment_row "-0.9989999998" "0.9999999999" "0.9999999999" "0")
    = Ok self /\
    InvestmentBuyTransaction.number_of_shares self == 0.9999999999 /\
    InvestmentBuyTransaction.price_per_share self == 0.9999999999 /\
    InvestmentBuyTransaction.fee self == 0 /\
    InvestmentBuyTransaction.amount self == -0.9989999998 /\
    Qabs (- (InvestmentBuyTransaction.number_of_shares self
             * InvestmentBuyTransaction.price_per_share self
             + InvestmentBuyTransaction.fee self)
          - InvestmentBuyTransaction.amount self)
    == 0.00100000000000000001 /\
    ~ Qabs (- (InvestmentBuyTransaction.number_of_shares self
               * InvestmentBuyTransaction.price_per_share self
               + InvestmentBuyTransaction.fee self)
            - InvestmentBuyTransaction.amount self) <= 0.001.
Proof.
  run (InvestmentBuyTransaction.__init__
         (investment_row "-0.9989999998" "0.9999999999" "0.9999999999" "0")) E.
  eexists. split; [exact E|].
  conjs; qdec.
Qed.

Lemma InvestmentBuy_accepts_witness :
  is_ok (InvestmentBuyTransaction.__init__
           (<["ZFEE2" := VStr "-0.004"]> (buy_row "-500.00"))) = true.
Proof.
  run (Transaction.__init__ false (<["ZFEE2" := VStr "-0.004"]> (buy_row "-500.00"))) Hb.
  apply (proj2 (InvestmentBuy_accepts _ _ (-500.00) (-0.004) 10 50.00 Hb
                  ltac:(vm_compute; reflexivity) ltac:(vm_compute; reflexivity)
                  ltac:(vm_compute; reflexivity) ltac:(vm_compute; reflexivity))).
  conjs; qdec.
Defined.

Lemma investment_fee_clamped_witness :
  match InvestmentBuyTransaction.__init__
          (<["ZFEE2" := VStr "-0.004"]> (buy_row "-500.00")) with
  | Ok self => InvestmentBuyTransaction.fee self = 0
  | Raise _ => False
  end.
Proof.
  run (InvestmentBuyTransaction.__init__ (<["ZFEE2" := VStr "-0.004"]> (buy_row "-500.00"))) E.
  rewrite E. cbv iota.
  assert (Hraw : get_decimal (<["ZFEE2" := VStr "-0.004"]> (buy_row "-500.00"))
                   "ZFEE2" = Some (-0.004)) by (vm_compute; reflexivity).
  destruct (investment_fee_clamped _ _ Hraw) as (Hbuy & _).
  apply (Hbuy _ E). reflexivity.
Defined.

(** *** InvestmentSell *)

Lemma InvestmentSell_invariants_witness :
  match InvestmentSellTransaction.__init__ (sell_row "-3.00" "5.00") with
  | Ok self =>
      approx_distance
        (sell_value (InvestmentSellTransaction.number_of_shares self)
                    (InvestmentSellTransaction.price_per_share self)
                    (InvestmentSellTransaction.fee self))
        (InvestmentSellTransaction.amount self) <= ABS_TOLERANCE
  | Raise _ => False
  end.
Proof.
  run (InvestmentSellTransaction.__init__ (sell_row "-3.00" "5.00")) E.
  rewrite E. cbv iota.
  exact (proj1 (proj2 (proj2 (proj2 (InvestmentSell_invariants _ _ E))))).
Defined.

Lemma InvestmentSell_accepts_witness :
  is_ok (InvestmentSellTransaction.__init__ (sell_row "-3.00" "5.00")) = true.
Proof.
  run (Transaction.__init__ false (sell_row "-3.00" "5.00")) Hb.
  apply (proj2 (InvestmentSell_accepts (sell_row "-3.00" "5.00") _
                  (-3.00) 5.00 1 2.00 Hb
                  ltac:(vm_compute; reflexivity) ltac:(vm_compute; reflexivity)
                  ltac:(vm_compute; reflexivity) ltac:(vm_compute; reflexivity))).
  conjs; qdec.
Defined.

(** *** The fee check *)



(** *** Deposit *)

Lemma Deposit_invariants_witness :
  match DepositTransaction.__init__
          (deposit_row "100.00" "90.00" (VStr "1.1111")) with
  | Ok self =>
      0 < DepositTransaction.amount self * DepositTransaction.original_amount self /\
      approx_distance (DepositTransaction.amount self)
        (decimal_mul (DepositTransaction.original_amount self) 1.1111)
      <= ABS_TOLERANCE /\
      Qabs (DepositTransaction.amount self
            - DepositTransaction.original_amount self * 1.1111) <= ABS_TOLERANCE
  | Raise _ => False
  end.
Proof.
  run (DepositTransaction.__init__
         (deposit_row "100.00" "90.00" (VStr "1.1111"))) E.
  destruct (Deposit_invariants _ _ E) as [Hsign Hrate].
  destruct (Hrate 1.1111 eq_refl) as [H1 H2].
  rewrite E. cbv iota.
  split; [exact Hsign|]. split; [exact H1 | apply H2; qdec].
Defined.

(** An accepted row on which |amount - original_amount * rate| is above
    0.001: the difference is 0.00100000000000000001, below the float. *)
Lemma Deposit_tolerance_counterexample :
  exists self : DepositTransaction.t,
    DepositTransaction.__init__
      (deposit_row "0.9989999998" "0.9999999999" (VStr "0.9999999999"))
    = Ok self /\
    DepositTransaction.original_exchange_rate self = Some 0.9999999999 /\
    DepositTransaction.amount self == 0.9989999998 /\
    DepositTransaction.original_amount self == 0.9999999999 /\
    Qabs (DepositTransaction.amount self
          - DepositTransaction.original_amount self * 0.9999999999)
    == 0.00100000000000000001 /\
    ~ Qabs (DepositTransaction.amount self
            - DepositTransaction.original_amount self * 0.9999999999) <= 0.001.
Proof.
  run (DepositTransaction.__init__
         (deposit_row "0.9989999998" "0.9999999999" (VStr "0.9999999999"))) E.
  eexists. split; [exact E|].
  conjs; qdec.
Qed.

(** *** TransferDeposit *)

Lemma TransferDeposit_invariants_witness :
  match TransferDepositTransaction.__init__ transfer_deposit_row with
  | Ok self =>
      0 < TransferDepositTransaction.amount self /\
      0 < TransferDepositTransaction.original_amount self /\
      approx_distance (TransferDepositTransaction.original_amount self)
        (decimal_mul (decimal_neg (TransferDepositTransaction.sender_amount self))
                     (TransferDepositTransaction.original_exchange_rate self))
      <= ABS_TOLERANCE /\
      approx_distance (TransferDepositTransaction.amount self)
                      (TransferDepositTransaction.original_amount self)
      <= ABS_TOLERANCE /\
      Qabs (TransferDepositTransaction.original_amount self
            - - TransferDepositTransaction.sender_amount self
              * TransferDepositTransaction.original_exchange_rate self)
      <= ABS_TOLERANCE /\
      Qabs (TransferDepositTransaction.amount self
            - TransferDepositTransaction.original_amount self) <= ABS_TOLERANCE
  | Raise _ => False
  end.
Proof.
  run (TransferDepositTransaction.__init__ transfer_deposit_row) E.
  destruct (TransferDeposit_invariants _ _ E) as (H1 & H2 & _ & H3 & H4 & H5 & H6).
  rewrite E. cbv iota.
  split; [exact H1|]. split; [exact H2|]. split; [exact H3|].
  split; [apply H4; reflexivity|].
  split; [apply H5; qdec | apply H6; [reflexivity | qdec]].
Defined.

(** An accepted row on which |original_amount - (-sender_amount * rate)| is
    above 0.001: the difference is 0.00100000000000000001. *)
Lemma TransferDeposit_tolerance_counterexample :
  exists self : TransferDepositTransaction.t,
    TransferDepositTransaction.__init__
      (transfer_deposit_row_of "0.9989999998" "0.9989999998" "-0.9999999999"
                               "0.9999999999")
    = Ok self /\
    TransferDepositTransaction.investment_holding self = VNone /\
    TransferDepositTransaction.amount self == 0.9989999998 /\
    TransferDepositTransaction.original_amount self == 0.9989999998 /\
    TransferDepositTransaction.sender_amount self == -0.9999999999 /\
    TransferDepositTransaction.original_exchange_rate self == 0.9999999999 /\
    Qabs (TransferDepositTransaction.original_amount self
          - - TransferDepositTransaction.sender_amount self
            * TransferDepositTransaction.original_exchange_rate self)
    == 0.00100000000000000001 /\
    ~ Qabs (TransferDepositTransaction.original_amount self
            - - TransferDepositTransaction.sender_amount self
              * TransferDepositTransaction.original_exchange_rate self)
      <= 0.001.
Proof.
  run (TransferDepositTransaction.__init__
         (transfer_deposit_row_of "0.9989999998" "0.9989999998" "-0.9999999999"
                                  "0.9999999999")) E.
  eexists. split; [exact E|].
  conjs; qdec.
Qed.

Lemma TransferDeposit_accepts_witness :
  is_ok (TransferDepositTransaction.__init__ transfer_deposit_holding_row) = true.
Proof.
  run (Transaction.__init__ false transfer_deposit_holding_row) Hb.
  apply (proj2 (TransferDeposit_accepts transfer_deposit_holding_row _
                  250 (-100.00) (-90.00) 1.1111 (Some 2) (Some 125) Hb
                  ltac:(qdec) ltac:(qdec) ltac:(qdec) ltac:(qdec)
                  ltac:(qdec) ltac:(qdec))).
  do 9 (split; [qdec|]).
  right. conjs; qdec.
Defined.

Lemma TransferDeposit_original_sign_irrelevant_witness :
  TransferDepositTransaction.__init__
    (<["ZORIGINALAMOUNT" := VStr "100.00"]> transfer_deposit_row)
  = TransferDepositTransaction.__init__ transfer_deposit_row.
Proof.
  apply TransferDeposit_original_sign_irrelevant.
  - apply agree_except_insert. evals.
  - qdec.
Defined.

(** *** Withdraw *)

Lemma Withdraw_sign_fix_witness :
  0 < -100.005 * decimal_neg 100 /\
  exists self : WithdrawTransaction.t,
    WithdrawTransaction.__init__ (deposit_row "-100.005" "100" (VStr "1"))
    = Ok self /\
    WithdrawTransaction.original_amount self = - 100 /\
    WithdrawTransaction.original_exchange_rate self = Some 1.
Proof.
  assert (Hneg : -100.005 * 100 < 0) by reflexivity.
  assert (Ha : get_decimal (deposit_row "-100.005" "100" (VStr "1")) "ZAMOUNT1"
               = Some (-100.005)) by qdec.
  assert (Ho : get_decimal (deposit_row "-100.005" "100" (VStr "1"))
                 "ZORIGINALAMOUNT" = Some 100) by qdec.
  assert (Hr : get_nullable_decimal (deposit_row "-100.005" "100" (VStr "1"))
                 "ZORIGINALEXCHANGERATE" = Some (Some 1)) by qdec.
  destruct (Withdraw_sign_fix _ _ _ Ha Ho Hneg) as (Hself & Hpos & Hacc).
  split; [exact Hpos|].
  run (Transaction.__init__ false (deposit_row "-100.005" "100" (VStr "1"))) Hb.
  assert (Hdist : approx_distance (-100.005) (decimal_mul (decimal_neg 100) 1)
                  <= ABS_TOLERANCE2) by qdec.
  destruct (proj2 (Hacc _ (Some 1) 1 Hb Hr eq_refl ltac:(qdec) ltac:(qdec)) Hdist)
    as (self & E & Erate).
  exists self. split; [exact E|]. split; [|exact Erate].
  apply (Hself self E). qdec.
Defined.

(** An accepted row on which |amount - original_amount * rate| is above
    0.01: the difference is 0.01000000000000000001, below the float. *)
Lemma Withdraw_tolerance_counterexample :
  exists self : WithdrawTransaction.t,
    WithdrawTransaction.__init__
      (deposit_row "-0.9899999998" "0.9999999999" (VStr "0.9999999999"))
    = Ok self /\
    WithdrawTransaction.original_exchange_rate self = Some 0.9999999999 /\
    WithdrawTransaction.amount self == -0.9899999998 /\
    WithdrawTransaction.original_amount self == -0.9999999999 /\
    Qabs (WithdrawTransaction.amount self
          - WithdrawTransaction.original_amount self * 0.9999999999)
    == 0.01000000000000000001 /\
    ~ Qabs (WithdrawTransaction.amount self
            - WithdrawTransaction.original_amount self * 0.9999999999) <= 0.01.
Proof.
  run (WithdrawTransaction.__init__
         (deposit_row "-0.9899999998" "0.9999999999" (VStr "0.9999999999"))) E.
  eexists. split; [exact E|].
  conjs; qdec.
Qed.

Lemma Withdraw_invariants_witness :
  match WithdrawTransaction.__init__ (deposit_row "-100.005" "100" (VStr "1")) with
  | Ok self =>
      0 < WithdrawTransaction.amount self * WithdrawTransaction.original_amount self /\
      approx_distance (WithdrawTransaction.amount self)
        (decimal_mul (WithdrawTransaction.original_amount self) 1)
      <= ABS_TOLERANCE2
  | Raise _ => False
  end.
Proof.
  run (WithdrawTransaction.__init__ (deposit_row "-100.005" "100" (VStr "1"))) E.
  destruct (Withdraw_invariants _ _ E) as (H1 & _ & H2).
  rewrite E. cbv iota.
  split; [exact H1 | exact (proj2 (H2 1 eq_refl))].
Defined.

Lemma Withdraw_accepts_witness :
  is_ok (WithdrawTransaction.__init__ (deposit_row "-100.005" "100" (VStr "1")))
  = true.
Proof.
  run (Transaction.__init__ false (deposit_row "-100.005" "100" (VStr "1"))) Hb.
  apply (proj2 (Withdraw_accepts _ _ (-100.005) 100 (Some 1) Hb
                  ltac:(qdec) ltac:(qdec) ltac:(qdec))).
  split; [qdec|]. split; [qdec|]. split; [qdec|].
  intros rate [= <-] _. qdec.
Defined.

Lemma Withdraw_original_sign_irrelevant_witness :
  WithdrawTransaction.__init__
    (<["ZORIGINALAMOUNT" := VStr "-100"]> (deposit_row "-100" "100" (VStr "1")))
  = WithdrawTransaction.__init__ (deposit_row "-100" "100" (VStr "1")).
Proof.
  apply Withdraw_original_sign_irrelevant.
  - apply agree_except_insert. evals.
  - qdec.
  - intros o Ho.
    assert (Hv : get_decimal (deposit_row "-100" "100" (VStr "1"))
                   "ZORIGINALAMOUNT" = Some 100) by qdec.
    rewrite Hv in Ho. injection Ho as <-. qdec.
Defined.

(** With a stored original amount of 29 significant digits the sign that
    is stored matters: the negation of the fix rounds it. *)
Lemma Withdraw_original_sign_long_amount :
  WithdrawTransaction.__init__
    (<["ZORIGINALAMOUNT" := VStr "-1.0000000000000000000000000001"]>
       (deposit_row "1" long_amount VNone))
  <> WithdrawTransaction.__init__ (deposit_row "1" long_amount VNone).
Proof.
  run (WithdrawTransaction.__init__
         (<["ZORIGINALAMOUNT" := VStr "-1.0000000000000000000000000001"]>
            (deposit_row "1" long_amount VNone))) E2.
  run (WithdrawTransaction.__init__ (deposit_row "1" long_amount VNone)) E1.
  rewrite E1, E2. intros H.
  apply (f_equal (fun r => match r with
                           | Ok self => Qnum (WithdrawTransaction.original_amount self)
                           | Raise _ => 0%Z
                           end)) in H.
  vm_compute in H. discriminate H.
Qed.

Lemma zero_amount_rejected_witness :
  DepositTransaction.__init__ (deposit_row "0" "50.00" VNone)
  = Raise (AssertionError 88) /\
  WithdrawTransaction.__init__ (deposit_row "0" "50.00" VNone)
  = Raise (AssertionError 585).
Proof.
  assert (Hz : 0 == 0 \/ 50.00 == 0) by (left; reflexivity).
  assert (Ha : get_decimal (deposit_row "0" "50.00" VNone) "ZAMOUNT1" = Some 0)
    by qdec.
  assert (Ho : get_decimal (deposit_row "0" "50.00" VNone) "ZORIGINALAMOUNT"
               = Some 50.00) by qdec.
  assert (Hr : get_nullable_decimal (deposit_row "0" "50.00" VNone)
                 "ZORIGINALEXCHANGERATE" = Some None) by qdec.
  destruct (zero_amount_rejected _ _ _ Ha Ho Hz) as (_ & _ & _ & _ & _ & H).
  run (Transaction.__init__ false (deposit_row "0" "50.00" VNone)) Hb.
  destruct (H _ None Hb Hr) as (_ & _ & Hline).
  apply Hline; qdec.
Defined.

(** *** Refund, and a stored rate of zero *)

Lemma Refund_invariants_witness :
  match RefundTransaction.__init__
          (deposit_row "100.00" "90.00" (VStr "1.1111")) with
  | Ok self =>
      0 < RefundTransaction.amount self /\
      0 < RefundTransaction.original_amount self /\
      approx_distance (RefundTransaction.amount self)
        (decimal_mul (RefundTransaction.original_amount self) 1.1111)
      <= ABS_TOLERANCE
  | Raise _ => False
  end.
Proof.
  run (RefundTransaction.__init__
         (deposit_row "100.00" "90.00" (VStr "1.1111"))) E.
  destruct (Refund_invariants _ _ E) as (H1 & H2 & _ & _ & H3).
  rewrite E. cbv iota.
  split; [exact H1|]. split; [exact H2 | exact (proj2 (H3 1.1111 eq_refl))].
Defined.

Lemma Refund_Deposit_Withdraw_witness :
  is_ok (WithdrawTransaction.__init__
           (deposit_row "100.00" "90.00" (VStr "1.1111"))) = true.
Proof.
  run (RefundTransaction.__init__
         (deposit_row "100.00" "90.00" (VStr "1.1111"))) E.
  destruct (Refund_Deposit_Withdraw (deposit_row "100.00" "90.00" (VStr "1.1111")))
    as [Hrd Hdw].
  destruct (Hrd _ E) as (d & Hd & _).
  destruct (Hdw d Hd) as (w & Hw & _).
  rewrite Hw. reflexivity.
Defined.

Lemma zero_rate_is_no_rate_witness :
  is_ok (DepositTransaction.__init__ (deposit_row "100.00" "7.00" (VInt 0))) = true.
Proof.
  run (Transaction.__init__ false (deposit_row "100.00" "7.00" (VInt 0))) Hb.
  assert (Hz : 0 == 0) by reflexivity.
  destruct (zero_rate_is_no_rate (deposit_row "100.00" "7.00" (VInt 0)) _
              100.00 7.00 0 Hb ltac:(qdec) ltac:(qdec) ltac:(qdec) Hz)
    as (_ & _ & _ & Hd & _).
  apply Hd. conjs; qdec.
Defined.

(** *** TransferWithdraw *)

(** C4. The row with amount -100.0005, original amount -100, recipient
    amount 100, rate 1 and no investment holding meets every other
    requirement of TransferWithdraw, its amount is within 0.001 of its
    original amount and its original amount equals
    -recipient_amount / rate, and the constructor fails the assertion of
    line 526, which compares amount and original amount with [==]; the
    same row with amount -100 is accepted, and so is the TransferDeposit
    row with the same amounts on the other leg, whose assertion of line
    438 compares them within ABS_TOLERANCE. *)
Theorem TransferWithdraw_amount_check_is_exact :
  TransferWithdraw_premises (transfer_withdraw_row "-100.0005" "-100")
                            (-100.0005) (-100) 100 1 /\
  Qabs (-100.0005 - -100) <= 0.001 /\
  approx (-100.0005) (-100) ABS_TOLERANCE = true /\
  Qabs (-100 - - py_abs 100 / 1) <= 0.001 /\
  approx (-100) (decimal_round (decimal_neg (py_abs 100) / 1)) ABS_TOLERANCE
  = true /\
  TransferWithdrawTransaction.__init__ (transfer_withdraw_row "-100.0005" "-100")
  = Raise (AssertionError 526) /\
  is_ok (TransferWithdrawTransaction.__init__ (transfer_withdraw_row "-100" "-100"))
  = true /\
  is_ok (TransferDepositTransaction.__init__
           (transfer_deposit_row_of "100.0005" "100" "-100" "1")) = true.
Proof.
  split; [apply transfer_withdraw_row_premises; qdec|].
  conjs; qdec.
Qed.

Lemma TransferWithdraw_accepts_exact_witness :
  is_ok (TransferWithdrawTransaction.__init__ (transfer_withdraw_row "-100" "-100"))
  = true.
Proof.
  assert (Hp : TransferWithdraw_premises
                 (transfer_withdraw_row "-100" "-100") (-100) (-100) 100 1).
  { apply transfer_withdraw_row_premises; qdec. }
  apply (proj2 (TransferWithdraw_accepts_exact _ _ _ _ _ Hp)).
  split; [reflexivity|]. split; qdec.
Defined.

Lemma TransferWithdraw_invariants_witness :
  match TransferWithdrawTransaction.__init__
          (transfer_withdraw_row "-100" "-100") with
  | Ok self =>
      TransferWithdrawTransaction.amount self < 0 /\
      TransferWithdrawTransaction.original_amount self < 0 /\
      0 < TransferWithdrawTransaction.recipient_amount self /\
      approx_distance (TransferWithdrawTransaction.original_amount self)
        (decimal_round
           (decimal_neg (TransferWithdrawTransaction.recipient_amount self)
            / TransferWithdrawTransaction.original_exchange_rate self))
      <= ABS_TOLERANCE
  | Raise _ => False
  end.
Proof.
  run (TransferWithdrawTransaction.__init__
         (transfer_withdraw_row "-100" "-100")) E.
  destruct (TransferWithdraw_invariants _ _ E) as (H1 & H2 & H3 & _ & _ & H4 & _).
  rewrite E. cbv iota.
  split; [exact H1|]. split; [exact H2|]. split; [exact H3 | exact H4].
Defined.

Lemma TransferWithdraw_zero_rate_witness :
  TransferWithdrawTransaction.__init__
    (<["ZORIGINALEXCHANGERATE" := VInt 0]> (transfer_withdraw_row "-100" "-100"))
  = Raise DivisionByZero.
Proof.
  destruct TransferWithdraw_zero_rate as (_ & _ & Hdiv).
  apply (Hdiv _ (-100) (-100) 100 0); [|reflexivity|reflexivity].
  unfold TransferWithdraw_premises.
  run (Transaction.__init__ false
         (<["ZORIGINALEXCHANGERATE" := VInt 0]>
            (transfer_withdraw_row "-100" "-100"))) Hb.
  split; [eexists; exact Hb|].
  split; [qdec|].
  do 3 (split; [exists None; qdec|]).
  do 2 (split; [qdec|]).
  split; [exists None; qdec|].
  do 2 (split; [qdec|]).
  do 5 (split; [qdec|]).
  split; [reflexivity|]. split; [reflexivity | qdec].
Defined.

Lemma TransferWithdraw_recipient_sign_irrelevant_witness :
  TransferWithdrawTransaction.__init__
    (<["ZORIGINALRECIPIENTAMOUNT" := VStr "-100"]>
       (transfer_withdraw_row "-100" "-100"))
  = TransferWithdrawTransaction.__init__ (transfer_withdraw_row "-100" "-100").
Proof.
  apply TransferWithdraw_recipient_sign_irrelevant.
  - apply agree_except_insert. evals.
  - qdec.
Defined.

(** *** InvestmentExchange *)


Lemma InvestmentExchange_null_original_fee_witness :
  InvestmentExchangeTransaction.__init__ (<["ZORIGINALFEE" := VNone]> exchange_row)
  = Raise TypeError.
Proof.
  assert (Hnull : getitem (<["ZORIGINALFEE" := VNone]> exchange_row) "ZORIGINALFEE"
                  = VNone) by qdec.
  destruct (InvestmentExchange_null_original_fee _ Hnull) as [_ Hraise].
  run (Transaction.__init__ false (<["ZORIGINALFEE" := VNone]> exchange_row)) Hb.
  apply (Hraise _ 5 Hb); qdec.
Defined.

(** *** The base class and Reconcile *)

Lemma Transaction_init_outcome_witness :
  Transaction.__init__ false base_row = Raise (MissingField "ZAMOUNT1") /\
  Transaction.__init__ false (<["ZDESC2" := VNone]> (buy_row "-501.00"))
  = Raise AttributeError /\
  Transaction.__init__ true (<["ZDESC2" := VNone]> (buy_row "-501.00"))
  = Raise (AssertionError 43).
Proof.
  split; [|split].
  - destruct (Transaction_init_outcome false base_row) as (_ & Hamount & _).
    apply Hamount; qdec.
  - destruct (Transaction_init_outcome false
                (<["ZDESC2" := VNone]> (buy_row "-501.00")))
      as (_ & _ & _ & Hdesc & _).
    apply Hdesc; qdec.
  - destruct (Transaction_init_outcome true
                (<["ZDESC2" := VNone]> (buy_row "-501.00")))
      as (_ & _ & _ & Hdesc & _).
    apply Hdesc; qdec.
Defined.

Lemma Reconcile_accepts_witness :
  is_ok (ReconcileTransaction.__init__ reconcile_row) = true.
Proof.
  run (Transaction.__init__ false reconcile_row) Hb.
  destruct (Reconcile_accepts reconcile_row _ (Some 1234.56) None Hb
              ltac:(qdec) ltac:(qdec))
    as [Hacc _].
  apply Hacc. split; [qdec | left; discriminate].
Defined.

(** *** InvestmentHolding *)

Lemma investment_object_type_closed_witness :
  InvestmentHolding.__init__ (holding_row (VInt 7))
  = Raise (RuntimeError "Invalid type " (VInt 7)) /\
  match InvestmentHolding.__init__ (holding_row (VInt 1)) with
  | Ok self => InvestmentHolding.investment_object_type self = "Forex/Crypto"
  | Raise _ => False
  end.
Proof.
  destruct investment_object_type_closed as (_ & _ & _ & _ & Hrow & _ & Hmap).
  split.
  - assert (Hin : py_in (getitem (holding_row (VInt 7)) "ZINVESTMENTOBJECTTYPE")
                    [VInt 0; VInt 1] = false) by qdec.
    destruct (Hrow (holding_row (VInt 7)) Hin) as (_ & _ & Hraise).
    apply (Hraise (VInt 2) None 12); qdec.
  - run (InvestmentHolding.__init__ (holding_row (VInt 1))) E.
    rewrite E. cbv iota.
    exact (proj2 (Hmap _ _ E) eq_refl).
Defined.

Lemma InvestmentHolding_accepts_witness :
  is_ok (InvestmentHolding.__init__ (holding_row (VInt 1))) = true.
Proof.
  assert (Hrec : Record_init (holding_row (VInt 1))
                 = Some (VInt 2 : @record_fields SpecRDH.rec)) by qdec.
  destruct (@InvestmentHolding_accepts SpecRDH.rdh SpecRDH.rec
              (holding_row (VInt 1)) _ None 12 0 Hrec
              ltac:(qdec) ltac:(qdec) ltac:(qdec))
    as [Hacc _].
  apply Hacc. conjs; qdec.
Defined.

Lemma as_dict_hides_cost_basis_witness :
  match InvestmentHolding.as_dict example_super_as_dict example_holding with
  | inr d =>
      d !! "_cost_basis_of_missing_ob_shares" = None /\
      d !! "symbol" = Some (VStr "ACME")
  | inl _ => False
  end.
Proof.
  pose proof (as_dict_hides_cost_basis example_super_as_dict example_holding) as H.
  destruct (InvestmentHolding.as_dict example_super_as_dict example_holding)
    as [e|d].
  - destruct H as [_ H]. vm_compute in H. discriminate H.
  - destruct H as (H1 & H2 & _). split; [exact H1|].
    rewrite H2 by discriminate. vm_compute. reflexivity.
Defined.

(** *** Groups *)

Lemma Group_accepts_witness :
  is_ok (Group.__init__ group_row) = true.
Proof.
  destruct (Group_accepts group_row) as [_ H].
  assert (Hrec : Record_init group_row
                 = Some (VInt 9 : @record_fields SpecRDH.rec)) by qdec.
  destruct (H _ Hrec) as (_ & _ & Hok).
  rewrite Hok; [reflexivity | qdec | qdec].
Defined.

Lemma get_group_by_group_id_first_witness :
  py_eq (Group.group_id (example_group 2 20)) (VInt 20) = true /\
  GroupManager.get_group_by_group_id example_groups (VInt 30) = None.
Proof.
  destruct (get_group_by_group_id_first example_groups (VInt 20)) as [Hsome _].
  destruct (Hsome (example_group 2 20) eq_refl) as (_ & _ & _ & _ & Hm & _).
  split; [exact Hm|].
  destruct (get_group_by_group_id_first example_groups (VInt 30)) as [_ Hnone].
  apply Hnone. intros kx Hin.
  repeat (destruct Hin as [<- | Hin]; [reflexivity|]). destruct Hin.
Defined.

End Examples.
